(** * Haste GRU: the TensorFlow operator glue and the element-wise primitives

    A shallow embedding of [lib/inline_ops.h] and [frameworks/tf/gru.cc]:
    the activation-derivative templates, the process-wide cuBLAS handle
    cache, and the two operator kernels [HasteGruOp::Compute] and
    [HasteGruGradOp::Compute] that drive [ForwardPass::Iterate] and
    [BackwardPass::Iterate] over the time axis. *)

From Stdlib Require Import ZArith List Bool Lia Reals Lra.
From Stdlib Require Import Floats.SpecFloat.
Import ListNotations.

Set Implicit Arguments.

(* ====================================================================== *)
(** * lib/inline_ops.h *)
(* ====================================================================== *)

Module InlineOps.

(** The templates are written against a scalar type [T] that offers the
    arithmetic of [float] and [double]: the constant [static_cast<T>(1.0)],
    the four operations, unary minus and [exp]. *)
Class Scalar (T : Type) : Type := {
  s_one : T;
  s_add : T -> T -> T;
  s_sub : T -> T -> T;
  s_mul : T -> T -> T;
  s_div : T -> T -> T;
  s_neg : T -> T;
  s_exp : T -> T
}.

Section Templates.
Context {T : Type} `{Scalar T}.

(** [T sigmoid(const T x)] *)
Definition sigmoid (x : T) : T :=
  s_div s_one (s_add s_one (s_exp (s_neg x))).

(** [T d_sigmoid(const T sigmoid_output)] *)
Definition d_sigmoid (sigmoid_output : T) : T :=
  s_mul sigmoid_output (s_sub s_one sigmoid_output).

(** [T d_tanh(const T tanh_output)] *)
Definition d_tanh (tanh_output : T) : T :=
  s_sub s_one (s_mul tanh_output tanh_output).
End Templates.

(** The templates read over the real numbers: the exact arithmetic that
    the two floating-point instances approximate. *)
#[export] Instance Scalar_R : Scalar R := {|
  s_one := 1%R;
  s_add := Rplus;
  s_sub := Rminus;
  s_mul := Rmult;
  s_div := Rdiv;
  s_neg := Ropp;
  s_exp := exp
|}.

End InlineOps.

(** The indices [0, 1, ..., n-1] that a counting loop
    [for (i = 0; i < n; ++i)] visits, in order; none when [n <= 0]. *)
Definition range (n : Z) : list Z := map Z.of_nat (seq 0 (Z.to_nat n)).

(* ====================================================================== *)
(** * The CUDA runtime and the cuBLAS handle cache (gru.cc, lines 41-70) *)
(* ====================================================================== *)

Module Cuda.

(** A cuBLAS handle is an opaque identity; the runtime numbers them in
    creation order. *)
Definition cublasHandle_t := nat.

(** What the process can observe of the CUDA runtime: the number of
    devices, the currently selected device, the handles that exist (each
    bound to the device that was current when it was created), the handles
    destroyed so far, and the next fresh handle identity. *)
Record Runtime : Type := mkRuntime {
  rt_device_count : Z;
  rt_current_device : Z;
  rt_live : list (cublasHandle_t * Z);
  rt_destroyed : list cublasHandle_t;
  rt_next : cublasHandle_t
}.

Definition cudaGetDevice (rt : Runtime) : Z := rt_current_device rt.

Definition cudaGetDeviceCount (rt : Runtime) : Z := rt_device_count rt.

(** [cudaSetDevice(i)] selects device [i]; an invalid ordinal is an error
    (which the caller here ignores) and leaves the selection as it was. *)
Definition cudaSetDevice (i : Z) (rt : Runtime) : Runtime :=
  if (0 <=? i)%Z && (i <? rt_device_count rt)%Z
  then mkRuntime (rt_device_count rt) i (rt_live rt) (rt_destroyed rt) (rt_next rt)
  else rt.

(** [cublasCreate(&handle)] makes a fresh handle on the current device. *)
Definition cublasCreate (rt : Runtime) : cublasHandle_t * Runtime :=
  (rt_next rt,
   mkRuntime (rt_device_count rt) (rt_current_device rt)
             (rt_live rt ++ [(rt_next rt, rt_current_device rt)])
             (rt_destroyed rt) (S (rt_next rt))).

Definition cublasDestroy (h : cublasHandle_t) (rt : Runtime) : Runtime :=
  mkRuntime (rt_device_count rt) (rt_current_device rt)
            (filter (fun e => negb (Nat.eqb (fst e) h)) (rt_live rt))
            (rt_destroyed rt ++ [h]) (rt_next rt).

(** The body of the constructor's loop, [for (int i = 0; i < count; ++i)]:
    select device [i], create a handle there, push it. *)
Fixpoint create_handles (idxs : list Z) (handles : list cublasHandle_t)
         (rt : Runtime) : list cublasHandle_t * Runtime :=
  match idxs with
  | [] => (handles, rt)
  | i :: rest =>
      let rt1 := cudaSetDevice i rt in
      let (handle, rt2) := cublasCreate rt1 in
      create_handles rest (handles ++ [handle]) rt2
  end.

(** [CublasHandleContainer::CublasHandleContainer()] *)
Definition CublasHandleContainer_ctor (rt : Runtime)
  : list cublasHandle_t * Runtime :=
  let current_device := cudaGetDevice rt in
  let count := cudaGetDeviceCount rt in
  let (handles, rt') := create_handles (range count) [] rt in
  (handles, cudaSetDevice current_device rt').

(** [CublasHandleContainer::~CublasHandleContainer()] *)
Definition CublasHandleContainer_dtor (handles : list cublasHandle_t)
           (rt : Runtime) : Runtime :=
  fold_left (fun r h => cublasDestroy h r) handles rt.

(** The process: the runtime together with the function-local
    [static CublasHandleContainer all_handles], which does not exist
    ([None]) until control first passes through its declaration. *)
Record Process : Type := mkProcess {
  runtime : Runtime;
  all_handles : option (list cublasHandle_t)
}.

(** [static cublasHandle_t GetCublasHandle()].  Indexing the vector out of
    its bounds has no defined result: [None]. *)
Definition GetCublasHandle (p : Process) : option cublasHandle_t * Process :=
  let p1 :=
    match all_handles p with
    | Some _ => p
    | None =>
        let (handles, rt') := CublasHandleContainer_ctor (runtime p) in
        mkProcess rt' (Some handles)
    end in
  let device := cudaGetDevice (runtime p1) in
  let handles := match all_handles p1 with Some hs => hs | None => [] end in
  ((if (0 <=? device)%Z then nth_error handles (Z.to_nat device) else None), p1).

(** Process shutdown runs the destructor of the static container, if it
    was ever constructed. *)
Definition process_exit (p : Process) : Process :=
  match all_handles p with
  | Some hs => mkProcess (CublasHandleContainer_dtor hs (runtime p)) None
  | None => p
  end.

(** What the rest of the process does to this state between two kernels:
    it looks a handle up, or it selects another device. *)
Inductive action : Type :=
| Lookup
| SelectDevice (d : Z).

(** Running a sequence of actions; every lookup is recorded with the
    device that was current when it was made and the handle it returned. *)
Fixpoint run (acts : list action) (p : Process)
  : list (Z * option cublasHandle_t) * Process :=
  match acts with
  | [] => ([], p)
  | Lookup :: rest =>
      let d := cudaGetDevice (runtime p) in
      let (r, p1) := GetCublasHandle p in
      let (rs, p2) := run rest p1 in
      ((d, r) :: rs, p2)
  | SelectDevice d :: rest =>
      run rest (mkProcess (cudaSetDevice d (runtime p)) (all_handles p))
  end.

(** A freshly started process on a machine with [count] devices, device
    [current] selected: no handle exists yet. *)
Definition fresh_process (count current : Z) : Process :=
  mkProcess (mkRuntime count current [] [] 0) None.

(** The handles bound to device [d]. *)
Definition handles_on (d : Z) (rt : Runtime) : list cublasHandle_t :=
  map fst (filter (fun e => Z.eqb (snd e) d) (rt_live rt)).

Definition is_lookup (a : action) : bool :=
  match a with Lookup => true | SelectDevice _ => false end.

(** A process state in which a lookup is defined: a valid device is
    selected and the container, if it exists, has one entry per device. *)
Definition wf (p : Process) : Prop :=
  (0 <= rt_current_device (runtime p) < rt_device_count (runtime p))%Z /\
  match all_handles p with
  | None => True
  | Some hs => length hs = Z.to_nat (rt_device_count (runtime p))
  end.

(** The states a process started by [fresh_process count _] can be in:
    nothing was destroyed, and either no handle exists and the container
    does not either, or the container holds the handles [0 .. count-1],
    the [k]-th bound to device [k], and no other handle exists. *)
Definition cached (count : Z) (p : Process) : Prop :=
  rt_device_count (runtime p) = count /\
  (0 <= rt_current_device (runtime p) < count)%Z /\
  rt_destroyed (runtime p) = [] /\
  match all_handles p with
  | None => rt_live (runtime p) = [] /\ rt_next (runtime p) = 0%nat
  | Some hs =>
      hs = seq 0 (Z.to_nat count) /\
      rt_live (runtime p) = combine hs (range count)
  end.

End Cuda.

(* ====================================================================== *)
(** * The TensorFlow tensor interface the kernels are written against *)
(* ====================================================================== *)

Module TF.

Definition int64_max : Z := 2 ^ 63 - 1.

(** Arithmetic on [int64] values, with the wrap-around written out. *)
Definition wrap64 (z : Z) : Z := ((z + 2 ^ 63) mod 2 ^ 64 - 2 ^ 63)%Z.
Definition mul64 (a b : Z) : Z := wrap64 (a * b).
Definition sub64 (a b : Z) : Z := wrap64 (a - b).
Definition add64 (a b : Z) : Z := wrap64 (a + b).

Definition TensorShape := list Z.

Fixpoint num_elements (s : TensorShape) : Z :=
  match s with
  | [] => 1
  | d :: rest => d * num_elements rest
  end.

(** Device allocations.  The caller's allocations (they hold the input
    tensors) are numbered by the caller; an allocation made by a kernel is
    named by what it backs: the [k]-th output, or the [k]-th temporary, of
    the call. *)
Inductive buffer : Type :=
| InputBuf (k : nat)
| OutputBuf (k : nat)
| TempBuf (k : nat).

Definition buffer_eqb (a b : buffer) : bool :=
  match a, b with
  | InputBuf i, InputBuf j => Nat.eqb i j
  | OutputBuf i, OutputBuf j => Nat.eqb i j
  | TempBuf i, TempBuf j => Nat.eqb i j
  | _, _ => false
  end.

(** A device pointer: [nullptr], or an element offset into an allocation. *)
Definition pointer := option (buffer * Z).
Definition nullptr : pointer := None.

(** A tensor is a shape and a (possibly null) reference into a buffer;
    slices share the buffer of the tensor they are cut from. *)
Record Tensor : Type := mkTensor {
  shape : TensorShape;
  buf_ : pointer
}.

Inductive Status : Type :=
| InvalidArgument
| ResourceExhausted.

(** How a piece of kernel code ends: normally, by setting an error status
    on the context and returning ([OP_REQUIRES]), or by a failed [CHECK]
    (or otherwise undefined behaviour), which ends the process. *)
Inductive outcome (X : Type) : Type :=
| Done (x : X)
| Failed (s : Status)
| Crashed.
Arguments Done {X} x.
Arguments Failed {X} s.
Arguments Crashed {X}.

(** Sequencing of code that may fail, without state. *)
Definition obind {X Y : Type} (o : outcome X) (k : X -> outcome Y) : outcome Y :=
  match o with
  | Done v => k v
  | Failed s => Failed s
  | Crashed => Crashed
  end.

(** [TensorShape{d0, d1, ...}]: every dimension is checked to be
    non-negative and the running element count to fit [int64]. *)
Fixpoint add_dims (n : Z) (dims : list Z) : bool :=
  match dims with
  | [] => true
  | d :: rest =>
      (0 <=? d)%Z && (n * d <=? int64_max)%Z && add_dims (n * d) rest
  end.

Definition make_shape (dims : list Z) : outcome TensorShape :=
  if add_dims 1 dims then Done dims else Crashed.

(** [t.shape().dim_size(d)] *)
Definition dim_size (t : Tensor) (d : nat) : outcome Z :=
  match nth_error (shape t) d with
  | Some n => Done n
  | None => Crashed
  end.

(** [t.NumElements()] *)
Definition NumElements (t : Tensor) : Z := num_elements (shape t).

(** [t.flat<T>().data()] and [t.unaligned_flat<T>().data()] *)
Definition data (t : Tensor) : pointer := buf_ t.

(** [t.SubSlice(index)]: the [index]-th slice along the first dimension,
    sharing [t]'s buffer.  TensorFlow checks [dims() >= 1] and
    [0 <= index <= dim0]; the slice of a tensor whose first dimension is
    empty has no buffer. *)
Definition SubSlice (t : Tensor) (index : Z) : outcome Tensor :=
  match shape t with
  | [] => Crashed
  | dim0_size :: rest =>
      if (0 <=? index)%Z && (index <=? dim0_size)%Z then
        Done (mkTensor rest
                (if (0 <? dim0_size)%Z then
                   match buf_ t with
                   | Some (b, base) =>
                       let elems_per_dim0 := (NumElements t / dim0_size)%Z in
                       let delta := (elems_per_dim0 * index)%Z in
                       Some (b, (base + delta)%Z)
                   | None => None
                   end
                 else None))
      else Crashed
  end.

(** [InferenceContext::WithRank] on a fully known shape. *)
Definition WithRank (s : TensorShape) (rank : nat) : outcome TensorShape :=
  if Nat.eqb (length s) rank then Done s else Failed InvalidArgument.

(** [InferenceContext::Dim] *)
Definition Dim (s : TensorShape) (d : nat) : Z := nth d s 0%Z.

(** [InferenceContext::Multiply] on a known dimension: the product, or an
    error when it does not fit [int64]. *)
Definition Multiply (d : Z) (k : Z) : outcome Z :=
  if (d * k <=? int64_max)%Z then Done (d * k)%Z else Failed InvalidArgument.

End TF.

(* ====================================================================== *)
(** * frameworks/tf/gru.cc: the two operator kernels *)
(* ====================================================================== *)

Module Gru.
Import TF.

(** The inputs of the [HasteGru] op, as registered. *)
Module HasteGru.
Record Inputs : Type := mkInputs {
  x : Tensor;                  (* [T,N,C] *)
  kernel : Tensor;             (* [C,H*3] *)
  recurrent_kernel : Tensor;   (* [H,H*3] *)
  bias : Tensor;               (* [H*3] *)
  recurrent_bias : Tensor;     (* [H*3] *)
  zoneout_mask : Tensor        (* [T,N,H] *)
}.
End HasteGru.

(** The inputs of the [HasteGruGrad] op, as registered. *)
Module HasteGruGrad.
Record Inputs : Type := mkInputs {
  x_t : Tensor;                (* [T,C,N] *)
  kernel_t : Tensor;           (* [H*3,C] *)
  recurrent_kernel_t : Tensor; (* [H*3,H] *)
  bias : Tensor;               (* [H*3] *)
  recurrent_bias : Tensor;     (* [H*3] *)
  h_t : Tensor;                (* [T,H,N] *)
  v : Tensor;                  (* [T,N,H*4] *)
  dh_new : Tensor;             (* [T,N,H] *)
  zoneout_mask : Tensor        (* [T,N,H] *)
}.
End HasteGruGrad.

(** The shape function registered for [HasteGru]: output 0 is [h],
    output 1 is [v]. *)
Definition HasteGru_ShapeFn (c : HasteGru.Inputs)
  : outcome (TensorShape * TensorShape) :=
  obind (WithRank (shape (HasteGru.x c)) 3) (fun input_shape =>
  obind (WithRank (shape (HasteGru.kernel c)) 2) (fun kernel_shape =>
  obind (WithRank (shape (HasteGru.recurrent_kernel c)) 2) (fun recurrent_shape =>
  obind (WithRank (shape (HasteGru.bias c)) 1) (fun bias_shape =>
  obind (WithRank (shape (HasteGru.recurrent_bias c)) 1) (fun recurrent_bias_shape =>
  obind (WithRank (shape (HasteGru.zoneout_mask c)) 3) (fun zoneout_mask_shape =>
    let time_steps := Dim input_shape 0 in
    let batch_size := Dim input_shape 1 in
    let hidden_size := Dim recurrent_shape 0 in
    obind (Multiply hidden_size 4) (fun hidden_size_4 =>
      Done ([time_steps; batch_size; hidden_size],
            [time_steps; batch_size; hidden_size_4])))))))).

(** The shape function registered for [HasteGruGrad]: the outputs [dx],
    [dw], [dr], [dbx], [dbr], in this order.  [c->Value(hidden_size) * 3]
    is a plain [int64] product. *)
Definition HasteGruGrad_ShapeFn (c : HasteGruGrad.Inputs)
  : outcome (list TensorShape) :=
  obind (WithRank (shape (HasteGruGrad.x_t c)) 3) (fun x_shape =>
  obind (WithRank (shape (HasteGruGrad.kernel_t c)) 2) (fun kernel_shape =>
  obind (WithRank (shape (HasteGruGrad.recurrent_kernel_t c)) 2)
        (fun recurrent_kernel_shape =>
  obind (WithRank (shape (HasteGruGrad.bias c)) 1) (fun bias_shape =>
  obind (WithRank (shape (HasteGruGrad.recurrent_bias c)) 1)
        (fun recurrent_bias_shape =>
  obind (WithRank (shape (HasteGruGrad.h_t c)) 3) (fun h_shape =>
  obind (WithRank (shape (HasteGruGrad.v c)) 3) (fun v_shape =>
  obind (WithRank (shape (HasteGruGrad.dh_new c)) 3) (fun dh_new_shape =>
  obind (WithRank (shape (HasteGruGrad.zoneout_mask c)) 3)
        (fun zoneout_mask_shape =>
    let time_steps := Dim x_shape 0 in
    let input_size := Dim x_shape 1 in
    let batch_size := Dim x_shape 2 in
    let hidden_size := Dim recurrent_kernel_shape 1 in
    Done [[time_steps; batch_size; input_size];
          [input_size; mul64 hidden_size 3];
          [hidden_size; mul64 hidden_size 3];
          bias_shape;
          recurrent_bias_shape]))))))))).

(** The [float] attribute [zoneout_prob_] converted to [bool]: zero of
    either sign is [false], anything else (a NaN too) is [true]. *)
Definition float_to_bool (f : spec_float) : bool :=
  match f with
  | S754_zero _ => false
  | _ => true
  end.

(** The literal [0.0f]. *)
Definition float_zero : spec_float := S754_zero false.

(** [ForwardPass<T>]: what the constructor is given. *)
Record ForwardPass : Type := mkForwardPass {
  fp_training : bool;
  fp_batch_size : Z;
  fp_input_size : Z;
  fp_hidden_size : Z;
  fp_blas_handle : Cuda.cublasHandle_t
}.

(** [BackwardPass<T>]: what the constructor is given. *)
Record BackwardPass : Type := mkBackwardPass {
  bp_batch_size : Z;
  bp_input_size : Z;
  bp_hidden_size : Z;
  bp_blas_handle : Cuda.cublasHandle_t
}.

(** The twelve arguments of one [ForwardPass<T>::Iterate] call. *)
Record ForwardArgs : Type := mkForwardArgs {
  fa_W : pointer;
  fa_R : pointer;
  fa_bx : pointer;
  fa_br : pointer;
  fa_x : pointer;
  fa_h : pointer;
  fa_h_out : pointer;
  fa_v : pointer;
  fa_tmp_Wx : pointer;
  fa_tmp_Rh : pointer;
  fa_zoneout_prob : spec_float;
  fa_zoneout_mask : pointer
}.

(** The seventeen arguments of one [BackwardPass<T>::Iterate] call. *)
Record BackwardArgs : Type := mkBackwardArgs {
  ba_W_t : pointer;
  ba_R_t : pointer;
  ba_bx : pointer;
  ba_br : pointer;
  ba_x_t : pointer;
  ba_h : pointer;
  ba_v : pointer;
  ba_dh_new : pointer;
  ba_dx : pointer;
  ba_dW : pointer;
  ba_dR : pointer;
  ba_dbx : pointer;
  ba_dbr : pointer;
  ba_dh : pointer;
  ba_dp : pointer;
  ba_dq : pointer;
  ba_zoneout_mask : pointer
}.

Inductive IterateCall : Type :=
| FwIterate (engine : ForwardPass) (args : ForwardArgs)
| BwIterate (engine : BackwardPass) (args : BackwardArgs).

Section Kernels.

(** The element type [T] of the op ([float] or [double]) and the value
    whose bytes are all zero. *)
Variable T : Type.
Variable zero : T.

(** Device memory: the elements of every allocation. *)
Definition Mem : Type := buffer -> Z -> T.

(** The two engines live in [haste.h] and the CUDA sources; here they
    are arbitrary transformers of device memory, determined by the
    engine and the arguments of the call. *)
Variable ForwardPass_Iterate : ForwardPass -> ForwardArgs -> Mem -> Mem.
Variable BackwardPass_Iterate : BackwardPass -> BackwardArgs -> Mem -> Mem.

(** Whether the allocator can serve the request for a given buffer. *)
Variable alloc_ok : buffer -> TensorShape -> bool.

(** The state a [Compute] call acts on: device memory, the process-wide
    CUDA state, the outputs set on the context so far, and the [Iterate]
    calls made so far, each with the memory it was started in. *)
Record OpState : Type := mkOpState {
  st_mem : Mem;
  st_cuda : Cuda.Process;
  st_outputs : list (nat * Tensor);
  st_calls : list (IterateCall * Mem)
}.

Definition M (X : Type) : Type := OpState -> outcome X * OpState.

Definition ret {X : Type} (v : X) : M X := fun st => (Done v, st).

Definition bind {X Y : Type} (c : M X) (k : X -> M Y) : M Y :=
  fun st =>
    match c st with
    | (Done v, st') => k v st'
    | (Failed s, st') => (Failed s, st')
    | (Crashed, st') => (Crashed, st')
    end.

Definition lift {X : Type} (o : outcome X) : M X := fun st => (o, st).

Notation "v <- c ;; k" := (bind c (fun v => k))
  (at level 61, c at next level, right associativity).
Notation "c ;;; k" := (bind c (fun _ => k))
  (at level 61, right associativity).

(** [OP_REQUIRES(context, cond, status)] *)
Definition OP_REQUIRES (cond : bool) (s : Status) : M unit :=
  fun st => if cond then (Done tt, st) else (Failed s, st).

(** A freshly allocated tensor of shape [s] in allocation [b]; a tensor
    without elements gets no buffer.  Its elements are whatever the
    memory holds there. *)
Definition fresh_tensor (b : buffer) (s : TensorShape) : Tensor :=
  mkTensor s (if (0 <? num_elements s)%Z then Some (b, 0%Z) else None).

(** [OP_REQUIRES_OK(context, context->allocate_output(index, shape, &t))] *)
Definition allocate_output (index : nat) (s : TensorShape) : M Tensor :=
  fun st =>
    if alloc_ok (OutputBuf index) s then
      let t := fresh_tensor (OutputBuf index) s in
      (Done t, mkOpState (st_mem st) (st_cuda st)
                         (st_outputs st ++ [(index, t)]) (st_calls st))
    else (Failed ResourceExhausted, st).

(** [OP_REQUIRES_OK(context, context->allocate_temp(dtype, shape, &t))],
    for the [k]-th temporary of the call. *)
Definition allocate_temp (k : nat) (s : TensorShape) : M Tensor :=
  fun st =>
    if alloc_ok (TempBuf k) s then (Done (fresh_tensor (TempBuf k) s), st)
    else (Failed ResourceExhausted, st).

Definition zero_buffer (b : buffer) (m : Mem) : Mem :=
  fun b' => if buffer_eqb b b' then (fun _ => zero) else m b'.

(** The effect of [cudaMemset(t->flat<T>().data(), 0, t->AllocatedBytes())]
    on memory, for a tensor that owns its allocation: the whole
    allocation becomes zero; nothing happens for a tensor without a
    buffer. *)
Definition memset_tensor (t : Tensor) (m : Mem) : Mem :=
  match data t with
  | Some (b, _) => zero_buffer b m
  | None => m
  end.

Definition cudaMemset_zero (t : Tensor) : M unit :=
  fun st =>
    (Done tt, mkOpState (memset_tensor t (st_mem st)) (st_cuda st)
                        (st_outputs st) (st_calls st)).

(** [GetCublasHandle()], on the process-wide state. *)
Definition GetCublasHandle : M Cuda.cublasHandle_t :=
  fun st =>
    let (r, p) := Cuda.GetCublasHandle (st_cuda st) in
    let st' := mkOpState (st_mem st) p (st_outputs st) (st_calls st) in
    match r with
    | Some h => (Done h, st')
    | None => (Crashed, st')
    end.

(** A call of an engine's [Iterate]: it is recorded with the memory it
    starts in, and its effect transforms that memory. *)
Definition record_call (c : IterateCall) (effect : Mem -> Mem) : M unit :=
  fun st =>
    (Done tt, mkOpState (effect (st_mem st)) (st_cuda st)
                        (st_outputs st) (st_calls st ++ [(c, st_mem st)])).

(** [forward.Iterate(...)] *)
Definition ForwardPass_Iterate_call (engine : ForwardPass)
           (args : ForwardArgs) : M unit :=
  record_call (FwIterate engine args) (ForwardPass_Iterate engine args).

(** [backward.Iterate(...)] *)
Definition BackwardPass_Iterate_call (engine : BackwardPass)
           (args : BackwardArgs) : M unit :=
  record_call (BwIterate engine args) (BackwardPass_Iterate engine args).

(** ** [HasteGruOp<T>::Compute] *)

Section Forward.
Variable training_ : bool.
Variable zoneout_prob_ : spec_float.
Variable context : HasteGru.Inputs.

Let input := HasteGru.x context.
Let kernel := HasteGru.kernel context.
Let recurrent_kernel := HasteGru.recurrent_kernel context.
Let bias := HasteGru.bias context.
Let recurrent_bias := HasteGru.recurrent_bias context.
Let zoneout_mask := HasteGru.zoneout_mask context.

(** The body of the time loop, lines 169-187; it returns the tensor
    that [h] is assigned for the next turn. *)
Definition forward_body (has_zoneout : bool) (forward : ForwardPass)
           (output v_out tmp_Wx tmp_Rh : Tensor)
           (h : Tensor) (i : Z) : M Tensor :=
  x <- lift (SubSlice input i) ;;
  new_h <- lift (SubSlice output i) ;;
  v <- lift (SubSlice v_out i) ;;
  tmp_Wx_cur <- lift (SubSlice tmp_Wx i) ;;
  mask <- (if has_zoneout
           then m <- lift (SubSlice zoneout_mask i) ;; ret (data m)
           else ret nullptr) ;;
  ForwardPass_Iterate_call forward
    (mkForwardArgs
       (data kernel)
       (data recurrent_kernel)
       (data bias)
       (data recurrent_bias)
       (data x)
       (data h)
       (data new_h)
       (if training_ then data v else nullptr)
       (data tmp_Wx_cur)
       (data tmp_Rh)
       (if has_zoneout then zoneout_prob_ else float_zero)
       mask) ;;;
  ret new_h.

(** [for (int64 i = 0; i < time_steps; ++i) { ...; h = new_h; }] *)
Fixpoint forward_loop (has_zoneout : bool) (forward : ForwardPass)
         (output v_out tmp_Wx tmp_Rh : Tensor)
         (idxs : list Z) (h : Tensor) : M unit :=
  match idxs with
  | [] => ret tt
  | i :: rest =>
      new_h <- forward_body has_zoneout forward output v_out tmp_Wx tmp_Rh h i ;;
      forward_loop has_zoneout forward output v_out tmp_Wx tmp_Rh rest new_h
  end.

Definition HasteGruOp_Compute : M unit :=
  time_steps <- lift (dim_size input 0) ;;
  batch_size <- lift (dim_size input 1) ;;
  input_size <- lift (dim_size input 2) ;;
  hidden_size <- lift (dim_size recurrent_kernel 0) ;;
  let has_zoneout :=
    float_to_bool zoneout_prob_ && negb (NumElements zoneout_mask =? 0)%Z in
  kernel_dim0 <- lift (dim_size kernel 0) ;;
  OP_REQUIRES (input_size =? kernel_dim0)%Z InvalidArgument ;;;
  output_shape <- lift (make_shape [time_steps; batch_size; hidden_size]) ;;
  v_out_shape <- lift (make_shape [time_steps; batch_size;
                                   if training_ then mul64 hidden_size 4 else 0%Z]) ;;
  output <- allocate_output 0 output_shape ;;
  v_out <- allocate_output 1 v_out_shape ;;
  tmp_Wx_shape <- lift (make_shape [time_steps; batch_size; mul64 hidden_size 3]) ;;
  tmp_Wx <- allocate_temp 0 tmp_Wx_shape ;;
  tmp_Rh_shape <- lift (make_shape [batch_size; mul64 hidden_size 3]) ;;
  tmp_Rh <- allocate_temp 1 tmp_Rh_shape ;;
  cudaMemset_zero output ;;;
  handle <- GetCublasHandle ;;
  let forward :=
    mkForwardPass training_ batch_size input_size hidden_size handle in
  h <- lift (SubSlice output 0) ;;
  forward_loop has_zoneout forward output v_out tmp_Wx tmp_Rh
               (range time_steps) h.
End Forward.

(** ** [HasteGruGradOp<T>::Compute] *)

Section Backward.
Variable context : HasteGruGrad.Inputs.

Let input := HasteGruGrad.x_t context.
Let kernel := HasteGruGrad.kernel_t context.
Let recurrent_kernel := HasteGruGrad.recurrent_kernel_t context.
Let bias := HasteGruGrad.bias context.
Let recurrent_bias := HasteGruGrad.recurrent_bias context.
Let h_vector := HasteGruGrad.h_t context.
Let v_vector := HasteGruGrad.v context.
Let dh_new := HasteGruGrad.dh_new context.
Let zoneout_mask := HasteGruGrad.zoneout_mask context.

(** The body of the reverse time loop, lines 330-360. *)
Definition backward_body (has_zoneout : bool) (backward : BackwardPass)
           (dx dW dR dbx dbr dh dp dq zero_vector : Tensor)
           (i : Z) : M unit :=
  x <- lift (SubSlice input i) ;;
  h <- (if negb (i =? 0)%Z
        then lift (SubSlice h_vector (sub64 i 1))
        else ret zero_vector) ;;
  v <- lift (SubSlice v_vector i) ;;
  dh_new_cur <- lift (SubSlice dh_new i) ;;
  dx_cur <- lift (SubSlice dx i) ;;
  dp_cur <- lift (SubSlice dp i) ;;
  dq_cur <- lift (SubSlice dq i) ;;
  mask <- (if has_zoneout
           then m <- lift (SubSlice zoneout_mask i) ;; ret (data m)
           else ret nullptr) ;;
  BackwardPass_Iterate_call backward
    (mkBackwardArgs
       (data kernel)
       (data recurrent_kernel)
       (data bias)
       (data recurrent_bias)
       (data x)
       (data h)
       (data v)
       (data dh_new_cur)
       (data dx_cur)
       (data dW)
       (data dR)
       (data dbx)
       (data dbr)
       (data dh)
       (data dp_cur)
       (data dq_cur)
       mask).

(** [for (int64 i = time_steps - 1; i >= 0; --i) { ... }], over the
    indices it visits. *)
Fixpoint backward_loop (has_zoneout : bool) (backward : BackwardPass)
         (dx dW dR dbx dbr dh dp dq zero_vector : Tensor)
         (idxs : list Z) : M unit :=
  match idxs with
  | [] => ret tt
  | i :: rest =>
      backward_body has_zoneout backward dx dW dR dbx dbr dh dp dq zero_vector i ;;;
      backward_loop has_zoneout backward dx dW dR dbx dbr dh dp dq zero_vector rest
  end.

Definition HasteGruGradOp_Compute : M unit :=
  time_steps <- lift (dim_size input 0) ;;
  input_size <- lift (dim_size input 1) ;;
  batch_size <- lift (dim_size input 2) ;;
  hidden_size <- lift (dim_size recurrent_kernel 1) ;;
  let has_zoneout := negb (negb (negb (NumElements zoneout_mask =? 0)%Z)) in
  (* Can be uninitialized. Output only, no accumulation. *)
  dx_shape <- lift (make_shape [time_steps; batch_size; input_size]) ;;
  dx <- allocate_output 0 dx_shape ;;
  (* Needs to be initialized to 0. *)
  dW_shape <- lift (make_shape [input_size; mul64 hidden_size 3]) ;;
  dW <- allocate_output 1 dW_shape ;;
  (* Needs to be initialized to 0. *)
  dR_shape <- lift (make_shape [hidden_size; mul64 hidden_size 3]) ;;
  dR <- allocate_output 2 dR_shape ;;
  (* Needs to be initialized to 0. *)
  dbx_shape <- lift (make_shape [mul64 hidden_size 3]) ;;
  dbx <- allocate_output 3 dbx_shape ;;
  (* Needs to be initialized to 0. *)
  dbr_shape <- lift (make_shape [mul64 hidden_size 3]) ;;
  dbr <- allocate_output 4 dbr_shape ;;
  (* Needs to be initialized to 0. *)
  dh_shape <- lift (make_shape [batch_size; hidden_size]) ;;
  dh <- allocate_temp 0 dh_shape ;;
  (* Can be uninitialized. Output only, no accumulation. *)
  dp_shape <- lift (make_shape [time_steps; batch_size; mul64 hidden_size 3]) ;;
  dp <- allocate_temp 1 dp_shape ;;
  (* Can be uninitialized. Output only, no accumulation. *)
  dq_shape <- lift (make_shape [time_steps; batch_size; mul64 hidden_size 3]) ;;
  dq <- allocate_temp 2 dq_shape ;;
  (* Needs to be initialized to 0. *)
  zero_vector_shape <- lift (make_shape [batch_size; hidden_size]) ;;
  zero_vector <- allocate_temp 3 zero_vector_shape ;;
  cudaMemset_zero dW ;;;
  cudaMemset_zero dR ;;;
  cudaMemset_zero dbx ;;;
  cudaMemset_zero dbr ;;;
  cudaMemset_zero dh ;;;
  cudaMemset_zero zero_vector ;;;
  handle <- GetCublasHandle ;;
  let backward :=
    mkBackwardPass batch_size input_size hidden_size handle in
  backward_loop has_zoneout backward dx dW dR dbx dbr dh dp dq zero_vector
                (rev (range time_steps)).
End Backward.

(** ** Vocabulary for the statements about the two kernels *)

(** A [Compute] call starts with no output set and no [Iterate] call
    made. *)
Definition start (m : Mem) (p : Cuda.Process) : OpState :=
  mkOpState m p [] [].

Definition run_iterate (c : IterateCall) : Mem -> Mem :=
  match c with
  | FwIterate engine args => ForwardPass_Iterate engine args
  | BwIterate engine args => BackwardPass_Iterate engine args
  end.

(** The record that a sequence of calls leaves when they run one after
    the other with nothing in between, and the memory they end in. *)
Fixpoint trace (cs : list IterateCall) (m : Mem)
  : list (IterateCall * Mem) :=
  match cs with
  | [] => []
  | c :: rest => (c, m) :: trace rest (run_iterate c m)
  end.

Definition final_mem (cs : list IterateCall) (m : Mem) : Mem :=
  fold_left (fun m' c => run_iterate c m') cs m.

Definition after_calls (st : OpState) (cs : list IterateCall) : OpState :=
  mkOpState (final_mem cs (st_mem st)) (st_cuda st) (st_outputs st)
            (st_calls st ++ trace cs (st_mem st)).

(** The arguments that turn [i] of the forward loop passes to [Iterate],
    with the tensor it leaves in [h]; a failed [CHECK] in a slice gives
    no call. *)
Definition forward_args (training_ : bool) (zoneout_prob_ : spec_float)
           (context : HasteGru.Inputs) (has_zoneout : bool)
           (output v_out tmp_Wx tmp_Rh h : Tensor) (i : Z)
  : outcome (ForwardArgs * Tensor) :=
  obind (SubSlice (HasteGru.x context) i) (fun x =>
  obind (SubSlice output i) (fun new_h =>
  obind (SubSlice v_out i) (fun v =>
  obind (SubSlice tmp_Wx i) (fun tmp_Wx_cur =>
  obind (if has_zoneout
         then obind (SubSlice (HasteGru.zoneout_mask context) i)
                    (fun m => Done (data m))
         else Done nullptr) (fun mask =>
    Done (mkForwardArgs
            (data (HasteGru.kernel context))
            (data (HasteGru.recurrent_kernel context))
            (data (HasteGru.bias context))
            (data (HasteGru.recurrent_bias context))
            (data x) (data h) (data new_h)
            (if training_ then data v else nullptr)
            (data tmp_Wx_cur) (data tmp_Rh)
            (if has_zoneout then zoneout_prob_ else float_zero)
            mask,
          new_h)))))).

(** The calls the forward loop makes over [idxs], up to the first turn
    that fails, and how the loop ends. *)
Fixpoint forward_plan (training_ : bool) (zoneout_prob_ : spec_float)
         (context : HasteGru.Inputs) (has_zoneout : bool)
         (forward : ForwardPass) (output v_out tmp_Wx tmp_Rh : Tensor)
         (idxs : list Z) (h : Tensor) : list IterateCall * outcome unit :=
  match idxs with
  | [] => ([], Done tt)
  | i :: rest =>
      match forward_args training_ zoneout_prob_ context has_zoneout
                         output v_out tmp_Wx tmp_Rh h i with
      | Done (args, new_h) =>
          let (cs, o) := forward_plan training_ zoneout_prob_ context
                           has_zoneout forward output v_out tmp_Wx tmp_Rh
                           rest new_h in
          (FwIterate forward args :: cs, o)
      | Failed s => ([], Failed s)
      | Crashed => ([], Crashed)
      end
  end.

(** The arguments that turn [i] of the reverse loop passes to
    [Iterate]. *)
Definition backward_args (context : HasteGruGrad.Inputs) (has_zoneout : bool)
           (dx dW dR dbx dbr dh dp dq zero_vector : Tensor) (i : Z)
  : outcome BackwardArgs :=
  obind (SubSlice (HasteGruGrad.x_t context) i) (fun x =>
  obind (if negb (i =? 0)%Z
         then SubSlice (HasteGruGrad.h_t context) (sub64 i 1)
         else Done zero_vector) (fun h =>
  obind (SubSlice (HasteGruGrad.v context) i) (fun v =>
  obind (SubSlice (HasteGruGrad.dh_new context) i) (fun dh_new_cur =>
  obind (SubSlice dx i) (fun dx_cur =>
  obind (SubSlice dp i) (fun dp_cur =>
  obind (SubSlice dq i) (fun dq_cur =>
  obind (if has_zoneout
         then obind (SubSlice (HasteGruGrad.zoneout_mask context) i)
                    (fun m => Done (data m))
         else Done nullptr) (fun mask =>
    Done (mkBackwardArgs
            (data (HasteGruGrad.kernel_t context))
            (data (HasteGruGrad.recurrent_kernel_t context))
            (data (HasteGruGrad.bias context))
            (data (HasteGruGrad.recurrent_bias context))
            (data x) (data h) (data v) (data dh_new_cur) (data dx_cur)
            (data dW) (data dR) (data dbx) (data dbr) (data dh)
            (data dp_cur) (data dq_cur) mask))))))))).

(** The calls the reverse loop makes over [idxs], up to the first turn
    that fails, and how the loop ends. *)
Fixpoint backward_plan (context : HasteGruGrad.Inputs) (has_zoneout : bool)
         (backward : BackwardPass)
         (dx dW dR dbx dbr dh dp dq zero_vector : Tensor)
         (idxs : list Z) : list IterateCall * outcome unit :=
  match idxs with
  | [] => ([], Done tt)
  | i :: rest =>
      match backward_args context has_zoneout
                          dx dW dR dbx dbr dh dp dq zero_vector i with
      | Done args =>
          let (cs, o) := backward_plan context has_zoneout backward
                           dx dW dR dbx dbr dh dp dq zero_vector rest in
          (BwIterate backward args :: cs, o)
      | Failed s => ([], Failed s)
      | Crashed => ([], Crashed)
      end
  end.

(** What [HasteGruOp::Compute] needs to reach its time loop on a
    problem of size [(Tn, N, C, H)]: the dimensions it reads exist, the
    feature sizes agree, the four shapes are valid, the four allocations
    are served, and the handle lookup yields [handle]. *)
Definition forward_ready (training_ : bool) (context : HasteGru.Inputs)
           (p : Cuda.Process) (Tn N C H : Z)
           (handle : Cuda.cublasHandle_t) (p' : Cuda.Process) : Prop :=
  dim_size (HasteGru.x context) 0 = Done Tn /\
  dim_size (HasteGru.x context) 1 = Done N /\
  dim_size (HasteGru.x context) 2 = Done C /\
  dim_size (HasteGru.recurrent_kernel context) 0 = Done H /\
  dim_size (HasteGru.kernel context) 0 = Done C /\
  add_dims 1 [Tn; N; H] = true /\
  add_dims 1 [Tn; N; if training_ then mul64 H 4 else 0%Z] = true /\
  alloc_ok (OutputBuf 0) [Tn; N; H] = true /\
  alloc_ok (OutputBuf 1) [Tn; N; if training_ then mul64 H 4 else 0%Z] = true /\
  add_dims 1 [Tn; N; mul64 H 3] = true /\
  alloc_ok (TempBuf 0) [Tn; N; mul64 H 3] = true /\
  add_dims 1 [N; mul64 H 3] = true /\
  alloc_ok (TempBuf 1) [N; mul64 H 3] = true /\
  Cuda.GetCublasHandle p = (Some handle, p').

(** The tensors [HasteGruOp::Compute] allocates. *)
Definition fw_output (Tn N H : Z) : Tensor :=
  fresh_tensor (OutputBuf 0) [Tn; N; H].
Definition fw_v_out (training_ : bool) (Tn N H : Z) : Tensor :=
  fresh_tensor (OutputBuf 1) [Tn; N; if training_ then mul64 H 4 else 0%Z].
Definition fw_tmp_Wx (Tn N H : Z) : Tensor :=
  fresh_tensor (TempBuf 0) [Tn; N; mul64 H 3].
Definition fw_tmp_Rh (N H : Z) : Tensor :=
  fresh_tensor (TempBuf 1) [N; mul64 H 3].

(** [has_zoneout] as each kernel computes it. *)
Definition fw_has_zoneout (zoneout_prob_ : spec_float) (mask : Tensor) : bool :=
  float_to_bool zoneout_prob_ && negb (NumElements mask =? 0)%Z.
Definition bw_has_zoneout (mask : Tensor) : bool :=
  negb (negb (negb (NumElements mask =? 0)%Z)).

(** The state in which the forward time loop starts. *)
Definition fw_loop_start (training_ : bool) (Tn N H : Z)
           (m : Mem) (p' : Cuda.Process) : OpState :=
  mkOpState (memset_tensor (fw_output Tn N H) m) p'
            [(0%nat, fw_output Tn N H); (1%nat, fw_v_out training_ Tn N H)] [].

(** The calls of the forward time loop on a problem of size
    [(Tn, N, C, H)], and how the loop ends. *)
Definition fw_plan (training_ : bool) (zoneout_prob_ : spec_float)
           (context : HasteGru.Inputs) (Tn N C H : Z)
           (handle : Cuda.cublasHandle_t) : list IterateCall * outcome unit :=
  forward_plan training_ zoneout_prob_ context
    (fw_has_zoneout zoneout_prob_ (HasteGru.zoneout_mask context))
    (mkForwardPass training_ N C H handle)
    (fw_output Tn N H) (fw_v_out training_ Tn N H)
    (fw_tmp_Wx Tn N H) (fw_tmp_Rh N H)
    (range Tn)
    (mkTensor [N; H] (if (0 <? Tn)%Z then data (fw_output Tn N H) else None)).

(** What [HasteGruGradOp::Compute] needs to reach its time loop on a
    problem of size [(Tn, N, C, H)]. *)
Definition backward_ready (context : HasteGruGrad.Inputs)
           (p : Cuda.Process) (Tn N C H : Z)
           (handle : Cuda.cublasHandle_t) (p' : Cuda.Process) : Prop :=
  dim_size (HasteGruGrad.x_t context) 0 = Done Tn /\
  dim_size (HasteGruGrad.x_t context) 1 = Done C /\
  dim_size (HasteGruGrad.x_t context) 2 = Done N /\
  dim_size (HasteGruGrad.recurrent_kernel_t context) 1 = Done H /\
  add_dims 1 [Tn; N; C] = true /\
  alloc_ok (OutputBuf 0) [Tn; N; C] = true /\
  add_dims 1 [C; mul64 H 3] = true /\
  alloc_ok (OutputBuf 1) [C; mul64 H 3] = true /\
  add_dims 1 [H; mul64 H 3] = true /\
  alloc_ok (OutputBuf 2) [H; mul64 H 3] = true /\
  add_dims 1 [mul64 H 3] = true /\
  alloc_ok (OutputBuf 3) [mul64 H 3] = true /\
  alloc_ok (OutputBuf 4) [mul64 H 3] = true /\
  add_dims 1 [N; H] = true /\
  alloc_ok (TempBuf 0) [N; H] = true /\
  add_dims 1 [Tn; N; mul64 H 3] = true /\
  alloc_ok (TempBuf 1) [Tn; N; mul64 H 3] = true /\
  alloc_ok (TempBuf 2) [Tn; N; mul64 H 3] = true /\
  alloc_ok (TempBuf 3) [N; H] = true /\
  Cuda.GetCublasHandle p = (Some handle, p').

(** The tensors [HasteGruGradOp::Compute] allocates. *)
Definition bw_dx (Tn N C : Z) : Tensor := fresh_tensor (OutputBuf 0) [Tn; N; C].
Definition bw_dW (C H : Z) : Tensor := fresh_tensor (OutputBuf 1) [C; mul64 H 3].
Definition bw_dR (H : Z) : Tensor := fresh_tensor (OutputBuf 2) [H; mul64 H 3].
Definition bw_dbx (H : Z) : Tensor := fresh_tensor (OutputBuf 3) [mul64 H 3].
Definition bw_dbr (H : Z) : Tensor := fresh_tensor (OutputBuf 4) [mul64 H 3].
Definition bw_dh (N H : Z) : Tensor := fresh_tensor (TempBuf 0) [N; H].
Definition bw_dp (Tn N H : Z) : Tensor := fresh_tensor (TempBuf 1) [Tn; N; mul64 H 3].
Definition bw_dq (Tn N H : Z) : Tensor := fresh_tensor (TempBuf 2) [Tn; N; mul64 H 3].
Definition bw_zero_vector (N H : Z) : Tensor := fresh_tensor (TempBuf 3) [N; H].

(** Memory after the six [cudaMemset] calls of lines 316-321. *)
Definition bw_memsets (N C H : Z) (m : Mem) : Mem :=
  memset_tensor (bw_zero_vector N H)
    (memset_tensor (bw_dh N H)
      (memset_tensor (bw_dbr H)
        (memset_tensor (bw_dbx H)
          (memset_tensor (bw_dR H)
            (memset_tensor (bw_dW C H) m))))).

(** The state in which the reverse time loop starts. *)
Definition bw_loop_start (Tn N C H : Z) (m : Mem) (p' : Cuda.Process)
  : OpState :=
  mkOpState (bw_memsets N C H m) p'
            [(0%nat, bw_dx Tn N C); (1%nat, bw_dW C H); (2%nat, bw_dR H);
             (3%nat, bw_dbx H); (4%nat, bw_dbr H)] [].

(** The calls of the reverse time loop on a problem of size
    [(Tn, N, C, H)], and how the loop ends. *)
Definition bw_plan (context : HasteGruGrad.Inputs) (Tn N C H : Z)
           (handle : Cuda.cublasHandle_t) : list IterateCall * outcome unit :=
  backward_plan context
    (bw_has_zoneout (HasteGruGrad.zoneout_mask context))
    (mkBackwardPass N C H handle)
    (bw_dx Tn N C) (bw_dW C H) (bw_dR H) (bw_dbx H) (bw_dbr H)
    (bw_dh N H) (bw_dp Tn N H) (bw_dq Tn N H) (bw_zero_vector N H)
    (rev (range Tn)).

(** ** Vocabulary for the claims *)

(** The pointer of the [i]-th slice of [t]; null when there is none. *)
Definition slice_ptr (t : Tensor) (i : Z) : pointer :=
  match SubSlice t i with
  | Done s => data s
  | Failed _ => nullptr
  | Crashed => nullptr
  end.

(** The mask pointer for time step [t]: slice [t] of the mask when
    zoneout is on, null otherwise. *)
Definition mask_at (has_zoneout : bool) (mask : Tensor) (t : Z) : pointer :=
  if has_zoneout then slice_ptr mask t else nullptr.

(** The zoneout mask a call is given. *)
Definition call_mask (c : IterateCall) : pointer :=
  match c with
  | FwIterate _ args => fa_zoneout_mask args
  | BwIterate _ args => ba_zoneout_mask args
  end.

Definition mask_args (calls : list (IterateCall * Mem)) : list pointer :=
  map (fun e => call_mask (fst e)) calls.

(** The [n] elements that [p] points to are all zero in [m] (and a null
    pointer stands for no element at all). *)
Definition reads_zero (m : Mem) (p : pointer) (n : Z) : Prop :=
  match p with
  | Some (b, base) => forall j, (0 <= j < n)%Z -> m b (base + j)%Z = zero
  | None => (n <= 0)%Z
  end.

(** The whole allocation behind [p] is zero in [m]. *)
Definition zero_behind (m : Mem) (p : pointer) : Prop :=
  match p with
  | Some (b, _) => forall j, m b j = zero
  | None => True
  end.

(** The allocations that a [BackwardPass::Iterate] call is handed
    through a pointer it may write through: [dx], [dW], [dR], [dbx],
    [dbr], [dh], [dp], [dq]. *)
Definition bw_writable (a : BackwardArgs) : list pointer :=
  [ba_dx a; ba_dW a; ba_dR a; ba_dbx a; ba_dbr a; ba_dh a; ba_dp a; ba_dq a].

Definition points_into (b : buffer) (p : pointer) : bool :=
  match p with
  | Some (b', _) => buffer_eqb b b'
  | None => false
  end.

(** Modelled from the spec: [BackwardPass::Iterate] is not in the
    sources at hand; section 4.2 lists what it writes ([dx[t]], the
    four gradient accumulators, the carried [dh], the scratch [dp] and
    [dq]) and names everything else as read-only input.  An engine
    honours this when it leaves every other allocation as it was. *)
Definition bw_frame : Prop :=
  forall e a m b j,
    existsb (points_into b) (bw_writable a) = false ->
    BackwardPass_Iterate e a m b j = m b j.

(** The allocations that a [ForwardPass::Iterate] call is handed through
    a pointer it may write through: [h_out], [v], [tmp_Wx], [tmp_Rh]. *)
Definition fw_writable (a : ForwardArgs) : list pointer :=
  [fa_h_out a; fa_v a; fa_tmp_Wx a; fa_tmp_Rh a].

(** Modelled from the spec: [ForwardPass::Iterate] is not in the sources
    at hand; section 4.1 has it write [h[t]] and optionally [v[t]] and
    mutate the scratch buffers, everything else being read-only input.  An
    engine honours this when it leaves every other allocation as it was. *)
Definition fw_frame : Prop :=
  forall e a m b j,
    existsb (points_into b) (fw_writable a) = false ->
    ForwardPass_Iterate e a m b j = m b j.

(** The cuBLAS handle of the engine a call is made on. *)
Definition call_handle (c : IterateCall) : Cuda.cublasHandle_t :=
  match c with
  | FwIterate engine _ => fp_blas_handle engine
  | BwIterate engine _ => bp_blas_handle engine
  end.

(** The previous hidden state a call reads, and the hidden state a
    forward call writes. *)
Definition call_h (c : IterateCall) : pointer :=
  match c with
  | FwIterate _ args => fa_h args
  | BwIterate _ args => ba_h args
  end.

Definition call_h_out (c : IterateCall) : pointer :=
  match c with
  | FwIterate _ args => fa_h_out args
  | BwIterate _ _ => nullptr
  end.

(** The four gradient accumulators of a call. *)
Definition bw_accumulators (a : BackwardArgs) : list pointer :=
  [ba_dW a; ba_dR a; ba_dbx a; ba_dbr a].

(** A contribution that is computed without reading the accumulators
    of the call: it is the same in two memories that agree on every
    allocation no accumulator of the call points into. *)
Definition ignores_accumulators
           (delta : BackwardPass -> BackwardArgs -> Mem -> buffer -> Z -> T)
  : Prop :=
  forall e a (m m' : Mem) b j,
    (forall b' j', existsb (points_into b') (bw_accumulators a) = false ->
                   m b' j' = m' b' j') ->
    delta e a m b j = delta e a m' b j.

(** Modelled from the spec: section 4.2 has [dW], [dR], [dbx] and
    [dbr] "accumulated in place" and "never overwritten"
    ([dW += x[t]^T dp]: what is added is computed from the inputs and the
    scratch, not from [dW]).  With [add] the addition of the element type
    and [delta e a m b j] what a call contributes to element [j] of
    allocation [b], an engine accumulates when the contribution does not
    depend on what the accumulators hold and each element of an
    accumulator ends as its old value plus the contribution.  An engine
    that overwrites an accumulator does not meet this. *)
Definition bw_accumulates (add : T -> T -> T)
           (delta : BackwardPass -> BackwardArgs -> Mem -> buffer -> Z -> T)
  : Prop :=
  ignores_accumulators delta /\
  forall e a m b j,
    existsb (points_into b) (bw_accumulators a) = true ->
    BackwardPass_Iterate e a m b j = add (m b j) (delta e a m b j).

(** Two regions of [n] elements do not overlap. *)
Definition disjoint_regions (p q : pointer) (n : Z) : Prop :=
  match p, q with
  | Some (b, o), Some (b', o') =>
      b = b' -> (o + n <= o' \/ o' + n <= o)%Z
  | _, _ => True
  end.

(** The running total of the contributions of a record of calls. *)
Definition accumulated (add : T -> T -> T)
           (delta : BackwardPass -> BackwardArgs -> Mem -> buffer -> Z -> T)
           (calls : list (IterateCall * Mem)) (b : buffer) (j : Z) : T :=
  fold_left
    (fun acc e =>
       match fst e with
       | BwIterate engine args => add acc (delta engine args (snd e) b j)
       | FwIterate _ _ => acc
       end)
    calls zero.

End Kernels.

(** Problem sizes for which every tensor of the two ops has a valid shape. *)
Definition legal_size (Tn N C H : Z) : Prop :=
  (0 <= Tn /\ 0 <= N /\ 0 <= C /\ 0 <= H /\
   Tn <= int64_max /\ N <= int64_max /\ C <= int64_max /\
   4 * H <= int64_max /\
   Tn * N <= int64_max /\
   Tn * N * C <= int64_max /\
   Tn * N * (4 * H) <= int64_max /\
   N * (3 * H) <= int64_max /\
   C * (3 * H) <= int64_max /\
   H * (3 * H) <= int64_max)%Z.

(** The zoneout mask has its registered shape, or is an empty tensor of
    the registered rank. *)
Definition mask_shape_ok (mask : Tensor) (Tn N H : Z) : Prop :=
  shape mask = [Tn; N; H] \/
  (length (shape mask) = 3%nat /\ NumElements mask = 0%Z).

(** The inputs of [HasteGru] have the shapes the op is registered with. *)
Definition forward_shapes (c : HasteGru.Inputs) (Tn N C H : Z) : Prop :=
  shape (HasteGru.x c) = [Tn; N; C] /\
  shape (HasteGru.kernel c) = [C; 3 * H]%Z /\
  shape (HasteGru.recurrent_kernel c) = [H; 3 * H]%Z /\
  shape (HasteGru.bias c) = [3 * H]%Z /\
  shape (HasteGru.recurrent_bias c) = [3 * H]%Z /\
  mask_shape_ok (HasteGru.zoneout_mask c) Tn N H.

(** The inputs of [HasteGruGrad] have the shapes the op is registered
    with. *)
Definition backward_shapes (c : HasteGruGrad.Inputs) (Tn N C H : Z) : Prop :=
  shape (HasteGruGrad.x_t c) = [Tn; C; N] /\
  shape (HasteGruGrad.kernel_t c) = [3 * H; C]%Z /\
  shape (HasteGruGrad.recurrent_kernel_t c) = [3 * H; H]%Z /\
  shape (HasteGruGrad.bias c) = [3 * H]%Z /\
  shape (HasteGruGrad.recurrent_bias c) = [3 * H]%Z /\
  shape (HasteGruGrad.h_t c) = [Tn; H; N] /\
  shape (HasteGruGrad.v c) = [Tn; N; 4 * H]%Z /\
  shape (HasteGruGrad.dh_new c) = [Tn; N; H] /\
  mask_shape_ok (HasteGruGrad.zoneout_mask c) Tn N H.

(** Two tensors with the same buffer and the same dimension [d]. *)
Definition same_dim_and_buffer (d : nat) (t t' : Tensor) : Prop :=
  nth_error (shape t) d = nth_error (shape t') d /\ buf_ t = buf_ t'.

(** Two sets of [HasteGru] inputs that agree on everything the kernel
    looks at: the sequence and the mask as a whole, the first dimension
    and the buffer of the two kernels, the buffers of the two biases. *)
Definition forward_view_eq (c c' : HasteGru.Inputs) : Prop :=
  HasteGru.x c = HasteGru.x c' /\
  HasteGru.zoneout_mask c = HasteGru.zoneout_mask c' /\
  same_dim_and_buffer 0 (HasteGru.kernel c) (HasteGru.kernel c') /\
  same_dim_and_buffer 0 (HasteGru.recurrent_kernel c)
                        (HasteGru.recurrent_kernel c') /\
  buf_ (HasteGru.bias c) = buf_ (HasteGru.bias c') /\
  buf_ (HasteGru.recurrent_bias c) = buf_ (HasteGru.recurrent_bias c').

(** Two sets of [HasteGruGrad] inputs that agree on everything the kernel
    looks at: the five sequences as a whole, the second dimension and the
    buffer of [recurrent_kernel_t], the buffers of [kernel_t] and of the
    two biases. *)
Definition backward_view_eq (c c' : HasteGruGrad.Inputs) : Prop :=
  HasteGruGrad.x_t c = HasteGruGrad.x_t c' /\
  HasteGruGrad.h_t c = HasteGruGrad.h_t c' /\
  HasteGruGrad.v c = HasteGruGrad.v c' /\
  HasteGruGrad.dh_new c = HasteGruGrad.dh_new c' /\
  HasteGruGrad.zoneout_mask c = HasteGruGrad.zoneout_mask c' /\
  same_dim_and_buffer 1 (HasteGruGrad.recurrent_kernel_t c)
                        (HasteGruGrad.recurrent_kernel_t c') /\
  buf_ (HasteGruGrad.kernel_t c) = buf_ (HasteGruGrad.kernel_t c') /\
  buf_ (HasteGruGrad.bias c) = buf_ (HasteGruGrad.bias c') /\
  buf_ (HasteGruGrad.recurrent_bias c) = buf_ (HasteGruGrad.recurrent_bias c').

(** The same inputs with the zoneout mask left out: an empty tensor. *)
Definition without_mask (c : HasteGru.Inputs) : HasteGru.Inputs :=
  HasteGru.mkInputs (HasteGru.x c) (HasteGru.kernel c)
    (HasteGru.recurrent_kernel c) (HasteGru.bias c)
    (HasteGru.recurrent_bias c) (mkTensor [0; 0; 0]%Z nullptr).

(** ** A concrete instance, to run the kernels on

    Elements are integers; the allocator always serves; the forward
    engine writes [h[0] + 1] to the first element of its output; the
    reverse engine adds one to every element of the four accumulators and
    writes one to the first element of [dx]. *)

Definition sample_alloc : buffer -> TensorShape -> bool := fun _ _ => true.

Definition sample_forward (e : ForwardPass) (a : ForwardArgs) (m : Mem Z)
  : Mem Z :=
  match fa_h_out a with
  | Some (b, base) =>
      fun b' j =>
        if buffer_eqb b b' && (j =? base)%Z
        then match fa_h a with
             | Some (bh, bs) => (m bh bs + 1)%Z
             | None => 1%Z
             end
        else m b' j
  | None => m
  end.

Definition sample_backward (e : BackwardPass) (a : BackwardArgs) (m : Mem Z)
  : Mem Z :=
  fun b j =>
    if existsb (points_into b) (bw_accumulators a) then (m b j + 1)%Z
    else match ba_dx a with
         | Some (bx, base) =>
             if buffer_eqb b bx && (j =? base)%Z then 1%Z else m b j
         | None => m b j
         end.

(** A reverse engine that overwrites every accumulator element with 7
    instead of adding to it. *)
Definition overwriting_backward (e : BackwardPass) (a : BackwardArgs)
           (m : Mem Z) : Mem Z :=
  fun b j =>
    if existsb (points_into b) (bw_accumulators a) then 7%Z else m b j.

(** Reverse-call arguments whose only non-null pointer is [dW]. *)
Definition only_dW : BackwardArgs :=
  mkBackwardArgs nullptr nullptr nullptr nullptr nullptr nullptr nullptr
                 nullptr nullptr (Some (OutputBuf 1, 0%Z)) nullptr nullptr
                 nullptr nullptr nullptr nullptr nullptr.

Definition sample_mem : Mem Z := fun _ _ => 5%Z.

Definition sample_process : Cuda.Process := Cuda.fresh_process 1 0.

(** Two time steps, batch 1, one input feature, one hidden unit. *)
Definition sample_mask : Tensor := mkTensor [2; 1; 1]%Z (Some (InputBuf 5, 0%Z)).

Definition sample_inputs : HasteGru.Inputs :=
  HasteGru.mkInputs
    (mkTensor [2; 1; 1]%Z (Some (InputBuf 0, 0%Z)))
    (mkTensor [1; 3]%Z (Some (InputBuf 1, 0%Z)))
    (mkTensor [1; 3]%Z (Some (InputBuf 2, 0%Z)))
    (mkTensor [3]%Z (Some (InputBuf 3, 0%Z)))
    (mkTensor [3]%Z (Some (InputBuf 4, 0%Z)))
    sample_mask.

Definition sample_grad_inputs : HasteGruGrad.Inputs :=
  HasteGruGrad.mkInputs
    (mkTensor [2; 1; 1]%Z (Some (InputBuf 6, 0%Z)))
    (mkTensor [3; 1]%Z (Some (InputBuf 7, 0%Z)))
    (mkTensor [3; 1]%Z (Some (InputBuf 8, 0%Z)))
    (mkTensor [3]%Z (Some (InputBuf 3, 0%Z)))
    (mkTensor [3]%Z (Some (InputBuf 4, 0%Z)))
    (mkTensor [2; 1; 1]%Z (Some (InputBuf 9, 0%Z)))
    (mkTensor [2; 1; 4]%Z (Some (InputBuf 10, 0%Z)))
    (mkTensor [2; 1; 1]%Z (Some (InputBuf 11, 0%Z)))
    sample_mask.

(** The same sequence cut to no time step at all. *)
Definition empty_inputs : HasteGru.Inputs :=
  HasteGru.mkInputs
    (mkTensor [0; 1; 1]%Z nullptr)
    (mkTensor [1; 3]%Z (Some (InputBuf 1, 0%Z)))
    (mkTensor [1; 3]%Z (Some (InputBuf 2, 0%Z)))
    (mkTensor [3]%Z (Some (InputBuf 3, 0%Z)))
    (mkTensor [3]%Z (Some (InputBuf 4, 0%Z)))
    (mkTensor [0; 1; 1]%Z nullptr).

Definition empty_grad_inputs : HasteGruGrad.Inputs :=
  HasteGruGrad.mkInputs
    (mkTensor [0; 1; 1]%Z nullptr)
    (mkTensor [3; 1]%Z (Some (InputBuf 7, 0%Z)))
    (mkTensor [3; 1]%Z (Some (InputBuf 8, 0%Z)))
    (mkTensor [3]%Z (Some (InputBuf 3, 0%Z)))
    (mkTensor [3]%Z (Some (InputBuf 4, 0%Z)))
    (mkTensor [0; 1; 1]%Z nullptr)
    (mkTensor [0; 1; 4]%Z nullptr)
    (mkTensor [0; 1; 1]%Z nullptr)
    (mkTensor [0; 1; 1]%Z nullptr).

(** A gradient call whose input has two features while [kernel_t] is
    laid out for five. *)
Definition mismatched_grad_inputs : HasteGruGrad.Inputs :=
  HasteGruGrad.mkInputs
    (mkTensor [1; 2; 1]%Z (Some (InputBuf 6, 0%Z)))
    (mkTensor [3; 5]%Z (Some (InputBuf 7, 0%Z)))
    (mkTensor [3; 1]%Z (Some (InputBuf 8, 0%Z)))
    (mkTensor [3]%Z (Some (InputBuf 3, 0%Z)))
    (mkTensor [3]%Z (Some (InputBuf 4, 0%Z)))
    (mkTensor [1; 1; 1]%Z (Some (InputBuf 9, 0%Z)))
    (mkTensor [1; 1; 4]%Z (Some (InputBuf 10, 0%Z)))
    (mkTensor [1; 1; 1]%Z (Some (InputBuf 11, 0%Z)))
    (mkTensor [0; 0; 0]%Z nullptr).

(** A forward call whose input has two features while [kernel] has
    five rows. *)
Definition mismatched_inputs : HasteGru.Inputs :=
  HasteGru.mkInputs
    (mkTensor [1; 1; 2]%Z (Some (InputBuf 0, 0%Z)))
    (mkTensor [5; 3]%Z (Some (InputBuf 1, 0%Z)))
    (mkTensor [1; 3]%Z (Some (InputBuf 2, 0%Z)))
    (mkTensor [3]%Z (Some (InputBuf 3, 0%Z)))
    (mkTensor [3]%Z (Some (InputBuf 4, 0%Z)))
    (mkTensor [0; 0; 0]%Z nullptr).

Definition sample_forward_run (training_ : bool) (zoneout_prob_ : spec_float)
           (c : HasteGru.Inputs) : outcome unit * OpState Z :=
  HasteGruOp_Compute 0%Z sample_forward sample_alloc training_ zoneout_prob_ c
                     (start sample_mem sample_process).

Definition sample_backward_run (c : HasteGruGrad.Inputs)
  : outcome unit * OpState Z :=
  HasteGruGradOp_Compute 0%Z sample_backward sample_alloc c
                         (start sample_mem sample_process).

(** An allocator that cannot serve the second output of a call. *)
Definition short_alloc : buffer -> TensorShape -> bool :=
  fun b _ => negb (buffer_eqb b (OutputBuf 1)).

(** The sample inputs with the same buffers and other shapes for the
    kernels and the biases; the first dimension of the two kernels is
    kept. *)
Definition reshaped_inputs : HasteGru.Inputs :=
  HasteGru.mkInputs
    (mkTensor [2; 1; 1]%Z (Some (InputBuf 0, 0%Z)))
    (mkTensor [1; 7]%Z (Some (InputBuf 1, 0%Z)))
    (mkTensor [1; 5]%Z (Some (InputBuf 2, 0%Z)))
    (mkTensor [9]%Z (Some (InputBuf 3, 0%Z)))
    (mkTensor [] (Some (InputBuf 4, 0%Z)))
    sample_mask.

(** The sample gradient inputs with the same buffers and other shapes
    for the kernels and the biases; the second dimension of
    [recurrent_kernel_t] is kept. *)
Definition reshaped_grad_inputs : HasteGruGrad.Inputs :=
  HasteGruGrad.mkInputs
    (mkTensor [2; 1; 1]%Z (Some (InputBuf 6, 0%Z)))
    (mkTensor [4; 2; 2]%Z (Some (InputBuf 7, 0%Z)))
    (mkTensor [8; 1]%Z (Some (InputBuf 8, 0%Z)))
    (mkTensor [1; 1]%Z (Some (InputBuf 3, 0%Z)))
    (mkTensor [] (Some (InputBuf 4, 0%Z)))
    (mkTensor [2; 1; 1]%Z (Some (InputBuf 9, 0%Z)))
    (mkTensor [2; 1; 4]%Z (Some (InputBuf 10, 0%Z)))
    (mkTensor [2; 1; 1]%Z (Some (InputBuf 11, 0%Z)))
    sample_mask.

(** The probability one half, as a [float]: [1 * 2^-1]. *)
Definition float_half : spec_float := S754_finite false 1 (-1).

End Gru.

(* ====================================================================== *)
(** * Facts: the activation derivatives *)
(* ====================================================================== *)

Section ActivationDerivatives.
Import InlineOps.
Local Open Scope R_scope.

Lemma sigmoid_den_pos (x : R) : 0 < 1 + exp (- x).
Proof. pose proof (exp_pos (- x)); lra. Qed.

Lemma derivable_pt_lim_sigmoid (x : R) :
  derivable_pt_lim sigmoid x (d_sigmoid (sigmoid x)).
Proof.
  pose proof (sigmoid_den_pos x) as Hd.
  assert (Hg : derivable_pt_lim (fct_cte 1 + comp exp (- id))%F x
                 (0 + exp (- x) * - 1)).
  { apply derivable_pt_lim_plus.
    - apply derivable_pt_lim_const.
    - apply derivable_pt_lim_comp.
      + apply derivable_pt_lim_opp, derivable_pt_lim_id.
      + apply derivable_pt_lim_exp. }
  assert (Hne : 1 + exp (- x) <> 0) by lra.
  pose proof (derivable_pt_lim_div (fct_cte 1) (fct_cte 1 + comp exp (- id))%F x 0
                (0 + exp (- x) * - 1) (derivable_pt_lim_const 1 x) Hg Hne) as Hq.
  unfold plus_fct, fct_cte, comp, opp_fct, id, div_fct in Hq.
  replace (d_sigmoid (sigmoid x))
    with ((0 * (1 + exp (- x)) - (0 + exp (- x) * - 1) * 1) / (1 + exp (- x))²).
  - exact Hq.
  - unfold d_sigmoid, sigmoid; simpl. unfold Rsqr. field. exact Hne.
Qed.

Lemma cosh_pos (x : R) : 0 < cosh x.
Proof. unfold cosh. pose proof (exp_pos x). pose proof (exp_pos (- x)). lra. Qed.

Lemma derivable_pt_lim_tanh (x : R) :
  derivable_pt_lim tanh x (d_tanh (tanh x)).
Proof.
  pose proof (cosh_pos x) as Hc.
  assert (Hne : cosh x <> 0) by lra.
  pose proof (derivable_pt_lim_div sinh cosh x (cosh x) (sinh x)
                (derivable_pt_lim_sinh x) (derivable_pt_lim_cosh x) Hne) as Hq.
  replace (d_tanh (tanh x)) with ((cosh x * cosh x - sinh x * sinh x) / (cosh x)²).
  - exact Hq.
  - unfold d_tanh, tanh; simpl. unfold Rsqr. field. exact Hne.
Qed.

(** C9. The derivative primitives take the activation value: over any
    scalar type [d_sigmoid s] is [s * (1 - s)] and [d_tanh u] is
    [1 - u * u]; and over the reals, [d_sigmoid (sigmoid x)] is the
    derivative of [sigmoid] at [x] and [d_tanh (tanh x)] is the derivative
    of [tanh] at [x]. *)
Theorem derivatives_from_activation_values :
  (forall (T : Type) (S : Scalar T) (s : T),
      d_sigmoid s = s_mul s (s_sub s_one s)) /\
  (forall (T : Type) (S : Scalar T) (u : T),
      d_tanh u = s_sub s_one (s_mul u u)) /\
  (forall s : R, d_sigmoid s = s * (1 - s)) /\
  (forall u : R, d_tanh u = 1 - u * u) /\
  (forall x : R, derivable_pt_lim sigmoid x (d_sigmoid (sigmoid x))) /\
  (forall x : R, derivable_pt_lim tanh x (d_tanh (tanh x))).
Proof.
  repeat split; try reflexivity.
  - exact derivable_pt_lim_sigmoid.
  - exact derivable_pt_lim_tanh.
Qed.
End ActivationDerivatives.

(* ====================================================================== *)
(** * Facts: the cuBLAS handle cache *)
(* ====================================================================== *)

Section CudaFacts.
Import Cuda.
Local Open Scope Z_scope.

Lemma range_valid n i : In i (range n) -> 0 <= i < n.
Proof.
  unfold range. rewrite in_map_iff. intros (k & <- & Hk). apply in_seq in Hk. lia.
Qed.

Lemma range_length n : length (range n) = Z.to_nat n.
Proof. unfold range. now rewrite length_map, length_seq. Qed.

Lemma cudaSetDevice_valid i rt :
  0 <= i < rt_device_count rt ->
  cudaSetDevice i rt =
  mkRuntime (rt_device_count rt) i (rt_live rt) (rt_destroyed rt) (rt_next rt).
Proof.
  intros Hi. unfold cudaSetDevice.
  destruct (0 <=? i) eqn:E1; [|apply Z.leb_gt in E1; lia].
  destruct (i <? rt_device_count rt) eqn:E2; [reflexivity|apply Z.ltb_ge in E2; lia].
Qed.

Lemma last_default_irrelevant (l : list Z) (z d d' : Z) :
  last (z :: l) d = last (z :: l) d'.
Proof.
  revert z. induction l as [|y l IH]; intros z; [reflexivity|].
  change (last (y :: l) d = last (y :: l) d'). apply IH.
Qed.

(** The loop of the constructor, over valid device ordinals: the k-th
    handle is the k-th fresh identity, bound to the k-th ordinal. *)
Lemma create_handles_spec idxs :
  forall hs rt,
  (forall i, In i idxs -> 0 <= i < rt_device_count rt) ->
  let new := seq (rt_next rt) (length idxs) in
  create_handles idxs hs rt =
  (hs ++ new,
   mkRuntime (rt_device_count rt) (last idxs (rt_current_device rt))
             (rt_live rt ++ combine new idxs) (rt_destroyed rt)
             (rt_next rt + length idxs)%nat).
Proof.
  induction idxs as [|i rest IH]; intros hs rt Hv; cbn zeta.
  - simpl. rewrite !app_nil_r, Nat.add_0_r. now destruct rt.
  - cbn [create_handles]. rewrite cudaSetDevice_valid by (apply Hv; now left).
    unfold cublasCreate. cbn [rt_device_count rt_current_device rt_live rt_destroyed rt_next].
    rewrite IH by (cbn; intros j Hj; apply Hv; now right).
    cbn [rt_device_count rt_current_device rt_live rt_destroyed rt_next length seq combine].
    rewrite <- !app_assoc. cbn [app].
    f_equal. f_equal.
    + destruct rest as [|z rest]; [reflexivity|].
      change (last (z :: rest) i = last (z :: rest) (rt_current_device rt)).
      apply last_default_irrelevant.
    + lia.
Qed.

Lemma ctor_spec rt :
  0 <= rt_current_device rt < rt_device_count rt ->
  let n := Z.to_nat (rt_device_count rt) in
  CublasHandleContainer_ctor rt =
  (seq (rt_next rt) n,
   mkRuntime (rt_device_count rt) (rt_current_device rt)
             (rt_live rt ++ combine (seq (rt_next rt) n) (range (rt_device_count rt)))
             (rt_destroyed rt) (rt_next rt + n)%nat).
Proof.
  intros Hc n. unfold CublasHandleContainer_ctor, cudaGetDevice, cudaGetDeviceCount.
  rewrite create_handles_spec by (intros i Hi; now apply range_valid).
  rewrite range_length. fold n. cbn [app].
  now rewrite cudaSetDevice_valid by (cbn; lia).
Qed.

Lemma cached_wf count p : cached count p -> wf p.
Proof.
  intros (Hc & Hd & _ & Hh). split; [now rewrite Hc|].
  destruct (all_handles p); [|exact I].
  destruct Hh as [-> _]. now rewrite length_seq, Hc.
Qed.

Lemma cached_fresh count current :
  0 <= current < count -> cached count (fresh_process count current).
Proof. intros H. repeat split; simpl; lia. Qed.

Lemma nth_error_seq_0 n k : (k < n)%nat -> nth_error (seq 0 n) k = Some k.
Proof.
  intros Hk. rewrite (nth_error_nth' _ 0%nat) by now rewrite length_seq.
  now rewrite seq_nth.
Qed.

Lemma GetCublasHandle_cached count p :
  cached count p ->
  exists p',
    GetCublasHandle p = (Some (Z.to_nat (rt_current_device (runtime p))), p') /\
    cached count p' /\
    all_handles p' = Some (seq 0 (Z.to_nat count)) /\
    rt_current_device (runtime p') = rt_current_device (runtime p) /\
    (all_handles p <> None -> p' = p).
Proof.
  intros (Hc & Hd & Hx & Hh). unfold GetCublasHandle.
  destruct (all_handles p) as [hs|] eqn:Ea.
  - destruct Hh as [-> Hl]. exists p. unfold cudaGetDevice.
    destruct (0 <=? rt_current_device (runtime p)) eqn:E; [|apply Z.leb_gt in E; lia].
    rewrite Ea, nth_error_seq_0 by lia.
    split; [reflexivity|].
    split; [unfold cached; rewrite Ea; auto|].
    split; [reflexivity|]. split; [reflexivity|]. intros _; reflexivity.
  - destruct Hh as [Hl Hn].
    rewrite ctor_spec by lia. cbn zeta. rewrite Hl, Hn, Hx, Hc. cbn [app Nat.add].
    eexists. cbn [runtime all_handles]. unfold cudaGetDevice. cbn [rt_current_device].
    destruct (0 <=? rt_current_device (runtime p)) eqn:E; [|apply Z.leb_gt in E; lia].
    rewrite nth_error_seq_0 by lia.
    split; [reflexivity|].
    split; [unfold cached; cbn; repeat split; auto; lia|].
    split; [reflexivity|]. split; [reflexivity|]. intros F; now elim F.
Qed.

Lemma SelectDevice_cached count d p :
  cached count p ->
  cached count (mkProcess (cudaSetDevice d (runtime p)) (all_handles p)).
Proof.
  intros (Hc & Hd & Hx & Hh). unfold cudaSetDevice.
  destruct ((0 <=? d) && (d <? rt_device_count (runtime p))) eqn:E.
  - apply andb_prop in E as [E1 E2]. apply Z.leb_le in E1. apply Z.ltb_lt in E2.
    repeat split; cbn; auto; lia.
  - repeat split; cbn; auto; lia.
Qed.

Lemma filter_combine_seq (d : Z) n :
  forall s,
  map fst (filter (fun e : cublasHandle_t * Z => snd e =? d)
             (combine (seq s n) (map Z.of_nat (seq s n)))) =
  if (Z.of_nat s <=? d) && (d <? Z.of_nat (s + n)) then [Z.to_nat d] else [].
Proof.
  induction n as [|n IH]; intros s.
  - simpl. destruct (Z.of_nat s <=? d) eqn:E1; [|reflexivity].
    destruct (d <? Z.of_nat (s + 0)) eqn:E2; [|reflexivity].
    apply Z.leb_le in E1. apply Z.ltb_lt in E2. lia.
  - cbn [seq map combine filter snd]. destruct (Z.of_nat s =? d) eqn:E.
    + apply Z.eqb_eq in E. subst d. cbn [map fst]. rewrite IH.
      replace (Z.of_nat (S s) <=? Z.of_nat s) with false by (symmetry; apply Z.leb_gt; lia).
      replace (Z.of_nat s <=? Z.of_nat s) with true by (symmetry; apply Z.leb_le; lia).
      replace (Z.of_nat s <? Z.of_nat (s + S n)) with true by (symmetry; apply Z.ltb_lt; lia).
      cbn. now rewrite Nat2Z.id.
    + rewrite IH. apply Z.eqb_neq in E.
      replace (s + S n)%nat with (S s + n)%nat by lia.
      destruct (Z.of_nat (S s) <=? d) eqn:E1, (Z.of_nat s <=? d) eqn:E2; try reflexivity.
      * apply Z.leb_le in E1. apply Z.leb_gt in E2. lia.
      * apply Z.leb_gt in E1. apply Z.leb_le in E2. lia.
Qed.

Lemma handles_on_combine count d :
  map fst (filter (fun e : cublasHandle_t * Z => snd e =? d)
             (combine (seq 0 (Z.to_nat count)) (range count))) =
  if (0 <=? d) && (d <? count) then [Z.to_nat d] else [].
Proof.
  unfold range. rewrite filter_combine_seq. cbn [Nat.add Z.of_nat].
  destruct (0 <=? d) eqn:E1; [|reflexivity]. cbn [andb]. apply Z.leb_le in E1.
  destruct (d <? count) eqn:E2.
  - apply Z.ltb_lt in E2.
    replace (d <? Z.of_nat (Z.to_nat count)) with true; [reflexivity|].
    symmetry. apply Z.ltb_lt. lia.
  - apply Z.ltb_ge in E2.
    replace (d <? Z.of_nat (Z.to_nat count)) with false; [reflexivity|].
    symmetry. apply Z.ltb_ge. lia.
Qed.

Lemma run_cached count acts :
  forall p, cached count p ->
  cached count (snd (run acts p)) /\
  (existsb is_lookup acts = false ->
   all_handles (snd (run acts p)) = all_handles p /\
   rt_live (runtime (snd (run acts p))) = rt_live (runtime p)) /\
  (all_handles p <> None -> all_handles (snd (run acts p)) <> None) /\
  (forall d r, In (d, r) (fst (run acts p)) ->
     0 <= d < count /\ r = Some (Z.to_nat d) /\
     all_handles (snd (run acts p)) <> None).
Proof.
  induction acts as [|a rest IH]; intros p Hp.
  - cbn [run fst snd]. split; [exact Hp|]. split; [intros _; now split|].
    split; [auto|]. intros d r [].
  - destruct a as [|d0].
    + cbn [run].
      destruct (GetCublasHandle_cached Hp) as (p' & Eg & Hp' & Ha & Hcur & Hsame).
      rewrite Eg. destruct (IH p' Hp') as (I1 & I2 & I3 & I4).
      destruct (run rest p') as [rs p2] eqn:Er. cbn [fst snd] in *.
      split; [exact I1|]. split; [cbn; discriminate|].
      assert (Hne : all_handles p2 <> None) by (apply I3; rewrite Ha; discriminate).
      split; [intros _; exact Hne|].
      intros d r [E|Hin].
      * inversion E; subst. destruct Hp as (_ & Hd & _). unfold cudaGetDevice.
        repeat split; auto; lia.
      * apply I4; exact Hin.
    + cbn [run existsb is_lookup orb].
      pose proof (SelectDevice_cached d0 Hp) as Hp'.
      destruct (IH _ Hp') as (I1 & I2 & I3 & I4).
      split; [exact I1|]. split.
      * intros E. destruct (I2 E) as [E1 E2]. cbn [all_handles runtime] in E1, E2.
        split; [exact E1|]. rewrite E2. unfold cudaSetDevice.
        now destruct ((0 <=? d0) && (d0 <? rt_device_count (runtime p))).
      * split; [exact I3|exact I4].
Qed.

Lemma dtor_live hs :
  forall rt e,
  In e (rt_live (CublasHandleContainer_dtor hs rt)) ->
  In e (rt_live rt) /\ ~ In (fst e) hs.
Proof.
  induction hs as [|h hs IH]; intros rt e He.
  - cbn in He. split; [exact He|intros []].
  - cbn [CublasHandleContainer_dtor fold_left] in He.
    apply (IH (cublasDestroy h rt)) in He as [He Hn].
    unfold cublasDestroy in He. cbn [rt_live] in He.
    apply filter_In in He as [He Hne].
    split; [exact He|]. intros [E|Hin]; [|now apply Hn].
    subst h. now rewrite Nat.eqb_refl in Hne.
Qed.

Lemma dtor_destroyed hs :
  forall rt, rt_destroyed (CublasHandleContainer_dtor hs rt) = rt_destroyed rt ++ hs.
Proof.
  induction hs as [|h hs IH]; intros rt.
  - cbn. now rewrite app_nil_r.
  - cbn [CublasHandleContainer_dtor fold_left].
    change (rt_destroyed (CublasHandleContainer_dtor hs (cublasDestroy h rt)) =
            rt_destroyed rt ++ h :: hs).
    rewrite IH. cbn. now rewrite <- app_assoc.
Qed.

Lemma process_exit_cached count p :
  cached count p -> rt_live (runtime (process_exit p)) = [].
Proof.
  intros (_ & _ & _ & Hh). unfold process_exit.
  destruct (all_handles p) as [hs|]; [|now destruct Hh].
  destruct Hh as [Hs Hl]. cbn [runtime].
  destruct (rt_live (CublasHandleContainer_dtor hs (runtime p))) as [|e l] eqn:E;
    [reflexivity|].
  assert (He : In e (rt_live (CublasHandleContainer_dtor hs (runtime p))))
    by (rewrite E; now left).
  apply dtor_live in He as [He Hn]. rewrite Hl in He.
  destruct e as [h d]. apply in_combine_l in He. now elim Hn.
Qed.

(** C7. Starting from a fresh process, whatever sequence of lookups and
    device selections follows: every device has at most one handle; no
    handle exists before the first lookup, and from the first lookup on
    every device has exactly one; nothing is destroyed while the process
    runs, and shutdown destroys every handle; every lookup returns the one
    handle bound to the device that was selected when it was made. *)
Theorem cublas_handle_cache (count current : Z) (acts : list action) :
  0 <= current < count ->
  let results := fst (run acts (fresh_process count current)) in
  let p' := snd (run acts (fresh_process count current)) in
  (forall d, (length (handles_on d (runtime p')) <= 1)%nat) /\
  (existsb is_lookup acts = false ->
     rt_live (runtime p') = [] /\ all_handles p' = None) /\
  (existsb is_lookup acts = true ->
     forall d, 0 <= d < count -> length (handles_on d (runtime p')) = 1%nat) /\
  rt_destroyed (runtime p') = [] /\
  rt_live (runtime (process_exit p')) = [] /\
  (forall d r, In (d, r) results ->
     exists h, r = Some h /\ handles_on d (runtime p') = [h]).
Proof.
  intros Hc results p'.
  destruct (run_cached acts (cached_fresh Hc)) as (I1 & I2 & I3 & I4).
  fold p' in I1, I2, I3, I4. fold results in I4.
  assert (Hon : forall d, all_handles p' <> None ->
            handles_on d (runtime p') =
            if (0 <=? d) && (d <? count) then [Z.to_nat d] else []).
  { intros d Hne. destruct I1 as (_ & _ & _ & Hh).
    destruct (all_handles p') as [hs|]; [|now elim Hne].
    destruct Hh as [-> Hl]. unfold handles_on. rewrite Hl.
    apply handles_on_combine. }
  split; [|split; [|split; [|split; [|split]]]].
  - intros d. destruct (all_handles p') as [hs|] eqn:Ea.
    + rewrite Hon by discriminate.
      destruct ((0 <=? d) && (d <? count)); cbn; lia.
    + destruct I1 as (_ & _ & _ & Hh). rewrite Ea in Hh. destruct Hh as [Hl _].
      unfold handles_on. rewrite Hl. cbn. lia.
  - intros E. destruct (I2 E) as [E1 E2]. now split.
  - intros E d Hd.
    assert (Hne : all_handles p' <> None).
    { apply existsb_exists in E as (a & Hin & Ha).
      destruct a; [|discriminate].
      clear - Hin Hc. unfold p'. revert Hin.
      generalize (cached_fresh Hc). generalize (fresh_process count current).
      induction acts as [|a rest IH]; intros p Hp Hin0; [now elim Hin0|].
      destruct Hin0 as [E|Hin].
      - subst a. cbn [run].
        destruct (GetCublasHandle_cached Hp) as (q & Eg & Hq & Ha & _).
        rewrite Eg. destruct (run_cached rest Hq) as (_ & _ & J & _).
        destruct (run rest q) as [rs p2]. cbn [snd] in *. apply J. rewrite Ha. discriminate.
      - destruct a as [|d0]; cbn [run].
        + destruct (GetCublasHandle_cached Hp) as (q & Eg & Hq & Ha & _).
          rewrite Eg. specialize (IH q Hq Hin).
          destruct (run rest q) as [rs p2]. exact IH.
        + apply IH; [now apply SelectDevice_cached|exact Hin]. }
    rewrite Hon by exact Hne.
    replace ((0 <=? d) && (d <? count)) with true; [reflexivity|].
    symmetry. apply andb_true_intro. split; [apply Z.leb_le|apply Z.ltb_lt]; lia.
  - now destruct I1 as (_ & _ & Hx & _).
  - now apply process_exit_cached with count.
  - intros d r Hin. destruct (I4 d r Hin) as (Hd & -> & Hne).
    exists (Z.to_nat d). split; [reflexivity|].
    rewrite Hon by exact Hne.
    replace ((0 <=? d) && (d <? count)) with true; [reflexivity|].
    symmetry. apply andb_true_intro. split; [apply Z.leb_le|apply Z.ltb_lt]; lia.
Qed.

Lemma map_snd_combine_eq (X Y : Type) (l1 : list X) :
  forall l2 : list Y, length l1 = length l2 -> map snd (combine l1 l2) = l2.
Proof.
  induction l1 as [|x l1 IH]; intros [|y l2] E; try discriminate; [reflexivity|].
  cbn. f_equal. apply IH. now inversion E.
Qed.

(** C10. Constructing the container creates one handle on each device
    in turn, the [k]-th on device [k], and restores the device that was
    selected before; so every handle lookup leaves the selected device as
    it found it. *)
Theorem handle_creation_restores_device (p : Process) :
  0 <= rt_current_device (runtime p) < rt_device_count (runtime p) ->
  map snd (skipn (length (rt_live (runtime p)))
             (rt_live (snd (CublasHandleContainer_ctor (runtime p))))) =
    range (rt_device_count (runtime p)) /\
  rt_current_device (snd (CublasHandleContainer_ctor (runtime p))) =
    rt_current_device (runtime p) /\
  rt_current_device (runtime (snd (GetCublasHandle p))) =
    rt_current_device (runtime p).
Proof.
  intros Hc. split; [|split].
  - rewrite ctor_spec by exact Hc. cbn [snd rt_live].
    rewrite skipn_app, skipn_all, Nat.sub_diag. cbn [skipn app].
    apply map_snd_combine_eq. now rewrite length_seq, range_length.
  - now rewrite ctor_spec.
  - unfold GetCublasHandle. destruct (all_handles p); [reflexivity|].
    now rewrite ctor_spec.
Qed.
End CudaFacts.

(* ====================================================================== *)
(** * Facts: the handle cache over the life of a process *)
(* ====================================================================== *)

Section CacheFacts.
Import Cuda.
Local Open Scope Z_scope.

(** Once the container exists a lookup changes nothing. *)
Lemma GetCublasHandle_constructed p hs :
  all_handles p = Some hs -> snd (GetCublasHandle p) = p.
Proof. intros E. unfold GetCublasHandle. now rewrite E. Qed.

Lemma GetCublasHandle_constructs p :
  all_handles (snd (GetCublasHandle p)) <> None.
Proof.
  unfold GetCublasHandle. destruct (all_handles p) as [hs|] eqn:E; cbn [snd].
  - now rewrite E.
  - destruct (CublasHandleContainer_ctor (runtime p)). cbn. discriminate.
Qed.

Lemma GetCublasHandle_shape p :
  exists hs,
    all_handles (snd (GetCublasHandle p)) = Some hs /\
    fst (GetCublasHandle p) =
      (if 0 <=? rt_current_device (runtime (snd (GetCublasHandle p)))
       then nth_error hs (Z.to_nat (rt_current_device (runtime (snd (GetCublasHandle p)))))
       else None).
Proof.
  unfold GetCublasHandle. destruct (all_handles p) as [hs|] eqn:E.
  - exists hs. cbn [fst snd]. rewrite E. now split.
  - destruct (CublasHandleContainer_ctor (runtime p)) as [hs rt'].
    exists hs. cbn [fst snd all_handles runtime]. now split.
Qed.

(** X6. [GetCublasHandle] is idempotent: a second lookup right after a
    lookup returns the same handle and leaves the process exactly as the
    first one left it, in every state of the process. *)
Theorem lookup_twice_is_lookup_once (p : Process) :
  GetCublasHandle (snd (GetCublasHandle p)) = GetCublasHandle p.
Proof.
  destruct (GetCublasHandle_shape p) as (hs & Ea & Ef).
  destruct (GetCublasHandle p) as [r q]. cbn [fst snd] in *.
  unfold GetCublasHandle. cbv zeta. rewrite Ea. unfold cudaGetDevice. subst r. now rewrite ?Ea.
Qed.

(** The container exists as soon as one lookup was made. *)
Lemma run_lookup_constructs count acts :
  forall p, cached count p ->
  existsb is_lookup acts = true ->
  all_handles (snd (run acts p)) = Some (seq 0 (Z.to_nat count)).
Proof.
  induction acts as [|a rest IH]; intros p Hp E; [discriminate|].
  destruct a as [|d0]; cbn [run].
  - destruct (GetCublasHandle_cached Hp) as (q & Eg & Hq & Ha & _).
    rewrite Eg. destruct (existsb is_lookup rest) eqn:Er.
    + specialize (IH q Hq eq_refl). destruct (run rest q). exact IH.
    + destruct (run_cached rest Hq) as (_ & I2 & _).
      destruct (I2 Er) as [E1 _]. destruct (run rest q). cbn [snd] in *.
      now rewrite E1.
  - cbn [existsb is_lookup orb] in E.
    apply IH; [now apply SelectDevice_cached|exact E].
Qed.



(** X8. Devices never share a handle: every lookup returns a handle, and
    two lookups return the same handle exactly when they were made with the
    same device selected. *)
Theorem lookups_separate_devices (count current : Z) (acts : list action)
        (d1 d2 : Z) (r1 r2 : option cublasHandle_t) :
  0 <= current < count ->
  In (d1, r1) (fst (run acts (fresh_process count current))) ->
  In (d2, r2) (fst (run acts (fresh_process count current))) ->
  r1 <> None /\ (d1 = d2 <-> r1 = r2).
Proof.
  intros Hc H1 H2.
  destruct (run_cached acts (cached_fresh Hc)) as (_ & _ & _ & I4).
  destruct (I4 _ _ H1) as (B1 & -> & _). destruct (I4 _ _ H2) as (B2 & -> & _).
  split; [discriminate|]. split.
  - now intros ->.
  - intros E. inversion E. lia.
Qed.

(** X9. Process shutdown destroys every handle exactly once, in the order
    of creation, and destroys nothing when no lookup was ever made; no
    handle is left alive and the container is gone. *)
Theorem shutdown_destroys_each_handle_once (count current : Z) (acts : list action) :
  0 <= current < count ->
  let p' := snd (run acts (fresh_process count current)) in
  rt_destroyed (runtime (process_exit p')) =
    (if existsb is_lookup acts then seq 0 (Z.to_nat count) else []) /\
  rt_live (runtime (process_exit p')) = [] /\
  all_handles (process_exit p') = None.
Proof.
  intros Hc p'.
  destruct (run_cached acts (cached_fresh Hc)) as (I1 & I2 & _).
  fold p' in I1, I2.
  split; [|split].
  - destruct (existsb is_lookup acts) eqn:E.
    + pose proof (run_lookup_constructs acts (cached_fresh Hc) E) as Ha.
      fold p' in Ha. unfold process_exit. rewrite Ha. cbn [runtime].
      rewrite dtor_destroyed. destruct I1 as (_ & _ & -> & _). reflexivity.
    + destruct (I2 eq_refl) as [Ea _]. cbn [fresh_process all_handles] in Ea.
      unfold process_exit. rewrite Ea. now destruct I1 as (_ & _ & Hx & _).
  - now apply process_exit_cached with count.
  - unfold process_exit. destruct (all_handles p') eqn:E; [reflexivity|exact E].
Qed.

Lemma lookups_separate_devices_witness :
  Some 0%nat <> None /\ (0 = 1 <-> Some 0%nat = Some 1%nat).
Proof.
  apply (lookups_separate_devices (count:=2) (current:=0)
           [Lookup; SelectDevice 1; Lookup]).
  - lia.
  - left; reflexivity.
  - right; left; reflexivity.
Defined.

Lemma shutdown_destroys_each_handle_once_witness :
  rt_destroyed
    (runtime (process_exit (snd (run [Lookup] (fresh_process 3 1))))) =
  [0; 1; 2]%nat.
Proof.
  destruct (shutdown_destroys_each_handle_once (count:=3) (current:=1) [Lookup])
    as (A & _); [lia|exact A].
Defined.
End CacheFacts.


(* ====================================================================== *)
(** * Facts: the two operator kernels *)
(* ====================================================================== *)

Section KernelFacts.
Import TF Gru.
Variable T : Type.
Variable zero : T.
Variable FI : ForwardPass -> ForwardArgs -> Mem T -> Mem T.
Variable BI : BackwardPass -> BackwardArgs -> Mem T -> Mem T.
Variable alloc_ok : buffer -> TensorShape -> bool.

Lemma after_calls_nil (st : OpState T) : after_calls FI BI st [] = st.
Proof. destruct st; unfold after_calls; simpl. now rewrite app_nil_r. Qed.

Lemma after_calls_cons (st : OpState T) c cs :
  after_calls FI BI st (c :: cs) = after_calls FI BI (after_calls FI BI st [c]) cs.
Proof.
  unfold after_calls; simpl. now rewrite <- app_assoc.
Qed.

Lemma forward_body_eq training prob ctx hz fwd output v_out tmp_Wx tmp_Rh h i st :
  forward_body FI training prob ctx hz fwd output v_out tmp_Wx tmp_Rh h i st =
  match forward_args training prob ctx hz output v_out tmp_Wx tmp_Rh h i with
  | Done (a, nh) => (Done nh, after_calls FI BI st [FwIterate fwd a])
  | Failed s => (Failed s, st)
  | Crashed => (Crashed, st)
  end.
Proof.
  unfold forward_body, forward_args, bind, lift, obind.
  destruct (SubSlice (HasteGru.x ctx) i); try reflexivity.
  destruct (SubSlice output i); try reflexivity.
  destruct (SubSlice v_out i); try reflexivity.
  destruct (SubSlice tmp_Wx i); try reflexivity.
  destruct hz; [destruct (SubSlice (HasteGru.zoneout_mask ctx) i)|]; try reflexivity.
Qed.

Lemma forward_loop_eq training prob ctx hz fwd output v_out tmp_Wx tmp_Rh idxs :
  forall h st,
  forward_loop FI training prob ctx hz fwd output v_out tmp_Wx tmp_Rh idxs h st =
  (snd (forward_plan training prob ctx hz fwd output v_out tmp_Wx tmp_Rh idxs h),
   after_calls FI BI st
     (fst (forward_plan training prob ctx hz fwd output v_out tmp_Wx tmp_Rh idxs h))).
Proof.
  induction idxs as [|i rest IH]; intros h st.
  - simpl. now rewrite after_calls_nil.
  - simpl. unfold bind. rewrite forward_body_eq.
    destruct (forward_args training prob ctx hz output v_out tmp_Wx tmp_Rh h i)
      as [[a nh]|s|]; simpl; try now rewrite after_calls_nil.
    rewrite IH.
    destruct (forward_plan training prob ctx hz fwd output v_out tmp_Wx tmp_Rh rest nh)
      as [cs o]; simpl.
    f_equal. symmetry. apply after_calls_cons.
Qed.

Lemma backward_body_eq ctx hz bwd dx dW dR dbx dbr dh dp dq zv i st :
  backward_body BI ctx hz bwd dx dW dR dbx dbr dh dp dq zv i st =
  match backward_args ctx hz dx dW dR dbx dbr dh dp dq zv i with
  | Done a => (Done tt, after_calls FI BI st [BwIterate bwd a])
  | Failed s => (Failed s, st)
  | Crashed => (Crashed, st)
  end.
Proof.
  unfold backward_body, backward_args, bind, lift, obind, ret.
  destruct (SubSlice (HasteGruGrad.x_t ctx) i); try reflexivity.
  destruct (negb (i =? 0)%Z);
    [destruct (SubSlice (HasteGruGrad.h_t ctx) (sub64 i 1)); try reflexivity|].
  all: destruct (SubSlice (HasteGruGrad.v ctx) i); try reflexivity.
  all: destruct (SubSlice (HasteGruGrad.dh_new ctx) i); try reflexivity.
  all: destruct (SubSlice dx i); try reflexivity.
  all: destruct (SubSlice dp i); try reflexivity.
  all: destruct (SubSlice dq i); try reflexivity.
  all: destruct hz; [destruct (SubSlice (HasteGruGrad.zoneout_mask ctx) i)|]; try reflexivity.
Qed.

Lemma backward_loop_eq ctx hz bwd dx dW dR dbx dbr dh dp dq zv idxs :
  forall st,
  backward_loop BI ctx hz bwd dx dW dR dbx dbr dh dp dq zv idxs st =
  (snd (backward_plan ctx hz bwd dx dW dR dbx dbr dh dp dq zv idxs),
   after_calls FI BI st
     (fst (backward_plan ctx hz bwd dx dW dR dbx dbr dh dp dq zv idxs))).
Proof.
  induction idxs as [|i rest IH]; intros st.
  - simpl. now rewrite after_calls_nil.
  - simpl. unfold bind. rewrite backward_body_eq.
    destruct (backward_args ctx hz dx dW dR dbx dbr dh dp dq zv i)
      as [a|s|]; simpl; try now rewrite after_calls_nil.
    rewrite IH.
    destruct (backward_plan ctx hz bwd dx dW dR dbx dbr dh dp dq zv rest)
      as [cs o]; simpl.
    f_equal. symmetry. apply after_calls_cons.
Qed.

Lemma add_dims_head n d rest :
  add_dims n (d :: rest) = true -> (0 <= d)%Z.
Proof.
  simpl. intros H. apply andb_prop in H as [H _]. apply andb_prop in H as [H _].
  now apply Z.leb_le.
Qed.

Lemma SubSlice_fresh_0 b d rest :
  (0 <= d)%Z ->
  SubSlice (fresh_tensor b (d :: rest)) 0 =
  Done (mkTensor rest (if (0 <? d)%Z then data (fresh_tensor b (d :: rest)) else None)).
Proof.
  intros Hd. unfold SubSlice, fresh_tensor, data. cbn [shape buf_].
  replace (0 <=? 0)%Z with true by reflexivity.
  replace (0 <=? d)%Z with true by (symmetry; now apply Z.leb_le).
  cbn [andb]. f_equal. f_equal.
  destruct (0 <? d)%Z; [|reflexivity].
  destruct (0 <? num_elements (d :: rest))%Z; [|reflexivity].
  now rewrite Z.mul_0_r.
Qed.

Lemma forward_compute_ready training prob ctx m p Tn N C H handle p' :
  forward_ready alloc_ok training ctx p Tn N C H handle p' ->
  HasteGruOp_Compute zero FI alloc_ok training prob ctx (start m p) =
  (snd (fw_plan training prob ctx Tn N C H handle),
   after_calls FI BI (fw_loop_start zero training Tn N H m p')
               (fst (fw_plan training prob ctx Tn N C H handle))).
Proof.
  intros (Ht & Hn & Hc & Hh & Hk & Hs1 & Hs2 & Ha1 & Ha2 & Hs3 & Ha3 & Hs4 & Ha4 & Hg).
  unfold HasteGruOp_Compute, bind, lift, OP_REQUIRES, allocate_output, allocate_temp,
    cudaMemset_zero, GetCublasHandle, make_shape, start.
  cbv zeta. rewrite Ht, Hn, Hc, Hh, Hk. cbn [st_mem st_cuda st_outputs st_calls].
  rewrite Z.eqb_refl, Hs1, Hs2. rewrite Ha1. cbn [st_mem st_cuda st_outputs st_calls app].
  rewrite Ha2. cbn [st_mem st_cuda st_outputs st_calls app].
  rewrite Hs3, Ha3, Hs4, Ha4. cbn [st_mem st_cuda st_outputs st_calls app].
  rewrite Hg.
  rewrite (SubSlice_fresh_0 _ _ (add_dims_head _ _ _ Hs1)).
  rewrite forward_loop_eq. reflexivity.
Qed.

Lemma forward_compute_cases training prob ctx m p :
  (exists Tn N C H handle p',
      forward_ready alloc_ok training ctx p Tn N C H handle p') \/
  (st_calls (snd (HasteGruOp_Compute zero FI alloc_ok training prob ctx (start m p))) = [] /\
   fst (HasteGruOp_Compute zero FI alloc_ok training prob ctx (start m p)) <> Done tt).
Proof.
  unfold HasteGruOp_Compute, bind, lift, OP_REQUIRES, allocate_output, allocate_temp,
    cudaMemset_zero, GetCublasHandle, make_shape, start.
  cbv zeta. cbn [st_mem st_cuda st_outputs st_calls].
  destruct (dim_size (HasteGru.x ctx) 0) as [Tn| |] eqn:Ht; try (right; split; [reflexivity|discriminate]).
  destruct (dim_size (HasteGru.x ctx) 1) as [N| |] eqn:Hn; try (right; split; [reflexivity|discriminate]).
  destruct (dim_size (HasteGru.x ctx) 2) as [C| |] eqn:Hc; try (right; split; [reflexivity|discriminate]).
  destruct (dim_size (HasteGru.recurrent_kernel ctx) 0) as [H| |] eqn:Hh; try (right; split; [reflexivity|discriminate]).
  destruct (dim_size (HasteGru.kernel ctx) 0) as [C'| |] eqn:Hk; try (right; split; [reflexivity|discriminate]).
  destruct (C =? C')%Z eqn:Hcc; try (right; split; [reflexivity|discriminate]).
  apply Z.eqb_eq in Hcc; subst C'.
  destruct (add_dims 1 [Tn; N; H]) eqn:Hs1; try (right; split; [reflexivity|discriminate]).
  destruct (add_dims 1 [Tn; N; if training then mul64 H 4 else 0%Z]) eqn:Hs2;
    try (right; split; [reflexivity|discriminate]).
  destruct (alloc_ok (OutputBuf 0) [Tn; N; H]) eqn:Ha1; try (right; split; [reflexivity|discriminate]).
  cbn [st_mem st_cuda st_outputs st_calls app].
  destruct (alloc_ok (OutputBuf 1) [Tn; N; if training then mul64 H 4 else 0%Z]) eqn:Ha2;
    try (right; split; [reflexivity|discriminate]).
  destruct (add_dims 1 [Tn; N; mul64 H 3]) eqn:Hs3; try (right; split; [reflexivity|discriminate]).
  destruct (alloc_ok (TempBuf 0) [Tn; N; mul64 H 3]) eqn:Ha3; try (right; split; [reflexivity|discriminate]).
  destruct (add_dims 1 [N; mul64 H 3]) eqn:Hs4; try (right; split; [reflexivity|discriminate]).
  destruct (alloc_ok (TempBuf 1) [N; mul64 H 3]) eqn:Ha4; try (right; split; [reflexivity|discriminate]).
  cbn [st_mem st_cuda st_outputs st_calls app].
  destruct (Cuda.GetCublasHandle p) as [[handle|] p'] eqn:Hg; try (right; split; [reflexivity|discriminate]).
  left. exists Tn, N, C, H, handle, p'. unfold forward_ready. tauto.
Qed.

Lemma backward_compute_ready ctx m p Tn N C H handle p' :
  backward_ready alloc_ok ctx p Tn N C H handle p' ->
  HasteGruGradOp_Compute zero BI alloc_ok ctx (start m p) =
  (snd (bw_plan ctx Tn N C H handle),
   after_calls FI BI (bw_loop_start zero Tn N C H m p')
               (fst (bw_plan ctx Tn N C H handle))).
Proof.
  intros (Ht & Hc & Hn & Hh & Hs1 & Ha1 & Hs2 & Ha2 & Hs3 & Ha3 & Hs4 & Ha4 & Ha5
          & Hs6 & Ha6 & Hs7 & Ha7 & Ha8 & Ha9 & Hg).
  unfold HasteGruGradOp_Compute, bind, lift, allocate_output, allocate_temp,
    cudaMemset_zero, GetCublasHandle, make_shape, start.
  cbv zeta. rewrite Ht, Hc, Hn, Hh. cbn [st_mem st_cuda st_outputs st_calls].
  rewrite Hs1, Ha1. cbn [st_mem st_cuda st_outputs st_calls app].
  rewrite Hs2, Ha2. cbn [st_mem st_cuda st_outputs st_calls app].
  rewrite Hs3, Ha3. cbn [st_mem st_cuda st_outputs st_calls app].
  rewrite Hs4, Ha4. cbn [st_mem st_cuda st_outputs st_calls app].
  rewrite Ha5. cbn [st_mem st_cuda st_outputs st_calls app].
  rewrite Hs6, Ha6, Hs7, Ha7, Ha8, Ha9. cbn [st_mem st_cuda st_outputs st_calls app].
  rewrite Hg.
  rewrite backward_loop_eq. reflexivity.
Qed.

Lemma backward_compute_cases ctx m p :
  (exists Tn N C H handle p',
      backward_ready alloc_ok ctx p Tn N C H handle p') \/
  (st_calls (snd (HasteGruGradOp_Compute zero BI alloc_ok ctx (start m p))) = [] /\
   fst (HasteGruGradOp_Compute zero BI alloc_ok ctx (start m p)) <> Done tt).
Proof.
  unfold HasteGruGradOp_Compute, bind, lift, allocate_output, allocate_temp,
    cudaMemset_zero, GetCublasHandle, make_shape, start.
  cbv zeta. cbn [st_mem st_cuda st_outputs st_calls].
  destruct (dim_size (HasteGruGrad.x_t ctx) 0) as [Tn| |] eqn:Ht; try (right; split; [reflexivity|discriminate]).
  destruct (dim_size (HasteGruGrad.x_t ctx) 1) as [C| |] eqn:Hc; try (right; split; [reflexivity|discriminate]).
  destruct (dim_size (HasteGruGrad.x_t ctx) 2) as [N| |] eqn:Hn; try (right; split; [reflexivity|discriminate]).
  destruct (dim_size (HasteGruGrad.recurrent_kernel_t ctx) 1) as [H| |] eqn:Hh; try (right; split; [reflexivity|discriminate]).
  destruct (add_dims 1 [Tn; N; C]) eqn:Hs1; try (right; split; [reflexivity|discriminate]).
  destruct (alloc_ok (OutputBuf 0) [Tn; N; C]) eqn:Ha1; try (right; split; [reflexivity|discriminate]).
  cbn [st_mem st_cuda st_outputs st_calls app].
  destruct (add_dims 1 [C; mul64 H 3]) eqn:Hs2; try (right; split; [reflexivity|discriminate]).
  destruct (alloc_ok (OutputBuf 1) [C; mul64 H 3]) eqn:Ha2; try (right; split; [reflexivity|discriminate]).
  cbn [st_mem st_cuda st_outputs st_calls app].
  destruct (add_dims 1 [H; mul64 H 3]) eqn:Hs3; try (right; split; [reflexivity|discriminate]).
  destruct (alloc_ok (OutputBuf 2) [H; mul64 H 3]) eqn:Ha3; try (right; split; [reflexivity|discriminate]).
  cbn [st_mem st_cuda st_outputs st_calls app].
  destruct (add_dims 1 [mul64 H 3]) eqn:Hs4; try (right; split; [reflexivity|discriminate]).
  destruct (alloc_ok (OutputBuf 3) [mul64 H 3]) eqn:Ha4; try (right; split; [reflexivity|discriminate]).
  cbn [st_mem st_cuda st_outputs st_calls app].
  destruct (alloc_ok (OutputBuf 4) [mul64 H 3]) eqn:Ha5; try (right; split; [reflexivity|discriminate]).
  cbn [st_mem st_cuda st_outputs st_calls app].
  destruct (add_dims 1 [N; H]) eqn:Hs6; try (right; split; [reflexivity|discriminate]).
  destruct (alloc_ok (TempBuf 0) [N; H]) eqn:Ha6; try (right; split; [reflexivity|discriminate]).
  destruct (add_dims 1 [Tn; N; mul64 H 3]) eqn:Hs7; try (right; split; [reflexivity|discriminate]).
  destruct (alloc_ok (TempBuf 1) [Tn; N; mul64 H 3]) eqn:Ha7; try (right; split; [reflexivity|discriminate]).
  destruct (alloc_ok (TempBuf 2) [Tn; N; mul64 H 3]) eqn:Ha8; try (right; split; [reflexivity|discriminate]).
  destruct (alloc_ok (TempBuf 3) [N; H]) eqn:Ha9; try (right; split; [reflexivity|discriminate]).
  cbn [st_mem st_cuda st_outputs st_calls app].
  destruct (Cuda.GetCublasHandle p) as [[handle|] p'] eqn:Hg; try (right; split; [reflexivity|discriminate]).
  left. exists Tn, N, C, H, handle, p'. unfold backward_ready. tauto.
Qed.

(** C3, as the code has it. A forward call whose input feature size
    differs from the kernel's first dimension is rejected with
    [InvalidArgument] before anything else happens: no output is
    allocated, no memory is written, no handle is looked up and no
    [Iterate] call is made. *)
Theorem forward_rejects_feature_mismatch training prob ctx m p Tn N C C' H :
  dim_size (HasteGru.x ctx) 0 = Done Tn ->
  dim_size (HasteGru.x ctx) 1 = Done N ->
  dim_size (HasteGru.x ctx) 2 = Done C ->
  dim_size (HasteGru.recurrent_kernel ctx) 0 = Done H ->
  dim_size (HasteGru.kernel ctx) 0 = Done C' ->
  C <> C' ->
  HasteGruOp_Compute zero FI alloc_ok training prob ctx (start m p) =
  (Failed InvalidArgument, start m p).
Proof.
  intros Ht Hn Hc Hh Hk Hne.
  unfold HasteGruOp_Compute, bind, lift, OP_REQUIRES. cbv zeta.
  rewrite Ht, Hn, Hc, Hh, Hk.
  apply Z.eqb_neq in Hne. now rewrite Hne.
Qed.

(** Without zoneout the loop body does not look at the probability or
    at the mask. *)
Lemma forward_body_no_zoneout training prob prob' ctx ctx' fwd
      output v_out tmp_Wx tmp_Rh h i st :
  HasteGru.x ctx = HasteGru.x ctx' ->
  HasteGru.kernel ctx = HasteGru.kernel ctx' ->
  HasteGru.recurrent_kernel ctx = HasteGru.recurrent_kernel ctx' ->
  HasteGru.bias ctx = HasteGru.bias ctx' ->
  HasteGru.recurrent_bias ctx = HasteGru.recurrent_bias ctx' ->
  forward_body FI training prob ctx false fwd output v_out tmp_Wx tmp_Rh h i st =
  forward_body FI training prob' ctx' false fwd output v_out tmp_Wx tmp_Rh h i st.
Proof.
  intros E1 E2 E3 E4 E5. unfold forward_body. cbv zeta.
  now rewrite E1, E2, E3, E4, E5.
Qed.

Lemma forward_loop_no_zoneout training prob prob' ctx ctx' fwd
      output v_out tmp_Wx tmp_Rh idxs :
  HasteGru.x ctx = HasteGru.x ctx' ->
  HasteGru.kernel ctx = HasteGru.kernel ctx' ->
  HasteGru.recurrent_kernel ctx = HasteGru.recurrent_kernel ctx' ->
  HasteGru.bias ctx = HasteGru.bias ctx' ->
  HasteGru.recurrent_bias ctx = HasteGru.recurrent_bias ctx' ->
  forall h st,
  forward_loop FI training prob ctx false fwd output v_out tmp_Wx tmp_Rh idxs h st =
  forward_loop FI training prob' ctx' false fwd output v_out tmp_Wx tmp_Rh idxs h st.
Proof.
  intros E1 E2 E3 E4 E5.
  induction idxs as [|i rest IH]; intros h st; [reflexivity|].
  cbn [forward_loop]. unfold bind.
  rewrite (forward_body_no_zoneout training prob prob' ctx ctx') by assumption.
  destruct (forward_body FI training prob' ctx' false fwd output v_out tmp_Wx
              tmp_Rh h i st) as [[nh| |] st']; auto.
Qed.

(** The kernel depends on the probability and the mask only through
    [has_zoneout], once that is false. *)
Lemma forward_compute_no_zoneout training prob prob' ctx ctx' st :
  HasteGru.x ctx = HasteGru.x ctx' ->
  HasteGru.kernel ctx = HasteGru.kernel ctx' ->
  HasteGru.recurrent_kernel ctx = HasteGru.recurrent_kernel ctx' ->
  HasteGru.bias ctx = HasteGru.bias ctx' ->
  HasteGru.recurrent_bias ctx = HasteGru.recurrent_bias ctx' ->
  fw_has_zoneout prob (HasteGru.zoneout_mask ctx) = false ->
  fw_has_zoneout prob' (HasteGru.zoneout_mask ctx') = false ->
  HasteGruOp_Compute zero FI alloc_ok training prob ctx st =
  HasteGruOp_Compute zero FI alloc_ok training prob' ctx' st.
Proof.
  intros E1 E2 E3 E4 E5 Hz Hz'. unfold fw_has_zoneout in Hz, Hz'.
  unfold HasteGruOp_Compute. cbv zeta. rewrite Hz, Hz', <- E1, <- E2, <- E3.
  unfold bind, lift, OP_REQUIRES, allocate_output, allocate_temp,
    cudaMemset_zero, GetCublasHandle, make_shape.
  repeat match goal with
         | |- match ?e with _ => _ end = _ => destruct e; try reflexivity
         | |- (if ?e then _ else _) = _ => destruct e; try reflexivity
         | |- (let (_, _) := ?e in _) = _ => destruct e
         end.
  apply forward_loop_no_zoneout; assumption.
Qed.

Lemma In_trace (cs : list IterateCall) :
  forall (m : Mem T) c mc, In (c, mc) (trace FI BI cs m) -> In c cs.
Proof.
  induction cs as [|c0 cs IH]; intros m c mc H; [exact H|].
  cbn [trace] in H. destruct H as [E|H].
  - inversion E. now left.
  - right. eapply IH; exact H.
Qed.

Lemma trace_length (cs : list IterateCall) :
  forall m : Mem T, length (trace FI BI cs m) = length cs.
Proof.
  induction cs as [|c0 cs IH]; intros m; [reflexivity|].
  cbn [trace length]. now rewrite IH.
Qed.

Lemma map_fst_trace (cs : list IterateCall) :
  forall m : Mem T, map fst (trace FI BI cs m) = cs.
Proof.
  induction cs as [|c0 cs IH]; intros m; [reflexivity|].
  cbn [trace map fst]. now rewrite IH.
Qed.

(** What a successful turn of the forward loop passes to [Iterate]. *)
Lemma forward_args_inv training prob ctx hz output v_out tmp_Wx tmp_Rh h i a nh :
  forward_args training prob ctx hz output v_out tmp_Wx tmp_Rh h i = Done (a, nh) ->
  SubSlice output i = Done nh /\
  fa_x a = slice_ptr (HasteGru.x ctx) i /\
  fa_h a = data h /\
  fa_h_out a = data nh /\
  fa_v a = (if training then slice_ptr v_out i else nullptr) /\
  fa_zoneout_prob a = (if hz then prob else float_zero) /\
  fa_zoneout_mask a = (if hz then slice_ptr (HasteGru.zoneout_mask ctx) i else nullptr).
Proof.
  unfold forward_args, obind, slice_ptr.
  destruct (SubSlice (HasteGru.x ctx) i); try discriminate.
  destruct (SubSlice output i); try discriminate.
  destruct (SubSlice v_out i); try discriminate.
  destruct (SubSlice tmp_Wx i); try discriminate.
  destruct hz; [destruct (SubSlice (HasteGru.zoneout_mask ctx) i); try discriminate|].
  all: intros E; inversion E; subst; cbn; repeat split; reflexivity.
Qed.

Lemma forward_plan_In training prob ctx hz fwd output v_out tmp_Wx tmp_Rh idxs :
  forall h c,
  In c (fst (forward_plan training prob ctx hz fwd output v_out tmp_Wx tmp_Rh idxs h)) ->
  exists i h' a nh,
    In i idxs /\
    forward_args training prob ctx hz output v_out tmp_Wx tmp_Rh h' i = Done (a, nh) /\
    c = FwIterate fwd a.
Proof.
  induction idxs as [|i rest IH]; intros h c H; [now elim H|].
  cbn [forward_plan] in H.
  destruct (forward_args training prob ctx hz output v_out tmp_Wx tmp_Rh h i)
    as [[a nh]| |] eqn:Ea; try now elim H.
  destruct (forward_plan training prob ctx hz fwd output v_out tmp_Wx tmp_Rh rest nh)
    as [cs o] eqn:Ep.
  cbn [fst] in H. destruct H as [E|H].
  - exists i, h, a, nh. repeat split; auto. now left.
  - specialize (IH nh c). rewrite Ep in IH. destruct (IH H) as (j & h' & a' & nh' & Hj & Ha & Hc).
    exists j, h', a', nh'. repeat split; auto. now right.
Qed.

Lemma fw_has_zoneout_off prob mask :
  float_to_bool prob = false \/ NumElements mask = 0%Z ->
  fw_has_zoneout prob mask = false.
Proof.
  unfold fw_has_zoneout. intros [->| ->]; [reflexivity|].
  now rewrite andb_false_r.
Qed.

(** C4. With a zoneout probability of zero, or an empty mask, the forward
    kernel runs exactly as with both: same outcome, same outputs, same
    final memory (so [h] is the same bit for bit), the same record of
    calls; and every [Iterate] call gets the probability [0.0f] and a null
    mask. *)
Theorem zoneout_off_is_no_zoneout training prob ctx m p :
  float_to_bool prob = false \/ NumElements (HasteGru.zoneout_mask ctx) = 0%Z ->
  HasteGruOp_Compute zero FI alloc_ok training prob ctx (start m p) =
    HasteGruOp_Compute zero FI alloc_ok training float_zero (without_mask ctx)
                       (start m p) /\
  HasteGruOp_Compute zero FI alloc_ok training float_zero ctx (start m p) =
    HasteGruOp_Compute zero FI alloc_ok training prob (without_mask ctx)
                       (start m p) /\
  forall c mc,
    In (c, mc) (st_calls (snd (HasteGruOp_Compute zero FI alloc_ok training
                                 prob ctx (start m p)))) ->
    exists e a, c = FwIterate e a /\
                fa_zoneout_prob a = float_zero /\ fa_zoneout_mask a = nullptr.
Proof.
  intros Hoff. pose proof (fw_has_zoneout_off _ _ Hoff) as Hz.
  split; [|split].
  - apply forward_compute_no_zoneout; auto.
  - apply forward_compute_no_zoneout; auto.
    unfold fw_has_zoneout. cbn. now rewrite andb_false_r.
  - intros c mc Hin.
    destruct (forward_compute_cases training prob ctx m p)
      as [(Tn & N & C & H & handle & p' & Hr)|[Hnil _]].
    + rewrite (forward_compute_ready prob m Hr) in Hin.
      cbn [snd after_calls st_calls fw_loop_start app] in Hin.
      apply In_trace in Hin. unfold fw_plan in Hin. rewrite Hz in Hin.
      apply forward_plan_In in Hin as (i & h' & a & nh & _ & Ha & ->).
      apply forward_args_inv in Ha as (_ & _ & _ & _ & _ & Hp & Hm).
      exists (mkForwardPass training N C H handle), a. now repeat split.
    + rewrite Hnil in Hin. now elim Hin.
Qed.

Local Open Scope Z_scope.

Lemma wrap64_small z : - 2 ^ 63 <= z < 2 ^ 63 -> wrap64 z = z.
Proof.
  intros Hz. unfold wrap64. rewrite Z.mod_small; lia.
Qed.

Lemma mul64_small a b : 0 <= a * b <= int64_max -> mul64 a b = a * b.
Proof.
  unfold int64_max, mul64. intros H. apply wrap64_small. lia.
Qed.

Lemma add_dims_1 a :
  0 <= a <= int64_max -> add_dims 1 [a] = true.
Proof.
  intros H. cbn [add_dims]. rewrite andb_true_r.
  apply andb_true_intro; split; [apply Z.leb_le|apply Z.leb_le]; lia.
Qed.

Lemma add_dims_2 a b :
  0 <= a <= int64_max -> 0 <= b -> a * b <= int64_max ->
  add_dims 1 [a; b] = true.
Proof.
  intros Ha Hb Hab. cbn [add_dims]. rewrite andb_true_r.
  repeat (apply andb_true_intro; split); apply Z.leb_le; lia.
Qed.

Lemma add_dims_3 a b c :
  0 <= a <= int64_max -> 0 <= b -> a * b <= int64_max ->
  0 <= c -> a * b * c <= int64_max ->
  add_dims 1 [a; b; c] = true.
Proof.
  intros Ha Hb Hab Hc Habc. cbn [add_dims]. rewrite andb_true_r.
  repeat (apply andb_true_intro; split); apply Z.leb_le; lia.
Qed.

Lemma GetCublasHandle_wf p :
  Cuda.wf p -> exists h p', Cuda.GetCublasHandle p = (Some h, p').
Proof.
  intros [Hc Hh]. unfold Cuda.GetCublasHandle.
  destruct (Cuda.all_handles p) as [hs|] eqn:Ea.
  - rewrite Ea. unfold Cuda.cudaGetDevice.
    destruct (0 <=? Cuda.rt_current_device (Cuda.runtime p)) eqn:E;
      [|apply Z.leb_gt in E; lia].
    destruct (nth_error hs (Z.to_nat (Cuda.rt_current_device (Cuda.runtime p))))
      as [h|] eqn:En.
    + now exists h, p.
    + apply nth_error_None in En. lia.
  - rewrite ctor_spec by exact Hc. cbn zeta. cbn [Cuda.runtime Cuda.all_handles].
    unfold Cuda.cudaGetDevice. cbn [Cuda.rt_current_device].
    destruct (0 <=? Cuda.rt_current_device (Cuda.runtime p)) eqn:E;
      [|apply Z.leb_gt in E; lia].
    unfold Cuda.cublasHandle_t.
    match goal with
    | |- exists h p', (nth_error ?l ?k, _) = _ =>
        destruct (nth_error l k) as [h|] eqn:En;
          [eexists; eexists; reflexivity|]
    end.
    apply nth_error_None in En. rewrite length_seq in En. lia.
Qed.

Lemma SubSlice_inside t d rest i :
  shape t = d :: rest -> 0 <= i <= d ->
  exists s, SubSlice t i = Done s /\ shape s = rest.
Proof.
  intros Hs Hi. unfold SubSlice. rewrite Hs.
  replace (0 <=? i) with true by (symmetry; apply Z.leb_le; lia).
  replace (i <=? d) with true by (symmetry; apply Z.leb_le; lia).
  cbn [andb]. eexists. split; reflexivity.
Qed.

Lemma in_range n i : In i (range n) <-> 0 <= i < n.
Proof.
  unfold range. rewrite in_map_iff. split.
  - intros (k & <- & Hk). apply in_seq in Hk. lia.
  - intros Hi. exists (Z.to_nat i). split; [lia|]. apply in_seq. lia.
Qed.

Lemma forward_plan_done training prob ctx hz fwd output v_out tmp_Wx tmp_Rh idxs :
  (forall i h, In i idxs ->
     exists r, forward_args training prob ctx hz output v_out tmp_Wx tmp_Rh h i = Done r) ->
  forall h,
  snd (forward_plan training prob ctx hz fwd output v_out tmp_Wx tmp_Rh idxs h) = Done tt /\
  length (fst (forward_plan training prob ctx hz fwd output v_out tmp_Wx tmp_Rh idxs h)) =
    length idxs.
Proof.
  induction idxs as [|i rest IH]; intros Hok h; [now split|].
  cbn [forward_plan].
  destruct (Hok i h (or_introl eq_refl)) as [[a nh] Ea]. rewrite Ea.
  destruct (IH (fun j h' Hj => Hok j h' (or_intror Hj)) nh) as [I1 I2].
  destruct (forward_plan training prob ctx hz fwd output v_out tmp_Wx tmp_Rh rest nh)
    as [cs o]. cbn [fst snd length] in *. split; [exact I1|now rewrite I2].
Qed.

Lemma mask_slices hz prob mask Tn N H i :
  mask_shape_ok mask Tn N H -> 0 <= i < Tn ->
  fw_has_zoneout prob mask = hz \/ bw_has_zoneout mask = hz ->
  exists mp,
    (if hz then obind (SubSlice mask i) (fun m => Done (data m)) else Done nullptr)
    = Done mp.
Proof.
  intros Hm Hi Hz. destruct hz; [|now exists nullptr].
  destruct Hm as [Hs|[_ Hn]].
  - destruct (SubSlice_inside mask (i:=i) Hs) as (s & -> & _); [lia|].
    cbn. now eexists.
  - exfalso. unfold fw_has_zoneout, bw_has_zoneout in Hz. rewrite Hn in Hz.
    cbn in Hz. rewrite andb_false_r in Hz. destruct Hz; discriminate.
Qed.

Lemma legal_forward_ready training ctx p Tn N C H :
  legal_size Tn N C H ->
  forward_shapes ctx Tn N C H ->
  (forall b s, alloc_ok b s = true) ->
  Cuda.wf p ->
  exists handle p', forward_ready alloc_ok training ctx p Tn N C H handle p'.
Proof.
  intros L (Sx & Sk & Sr & _ & _ & _) Ha Hw.
  destruct (GetCublasHandle_wf Hw) as (handle & p' & Hg).
  exists handle, p'. unfold forward_ready, dim_size. rewrite Sx, Sk, Sr. cbn [nth_error].
  unfold legal_size in L.
  assert (E3 : mul64 H 3 = H * 3) by (apply mul64_small; lia).
  assert (E4 : mul64 H 4 = H * 4) by (apply mul64_small; lia).
  rewrite E3, E4, !Ha.
  repeat split; try reflexivity; try exact Hg.
  - apply add_dims_3; nia.
  - destruct training; apply add_dims_3; nia.
  - apply add_dims_3; nia.
  - apply add_dims_2; nia.
Qed.

Lemma legal_forward_plan training prob ctx Tn N C H handle :
  legal_size Tn N C H ->
  forward_shapes ctx Tn N C H ->
  snd (fw_plan training prob ctx Tn N C H handle) = Done tt /\
  length (fst (fw_plan training prob ctx Tn N C H handle)) = Z.to_nat Tn.
Proof.
  intros L (Sx & _ & _ & _ & _ & Sm). unfold fw_plan.
  rewrite <- (range_length Tn). apply forward_plan_done.
  intros i h Hi. apply in_range in Hi. unfold forward_args.
  destruct (SubSlice_inside (HasteGru.x ctx) (i:=i) Sx) as (s1 & -> & _); [lia|].
  destruct (SubSlice_inside (fw_output Tn N H) (i:=i) eq_refl) as (s2 & -> & _); [lia|].
  destruct (SubSlice_inside (fw_v_out training Tn N H) (i:=i) eq_refl) as (s3 & -> & _); [lia|].
  destruct (SubSlice_inside (fw_tmp_Wx Tn N H) (i:=i) eq_refl) as (s4 & -> & _); [lia|].
  cbn [obind].
  destruct (@mask_slices (fw_has_zoneout prob (HasteGru.zoneout_mask ctx)) prob
              _ _ _ _ i Sm Hi (or_introl eq_refl)) as (mp & ->).
  cbn [obind]. now eexists.
Qed.

Lemma legal_shape_fn ctx Tn N C H :
  legal_size Tn N C H ->
  forward_shapes ctx Tn N C H ->
  HasteGru_ShapeFn ctx = Done ([Tn; N; H], [Tn; N; 4 * H]).
Proof.
  intros L (Sx & Sk & Sr & Sb & Sbr & Sm). unfold HasteGru_ShapeFn, WithRank.
  rewrite Sx, Sk, Sr, Sb, Sbr. cbn [length Nat.eqb obind Dim nth].
  assert (Hm : length (shape (HasteGru.zoneout_mask ctx)) = 3%nat)
    by (destruct Sm as [-> |[Hl _]]; [reflexivity|exact Hl]).
  rewrite Hm. cbn [Nat.eqb obind]. unfold Multiply, legal_size in *.
  replace (H * 4 <=? int64_max) with true by (symmetry; apply Z.leb_le; lia).
  cbn [obind]. now rewrite (Z.mul_comm H 4).
Qed.

(** C2. On every legal problem size, with inputs of the registered
    shapes, the forward kernel ends normally with [h] of shape [T,N,H] as
    output 0 and [v] as output 1, of shape [T,N,4H] when training and
    [T,N,0] otherwise; it makes one [Iterate] call per time step, and when
    not training every one of them is given a null [v]. The shape of [h]
    is the one the registered shape function announces. *)
Theorem forward_output_shapes training prob ctx m p Tn N C H :
  legal_size Tn N C H ->
  forward_shapes ctx Tn N C H ->
  (forall b s, alloc_ok b s = true) ->
  Cuda.wf p ->
  let r := HasteGruOp_Compute zero FI alloc_ok training prob ctx (start m p) in
  fst r = Done tt /\
  map (fun o => (fst o, shape (snd o))) (st_outputs (snd r)) =
    [(0%nat, [Tn; N; H]);
     (1%nat, [Tn; N; if training then 4 * H else 0])] /\
  length (st_calls (snd r)) = Z.to_nat Tn /\
  (forall c mc, In (c, mc) (st_calls (snd r)) ->
     exists e a, c = FwIterate e a /\ fp_training e = training /\
                 (training = false -> fa_v a = nullptr)) /\
  (exists sv, HasteGru_ShapeFn ctx = Done ([Tn; N; H], sv)).
Proof.
  intros L S Ha Hw r.
  destruct (legal_forward_ready training L S Ha Hw) as (handle & p' & Hr).
  destruct (legal_forward_plan training prob handle L S) as [Hd Hl].
  subst r. rewrite (forward_compute_ready prob m Hr).
  cbn [fst snd after_calls st_calls st_outputs fw_loop_start app map].
  split; [exact Hd|]. split.
  - unfold fw_output, fw_v_out, fresh_tensor. cbn [shape fst snd].
    unfold legal_size in L.
    replace (mul64 H 4) with (4 * H) by (rewrite mul64_small; lia). reflexivity.
  - split; [now rewrite trace_length|]. split.
    + intros c mc Hin. apply In_trace in Hin. unfold fw_plan in Hin.
      apply forward_plan_In in Hin as (i & h' & a & nh & _ & Hargs & ->).
      apply forward_args_inv in Hargs as (_ & _ & _ & _ & Hv & _).
      eexists; eexists. split; [reflexivity|]. split; [reflexivity|].
      intros ->. exact Hv.
    + eexists. now apply legal_shape_fn with C.
Qed.

(** What a successful turn of the reverse loop passes to [Iterate]. *)
Lemma backward_args_inv ctx hz dx dW dR dbx dbr dh dp dq zv i a :
  backward_args ctx hz dx dW dR dbx dbr dh dp dq zv i = Done a ->
  ba_x_t a = slice_ptr (HasteGruGrad.x_t ctx) i /\
  ba_h a = (if negb (i =? 0)
            then slice_ptr (HasteGruGrad.h_t ctx) (sub64 i 1)
            else data zv) /\
  ba_v a = slice_ptr (HasteGruGrad.v ctx) i /\
  ba_dh_new a = slice_ptr (HasteGruGrad.dh_new ctx) i /\
  ba_dx a = slice_ptr dx i /\
  ba_dW a = data dW /\ ba_dR a = data dR /\
  ba_dbx a = data dbx /\ ba_dbr a = data dbr /\ ba_dh a = data dh /\
  ba_dp a = slice_ptr dp i /\ ba_dq a = slice_ptr dq i /\
  ba_zoneout_mask a =
    (if hz then slice_ptr (HasteGruGrad.zoneout_mask ctx) i else nullptr) /\
  (i <> 0 -> exists hs, SubSlice (HasteGruGrad.h_t ctx) (sub64 i 1) = Done hs).
Proof.
  unfold backward_args, obind, slice_ptr.
  destruct (SubSlice (HasteGruGrad.x_t ctx) i); try discriminate.
  destruct (i =? 0) eqn:Ei; cbn [negb];
    [|destruct (SubSlice (HasteGruGrad.h_t ctx) (sub64 i 1)); try discriminate].
  all: destruct (SubSlice (HasteGruGrad.v ctx) i); try discriminate.
  all: destruct (SubSlice (HasteGruGrad.dh_new ctx) i); try discriminate.
  all: destruct (SubSlice dx i); try discriminate.
  all: destruct (SubSlice dp i); try discriminate.
  all: destruct (SubSlice dq i); try discriminate.
  all: destruct hz;
    [destruct (SubSlice (HasteGruGrad.zoneout_mask ctx) i); try discriminate|].
  all: intros E; inversion E; subst; cbn; repeat split; try reflexivity.
  all: intros Hne; try (apply Z.eqb_eq in Ei; contradiction); now eexists.
Qed.

(** The calls of a plan are those of a prefix of the indices, in order;
    of all the indices when the loop ends normally. *)
Lemma backward_plan_prefix ctx hz bwd dx dW dR dbx dbr dh dp dq zv idxs :
  exists pre suf,
    idxs = pre ++ suf /\
    Forall2 (fun i c => exists a,
               backward_args ctx hz dx dW dR dbx dbr dh dp dq zv i = Done a /\
               c = BwIterate bwd a)
            pre (fst (backward_plan ctx hz bwd dx dW dR dbx dbr dh dp dq zv idxs)) /\
    (snd (backward_plan ctx hz bwd dx dW dR dbx dbr dh dp dq zv idxs) = Done tt ->
     suf = []).
Proof.
  induction idxs as [|i rest (pre & suf & E & F & D)].
  - exists [], []. cbn. repeat split; auto.
  - cbn [backward_plan].
    destruct (backward_args ctx hz dx dW dR dbx dbr dh dp dq zv i) as [a| |] eqn:Ea.
    + destruct (backward_plan ctx hz bwd dx dW dR dbx dbr dh dp dq zv rest) as [cs o].
      cbn [fst snd] in *. exists (i :: pre), suf. subst rest.
      split; [reflexivity|]. split; [|exact D].
      constructor; [|exact F]. now exists a.
    + exists [], (i :: rest). cbn. repeat split; auto. discriminate.
    + exists [], (i :: rest). cbn. repeat split; auto. discriminate.
Qed.

Lemma forward_plan_prefix training prob ctx hz fwd output v_out tmp_Wx tmp_Rh idxs :
  forall h,
  exists pre suf,
    idxs = pre ++ suf /\
    Forall2 (fun i c => exists h' a nh,
               forward_args training prob ctx hz output v_out tmp_Wx tmp_Rh h' i
                 = Done (a, nh) /\
               c = FwIterate fwd a)
            pre (fst (forward_plan training prob ctx hz fwd output v_out tmp_Wx
                        tmp_Rh idxs h)) /\
    (snd (forward_plan training prob ctx hz fwd output v_out tmp_Wx tmp_Rh idxs h)
       = Done tt -> suf = []).
Proof.
  induction idxs as [|i rest IH]; intros h.
  - exists [], []. cbn. repeat split; auto.
  - cbn [forward_plan].
    destruct (forward_args training prob ctx hz output v_out tmp_Wx tmp_Rh h i)
      as [[a nh]| |] eqn:Ea.
    + destruct (IH nh) as (pre & suf & E & F & D).
      destruct (forward_plan training prob ctx hz fwd output v_out tmp_Wx tmp_Rh rest nh)
        as [cs o].
      cbn [fst snd] in *. exists (i :: pre), suf. subst rest.
      split; [reflexivity|]. split; [|exact D].
      constructor; [|exact F]. now exists h, a, nh.
    + exists [], (i :: rest). cbn. repeat split; auto. discriminate.
    + exists [], (i :: rest). cbn. repeat split; auto. discriminate.
Qed.

Lemma Forall2_map_eq (X Y Z0 : Type) (R : X -> Y -> Prop)
      (f : Y -> Z0) (g : X -> Z0) l1 l2 :
  Forall2 R l1 l2 -> (forall i c, R i c -> f c = g i) -> map f l2 = map g l1.
Proof.
  intros F HR. induction F as [|i c l1 l2 Hic F IH]; [reflexivity|].
  cbn [map]. now rewrite IH, (HR i c Hic).
Qed.

Lemma Forall2_nth_error_r (X Y : Type) (R : X -> Y -> Prop) l1 l2 :
  Forall2 R l1 l2 ->
  forall k c, nth_error l2 k = Some c ->
  exists i, nth_error l1 k = Some i /\ R i c.
Proof.
  intros F. induction F as [|i c0 l1 l2 Hic F IH]; intros k c Hk.
  - destruct k; discriminate.
  - destruct k as [|k]; cbn in *.
    + inversion Hk; subst. now exists i.
    + now apply IH.
Qed.

Lemma nth_error_rev_range n k i :
  nth_error (rev (range n)) k = Some i -> i = n - 1 - Z.of_nat k /\ 0 <= i < n.
Proof.
  rewrite nth_error_rev, range_length. unfold range.
  destruct (Nat.ltb_spec k (Z.to_nat n)) as [Hk|]; [|discriminate].
  rewrite nth_error_map, nth_error_seq.
  destruct (Nat.ltb_spec (Z.to_nat n - S k) (Z.to_nat n)) as [Hk'|]; [|discriminate].
  cbn. intros E. inversion E. lia.
Qed.

Lemma nth_error_prefix (X : Type) (pre suf : list X) k x :
  nth_error pre k = Some x -> nth_error (pre ++ suf) k = Some x.
Proof.
  intros H. rewrite nth_error_app1; [exact H|].
  apply nth_error_Some. congruence.
Qed.

Lemma legal_backward_ready ctx p Tn N C H :
  legal_size Tn N C H ->
  backward_shapes ctx Tn N C H ->
  (forall b s, alloc_ok b s = true) ->
  Cuda.wf p ->
  exists handle p', backward_ready alloc_ok ctx p Tn N C H handle p'.
Proof.
  intros L (Sx & _ & Sr & _) Ha Hw.
  destruct (GetCublasHandle_wf Hw) as (handle & p' & Hg).
  exists handle, p'. unfold backward_ready, dim_size. rewrite Sx, Sr. cbn [nth_error].
  unfold legal_size in L.
  assert (E3 : mul64 H 3 = H * 3) by (apply mul64_small; lia).
  rewrite E3, !Ha.
  repeat split; try reflexivity; try exact Hg.
  - apply add_dims_3; nia.
  - apply add_dims_2; nia.
  - apply add_dims_2; nia.
  - apply add_dims_1; nia.
  - apply add_dims_2; nia.
  - apply add_dims_3; nia.
Qed.

Lemma backward_plan_done ctx hz bwd dx dW dR dbx dbr dh dp dq zv idxs :
  (forall i, In i idxs ->
     exists a, backward_args ctx hz dx dW dR dbx dbr dh dp dq zv i = Done a) ->
  snd (backward_plan ctx hz bwd dx dW dR dbx dbr dh dp dq zv idxs) = Done tt /\
  length (fst (backward_plan ctx hz bwd dx dW dR dbx dbr dh dp dq zv idxs)) =
    length idxs.
Proof.
  induction idxs as [|i rest IH]; intros Hok; [now split|].
  cbn [backward_plan].
  destruct (Hok i (or_introl eq_refl)) as [a Ea]. rewrite Ea.
  destruct (IH (fun j Hj => Hok j (or_intror Hj))) as [I1 I2].
  destruct (backward_plan ctx hz bwd dx dW dR dbx dbr dh dp dq zv rest) as [cs o].
  cbn [fst snd length] in *. split; [exact I1|now rewrite I2].
Qed.

Lemma legal_backward_plan ctx Tn N C H handle :
  legal_size Tn N C H ->
  backward_shapes ctx Tn N C H ->
  snd (bw_plan ctx Tn N C H handle) = Done tt /\
  length (fst (bw_plan ctx Tn N C H handle)) = Z.to_nat Tn.
Proof.
  intros L (Sx & _ & _ & _ & _ & Sh & Sv & Sd & Sm). unfold bw_plan.
  rewrite <- (range_length Tn), <- (length_rev (range Tn)).
  apply backward_plan_done.
  intros i Hi. apply in_rev, in_range in Hi. unfold backward_args.
  destruct (SubSlice_inside (HasteGruGrad.x_t ctx) (i:=i) Sx) as (s1 & -> & _); [lia|].
  cbn [obind].
  assert (Hh : exists h,
             (if negb (i =? 0)
              then SubSlice (HasteGruGrad.h_t ctx) (sub64 i 1)
              else Done (bw_zero_vector N H)) = Done h).
  { destruct (i =? 0) eqn:Ei; cbn [negb]; [now eexists|].
    apply Z.eqb_neq in Ei. unfold legal_size, int64_max in L.
    assert (E1 : sub64 i 1 = i - 1) by (apply wrap64_small; lia).
    rewrite E1.
    destruct (SubSlice_inside (HasteGruGrad.h_t ctx) (i:=i - 1) Sh) as (s & -> & _);
      [lia|now eexists]. }
  destruct Hh as (h & ->). cbn [obind].
  destruct (SubSlice_inside (HasteGruGrad.v ctx) (i:=i) Sv) as (s2 & -> & _); [lia|].
  destruct (SubSlice_inside (HasteGruGrad.dh_new ctx) (i:=i) Sd) as (s3 & -> & _); [lia|].
  destruct (SubSlice_inside (bw_dx Tn N C) (i:=i) eq_refl) as (s4 & -> & _); [lia|].
  destruct (SubSlice_inside (bw_dp Tn N H) (i:=i) eq_refl) as (s5 & -> & _); [lia|].
  destruct (SubSlice_inside (bw_dq Tn N H) (i:=i) eq_refl) as (s6 & -> & _); [lia|].
  cbn [obind].
  destruct (@mask_slices (bw_has_zoneout (HasteGruGrad.zoneout_mask ctx)) float_zero
              _ _ _ _ i Sm Hi (or_intror eq_refl)) as (mp & ->).
  cbn [obind]. now eexists.
Qed.

Lemma buffer_eqb_refl b : buffer_eqb b b = true.
Proof. destruct b; cbn; apply Nat.eqb_refl. Qed.

Lemma buffer_eqb_eq a b : buffer_eqb a b = true -> a = b.
Proof.
  destruct a, b; cbn; try discriminate; intros E; apply Nat.eqb_eq in E; now subst.
Qed.

Lemma zero_behind_memset_same t (m : Mem T) :
  zero_behind zero (memset_tensor zero t m) (data t).
Proof.
  unfold zero_behind, memset_tensor. destruct (data t) as [[b base]|]; [|exact I].
  intros j. unfold zero_buffer. now rewrite buffer_eqb_refl.
Qed.

Lemma zero_behind_memset_other t (m : Mem T) q :
  zero_behind zero m q -> zero_behind zero (memset_tensor zero t m) q.
Proof.
  unfold zero_behind, memset_tensor. destruct q as [[b base]|]; [|auto].
  intros Hz j. destruct (data t) as [[b' base']|]; [|apply Hz].
  unfold zero_buffer. destruct (buffer_eqb b' b); [reflexivity|apply Hz].
Qed.

(** After the six [cudaMemset] calls the four accumulators, the carried
    [dh] and the zero vector are zero. *)
Lemma bw_memsets_zero N C H (m : Mem T) :
  zero_behind zero (bw_memsets zero N C H m) (data (bw_dW C H)) /\
  zero_behind zero (bw_memsets zero N C H m) (data (bw_dR H)) /\
  zero_behind zero (bw_memsets zero N C H m) (data (bw_dbx H)) /\
  zero_behind zero (bw_memsets zero N C H m) (data (bw_dbr H)) /\
  zero_behind zero (bw_memsets zero N C H m) (data (bw_dh N H)) /\
  zero_behind zero (bw_memsets zero N C H m) (data (bw_zero_vector N H)).
Proof.
  unfold bw_memsets.
  repeat split;
    repeat first [apply zero_behind_memset_same | apply zero_behind_memset_other].
Qed.

Lemma length_zero_nil (X : Type) (l : list X) : length l = 0%nat -> l = [].
Proof. now destruct l. Qed.

(** C8. A sequence without time steps is served: the forward kernel ends
    normally with empty [h] and [v] and makes no [Iterate] call; the
    gradient kernel ends normally with an empty [dx], with [dW], [dR],
    [dbx], [dbr] of their full shapes and all zero, and makes no
    [Iterate] call. *)
Theorem zero_length_sequence training prob fctx bctx m p N C H :
  legal_size 0 N C H ->
  forward_shapes fctx 0 N C H ->
  backward_shapes bctx 0 N C H ->
  (forall b s, alloc_ok b s = true) ->
  Cuda.wf p ->
  let f := HasteGruOp_Compute zero FI alloc_ok training prob fctx (start m p) in
  let g := HasteGruGradOp_Compute zero BI alloc_ok bctx (start m p) in
  (fst f = Done tt /\ st_calls (snd f) = [] /\
   exists h v,
     st_outputs (snd f) = [(0%nat, h); (1%nat, v)] /\
     shape h = [0; N; H] /\ NumElements h = 0 /\
     shape v = [0; N; if training then 4 * H else 0] /\ NumElements v = 0) /\
  (fst g = Done tt /\ st_calls (snd g) = [] /\
   exists dx dW dR dbx dbr,
     st_outputs (snd g) =
       [(0%nat, dx); (1%nat, dW); (2%nat, dR); (3%nat, dbx); (4%nat, dbr)] /\
     shape dx = [0; N; C] /\ NumElements dx = 0 /\
     shape dW = [C; 3 * H] /\ shape dR = [H; 3 * H] /\
     shape dbx = [3 * H] /\ shape dbr = [3 * H] /\
     zero_behind zero (st_mem (snd g)) (data dW) /\
     zero_behind zero (st_mem (snd g)) (data dR) /\
     zero_behind zero (st_mem (snd g)) (data dbx) /\
     zero_behind zero (st_mem (snd g)) (data dbr)).
Proof.
  intros L Sf Sb Ha Hw f g.
  assert (E3 : mul64 H 3 = 3 * H)
    by (unfold legal_size in L; rewrite mul64_small; lia).
  assert (E4 : mul64 H 4 = 4 * H)
    by (unfold legal_size in L; rewrite mul64_small; lia).
  split.
  - destruct (legal_forward_ready training L Sf Ha Hw) as (handle & p' & Hr).
    destruct (legal_forward_plan training prob handle L Sf) as [Hd Hl].
    apply length_zero_nil in Hl.
    subst f. rewrite (forward_compute_ready prob m Hr), Hl.
    cbn [fst snd after_calls st_calls st_outputs fw_loop_start app trace].
    split; [exact Hd|]. split; [reflexivity|].
    exists (fw_output 0 N H), (fw_v_out training 0 N H).
    unfold fw_output, fw_v_out, fresh_tensor, NumElements. cbn [shape num_elements].
    rewrite E4. repeat split; reflexivity.
  - destruct (legal_backward_ready L Sb Ha Hw) as (handle & p' & Hr).
    destruct (legal_backward_plan handle L Sb) as [Hd Hl].
    apply length_zero_nil in Hl.
    subst g. rewrite (backward_compute_ready m Hr), Hl.
    cbn [fst snd after_calls st_calls st_outputs st_mem bw_loop_start app trace
         final_mem fold_left].
    split; [exact Hd|]. split; [reflexivity|].
    exists (bw_dx 0 N C), (bw_dW C H), (bw_dR H), (bw_dbx H), (bw_dbr H).
    destruct (bw_memsets_zero N C H m) as (Z1 & Z2 & Z3 & Z4 & _).
    split; [reflexivity|].
    unfold bw_dx, bw_dW, bw_dR, bw_dbx, bw_dbr, fresh_tensor, NumElements in *.
    cbn [shape num_elements] in *. rewrite E3 in *.
    repeat split; auto.
Qed.

Lemma nth_error_trace (cs : list IterateCall) :
  forall (m : Mem T) k c mc,
  nth_error (trace FI BI cs m) k = Some (c, mc) ->
  nth_error cs k = Some c /\ mc = final_mem FI BI (firstn k cs) m.
Proof.
  induction cs as [|c0 cs IH]; intros m k c mc H.
  - destruct k; discriminate.
  - destruct k as [|k]; cbn in H.
    + inversion H; subst. now split.
    + apply IH in H as [H1 H2]. now split.
Qed.

Lemma final_mem_cons c (cs : list IterateCall) (m : Mem T) :
  final_mem FI BI (c :: cs) m = final_mem FI BI cs (run_iterate FI BI c m).
Proof. reflexivity. Qed.

Lemma final_mem_frame (b : buffer) (cs : list IterateCall) :
  bw_frame BI ->
  (forall c, In c cs -> exists e a,
      c = BwIterate e a /\ existsb (points_into b) (bw_writable a) = false) ->
  forall (m : Mem T) j, final_mem FI BI cs m b j = m b j.
Proof.
  intros Hf. induction cs as [|c cs IH]; intros Hc m j; [reflexivity|].
  rewrite final_mem_cons.
  rewrite IH by (intros c' Hin; apply Hc; now right).
  destruct (Hc c (or_introl eq_refl)) as (e & a & -> & Hw).
  cbn [run_iterate]. now apply Hf.
Qed.

Lemma zero_behind_reads m q n :
  zero_behind zero m q -> (q = None -> n <= 0) -> reads_zero zero m q n.
Proof.
  unfold zero_behind, reads_zero. destruct q as [[b base]|]; [|auto].
  intros Hz _ j _. apply Hz.
Qed.

Lemma fresh_tensor_null b s :
  data (fresh_tensor b s) = None -> num_elements s <= 0.
Proof.
  unfold fresh_tensor, data. cbn [buf_].
  destruct (0 <? num_elements s) eqn:E; [discriminate|].
  intros _. now apply Z.ltb_ge.
Qed.

Lemma fresh_tensor_into b b' s :
  b <> b' -> points_into b (data (fresh_tensor b' s)) = false.
Proof.
  intros Hne. unfold fresh_tensor, data, points_into. cbn [buf_].
  destruct (0 <? num_elements s); [|reflexivity].
  destruct (buffer_eqb b b') eqn:E; [|reflexivity].
  apply buffer_eqb_eq in E. contradiction.
Qed.

Lemma slice_ptr_into b b' s i :
  b <> b' -> points_into b (slice_ptr (fresh_tensor b' s) i) = false.
Proof.
  intros Hne. unfold slice_ptr, SubSlice, fresh_tensor, data, points_into.
  cbn [shape buf_]. destruct s as [|d rest]; [reflexivity|].
  destruct ((0 <=? i) && (i <=? d)); [|reflexivity]. cbn [buf_].
  destruct (0 <? d); [|reflexivity].
  destruct (0 <? num_elements (d :: rest)); [|reflexivity].
  destruct (buffer_eqb b b') eqn:E; [|reflexivity].
  apply buffer_eqb_eq in E. contradiction.
Qed.

Lemma range_head n i rest : range n = i :: rest -> i = 0 /\ 1 <= n.
Proof.
  unfold range. destruct (Z.to_nat n) as [|k] eqn:E; [discriminate|].
  cbn. intros H. inversion H. split; [reflexivity|lia].
Qed.

(** No call of the reverse loop is handed the zero vector through a
    pointer it may write through. *)
Lemma bw_plan_spares_zero_vector ctx Tn N C H handle c :
  In c (fst (bw_plan ctx Tn N C H handle)) ->
  exists e a, c = BwIterate e a /\
              existsb (points_into (TempBuf 3)) (bw_writable a) = false.
Proof.
  unfold bw_plan. intros Hin.
  destruct (backward_plan_prefix ctx (bw_has_zoneout (HasteGruGrad.zoneout_mask ctx))
              (mkBackwardPass N C H handle) (bw_dx Tn N C) (bw_dW C H) (bw_dR H)
              (bw_dbx H) (bw_dbr H) (bw_dh N H) (bw_dp Tn N H) (bw_dq Tn N H)
              (bw_zero_vector N H) (rev (range Tn))) as (pre & suf & _ & F & _).
  apply In_nth_error in Hin as [k Hk].
  destruct (Forall2_nth_error_r F _ Hk) as (i & _ & a & Ha & ->).
  exists (mkBackwardPass N C H handle), a. split; [reflexivity|].
  apply backward_args_inv in Ha
    as (_ & _ & _ & _ & Hdx & HdW & HdR & Hdbx & Hdbr & Hdh & Hdp & Hdq & _).
  unfold bw_writable. rewrite Hdx, HdW, HdR, Hdbx, Hdbr, Hdh, Hdp, Hdq.
  unfold bw_dx, bw_dW, bw_dR, bw_dbx, bw_dbr, bw_dh, bw_dp, bw_dq.
  cbn [existsb].
  rewrite !slice_ptr_into, !fresh_tensor_into by discriminate. reflexivity.
Qed.

Lemma In_firstn_In (X : Type) k (l : list X) x : In x (firstn k l) -> In x l.
Proof.
  intros H. rewrite <- (firstn_skipn k l). apply in_or_app. now left.
Qed.

Lemma forward_first_call training prob ctx m p :
  match st_calls (snd (HasteGruOp_Compute zero FI alloc_ok training prob ctx
                         (start m p))) with
  | [] => True
  | (c, mc) :: _ =>
      exists e a, c = FwIterate e a /\
        reads_zero zero mc (fa_h a) (fp_batch_size e * fp_hidden_size e)
  end.
Proof.
  destruct (forward_compute_cases training prob ctx m p)
    as [(Tn & N & C & H & handle & p' & Hr)|[Hnil _]]; [|now rewrite Hnil].
  rewrite (forward_compute_ready prob m Hr).
  cbn [snd after_calls st_calls st_mem fw_loop_start app].
  unfold fw_plan.
  destruct (range Tn) as [|i rest] eqn:Er; [exact I|].
  apply range_head in Er as [-> HT].
  cbn [forward_plan].
  match goal with
  | |- context [forward_args ?a1 ?a2 ?a3 ?a4 ?a5 ?a6 ?a7 ?a8 ?a9 ?a10] =>
      destruct (forward_args a1 a2 a3 a4 a5 a6 a7 a8 a9 a10) as [[a nh]| |] eqn:Ea;
        try exact I
  end.
  match goal with
  | |- context [forward_plan ?a1 ?a2 ?a3 ?a4 ?a5 ?a6 ?a7 ?a8 ?a9 ?a10 ?a11] =>
      destruct (forward_plan a1 a2 a3 a4 a5 a6 a7 a8 a9 a10 a11) as [cs o]
  end.
  cbn [fst trace]. exists (mkForwardPass training N C H handle), a.
  split; [reflexivity|]. cbn [fp_batch_size fp_hidden_size].
  apply forward_args_inv in Ea as (_ & _ & Hh & _). rewrite Hh. cbn [data buf_].
  replace (0 <? Tn) with true by (symmetry; apply Z.ltb_lt; lia).
  apply zero_behind_reads; [apply zero_behind_memset_same|].
  intros Hnull. apply fresh_tensor_null in Hnull. cbn [num_elements] in Hnull.
  destruct Hr as (_ & _ & _ & _ & _ & Hs & _).
  cbn [add_dims] in Hs. rewrite !andb_true_iff, !Z.leb_le in Hs. nia.
Qed.

Lemma backward_calls_hidden ctx m p Tn k c mc :
  bw_frame BI ->
  dim_size (HasteGruGrad.x_t ctx) 0 = Done Tn ->
  nth_error (st_calls (snd (HasteGruGradOp_Compute zero BI alloc_ok ctx
                              (start m p)))) k = Some (c, mc) ->
  exists e a, c = BwIterate e a /\
    0 <= Tn - 1 - Z.of_nat k < Tn /\
    (Tn - 1 - Z.of_nat k = 0 ->
       reads_zero zero mc (ba_h a) (bp_batch_size e * bp_hidden_size e)) /\
    (Tn - 1 - Z.of_nat k <> 0 ->
       ba_h a = slice_ptr (HasteGruGrad.h_t ctx) (Tn - 1 - Z.of_nat k - 1) /\
       exists hs, SubSlice (HasteGruGrad.h_t ctx) (Tn - 1 - Z.of_nat k - 1) = Done hs).
Proof.
  intros Hf HT Hk.
  destruct (backward_compute_cases ctx m p)
    as [(Tn' & N & C & H & handle & p' & Hr)|[Hnil _]];
    [|rewrite Hnil in Hk; destruct k; discriminate].
  rewrite (backward_compute_ready m Hr) in Hk.
  cbn [snd after_calls st_calls st_mem bw_loop_start app] in Hk.
  apply nth_error_trace in Hk as [Hk ->].
  assert (Tn' = Tn) by (destruct Hr as (E & _); congruence). subst Tn'.
  pose proof (fun c' Hin => bw_plan_spares_zero_vector ctx Tn N C H handle c'
                              (In_firstn_In k _ c' Hin)) as Hspare.
  unfold bw_plan in Hk.
  destruct (backward_plan_prefix ctx (bw_has_zoneout (HasteGruGrad.zoneout_mask ctx))
              (mkBackwardPass N C H handle) (bw_dx Tn N C) (bw_dW C H) (bw_dR H)
              (bw_dbx H) (bw_dbr H) (bw_dh N H) (bw_dp Tn N H) (bw_dq Tn N H)
              (bw_zero_vector N H) (rev (range Tn))) as (pre & suf & Epre & F & _).
  destruct (Forall2_nth_error_r F _ Hk) as (i & Hi & a & Ha & ->).
  apply (nth_error_prefix pre suf) in Hi. rewrite <- Epre in Hi.
  apply nth_error_rev_range in Hi as [Ei Hrange]. rewrite <- Ei.
  exists (mkBackwardPass N C H handle), a. split; [reflexivity|]. split; [exact Hrange|].
  apply backward_args_inv in Ha as (_ & Hh & _ & _ & _ & _ & _ & _ & _ & _ & _ & _ & _ & Hs).
  cbn [bp_batch_size bp_hidden_size]. split.
  - intros E0. rewrite Hh, E0. cbn [Z.eqb negb].
    apply zero_behind_reads.
    + unfold zero_behind. destruct (data (bw_zero_vector N H)) as [[b base]|] eqn:Ed; [|exact I].
      intros j.
      destruct (bw_memsets_zero N C H m) as (_ & _ & _ & _ & _ & Z6).
      rewrite Ed in Z6. cbn in Z6.
      unfold bw_zero_vector, fresh_tensor, data in Ed. cbn [buf_] in Ed.
      destruct (0 <? num_elements [N; H]); [|discriminate].
      inversion Ed; subst.
      rewrite (final_mem_frame (TempBuf 3)) by assumption. apply Z6.
    + intros Hnull. apply fresh_tensor_null in Hnull. cbn [num_elements] in Hnull. lia.
  - intros Hne.
    assert (E1 : sub64 i 1 = i - 1).
    { apply wrap64_small. destruct Hr as (_ & _ & _ & _ & Hsh & _).
      apply add_dims_head in Hsh as Hnn.
      cbn [add_dims] in Hsh. rewrite !andb_true_iff, !Z.leb_le in Hsh.
      unfold int64_max in Hsh. lia. }
    rewrite <- E1. split.
    + rewrite Hh. replace (i =? 0) with false by (symmetry; now apply Z.eqb_neq).
      reflexivity.
    + now apply Hs.
Qed.

(** The first call of a forward call over at least one time step. *)
Lemma legal_forward_first_call training prob ctx m p Tn N C H :
  legal_size Tn N C H ->
  forward_shapes ctx Tn N C H ->
  (forall b s, alloc_ok b s = true) ->
  Cuda.wf p ->
  0 < Tn ->
  fst (HasteGruOp_Compute zero FI alloc_ok training prob ctx (start m p)) = Done tt /\
  length (st_calls (snd (HasteGruOp_Compute zero FI alloc_ok training prob ctx
                           (start m p)))) = Z.to_nat Tn /\
  exists e a mc rest,
    st_calls (snd (HasteGruOp_Compute zero FI alloc_ok training prob ctx
                     (start m p))) = (FwIterate e a, mc) :: rest /\
    fp_batch_size e = N /\ fp_hidden_size e = H /\
    reads_zero zero mc (fa_h a) (N * H).
Proof.
  intros L S Ha Hw HT.
  pose proof (forward_first_call training prob ctx m p) as Hfirst.
  destruct (legal_forward_ready training L S Ha Hw) as (handle & p' & Hr).
  destruct (legal_forward_plan training prob handle L S) as [Hd Hl].
  rewrite (forward_compute_ready prob m Hr) in Hfirst |- *.
  cbn [fst snd after_calls st_calls fw_loop_start app] in Hfirst |- *.
  split; [exact Hd|]. split; [now rewrite trace_length|].
  destruct (fst (fw_plan training prob ctx Tn N C H handle)) as [|c cs] eqn:Ep;
    [cbn [length] in Hl; lia|].
  cbn [trace] in Hfirst |- *.
  destruct Hfirst as (e & a & -> & Hz).
  assert (Hin : In (FwIterate e a) (fst (fw_plan training prob ctx Tn N C H handle)))
    by (rewrite Ep; now left).
  unfold fw_plan in Hin.
  apply forward_plan_In in Hin as (i & h' & a' & nh & _ & _ & Ec).
  injection Ec as Ee Ea. subst e a'.
  do 4 eexists. split; [reflexivity|].
  cbn [fp_batch_size fp_hidden_size] in Hz |- *. now repeat split.
Qed.

(** The last call of a gradient call over at least one time step: the
    call for time step 0. *)
Lemma legal_backward_last_call ctx m p Tn N C H :
  bw_frame BI ->
  legal_size Tn N C H ->
  backward_shapes ctx Tn N C H ->
  (forall b s, alloc_ok b s = true) ->
  Cuda.wf p ->
  0 < Tn ->
  fst (HasteGruGradOp_Compute zero BI alloc_ok ctx (start m p)) = Done tt /\
  exists e a mc,
    nth_error (st_calls (snd (HasteGruGradOp_Compute zero BI alloc_ok ctx
                                (start m p)))) (Z.to_nat Tn - 1)
      = Some (BwIterate e a, mc) /\
    bp_batch_size e = N /\ bp_hidden_size e = H /\
    reads_zero zero mc (ba_h a) (N * H).
Proof.
  intros Hf L S Ha Hw HT.
  destruct (legal_backward_ready L S Ha Hw) as (handle & p' & Hr).
  destruct (legal_backward_plan handle L S) as [Hd Hl].
  assert (HTn : dim_size (HasteGruGrad.x_t ctx) 0 = Done Tn) by apply Hr.
  assert (Hlen : length (st_calls (snd (HasteGruGradOp_Compute zero BI alloc_ok ctx
                                         (start m p)))) = Z.to_nat Tn).
  { rewrite (backward_compute_ready m Hr).
    cbn [snd after_calls st_calls bw_loop_start app]. now rewrite trace_length. }
  split; [rewrite (backward_compute_ready m Hr); exact Hd|].
  destruct (nth_error (st_calls (snd (HasteGruGradOp_Compute zero BI alloc_ok ctx
                                        (start m p)))) (Z.to_nat Tn - 1))
    as [[c mc]|] eqn:E.
  2:{ apply nth_error_None in E. lia. }
  destruct (@backward_calls_hidden ctx m p Tn _ c mc Hf HTn E)
    as (e & a & -> & _ & Hz & _).
  rewrite (backward_compute_ready m Hr) in E.
  cbn [snd after_calls st_calls bw_loop_start app] in E.
  apply nth_error_trace in E as [E _].
  unfold bw_plan in E.
  destruct (backward_plan_prefix ctx (bw_has_zoneout (HasteGruGrad.zoneout_mask ctx))
              (mkBackwardPass N C H handle) (bw_dx Tn N C) (bw_dW C H) (bw_dR H)
              (bw_dbx H) (bw_dbr H) (bw_dh N H) (bw_dp Tn N H) (bw_dq Tn N H)
              (bw_zero_vector N H) (rev (range Tn))) as (pre & suf & _ & F & _).
  destruct (Forall2_nth_error_r F _ E) as (i & _ & a' & _ & Ec).
  injection Ec as Ee Ea. subst e a'.
  exists (mkBackwardPass N C H handle), a, mc. split; [reflexivity|].
  cbn [bp_batch_size bp_hidden_size] in Hz |- *.
  split; [reflexivity|]. split; [reflexivity|]. apply Hz. lia.
Qed.

(** C6. The recurrence starts from the zero vector in both passes. In
    every forward call the first [Iterate] call reads zeros as its
    previous hidden state, and on a legal problem with at least one time
    step the call ends normally, makes one [Iterate] call per time step,
    and its first call, on an engine of the batch and hidden size of the
    problem, reads [N * H] zeros. In every gradient call, with an engine
    that writes only what it is handed for writing, the call for time step
    0 reads zeros as [h[t-1]] and the call for a time step [t > 0] is
    handed slice [t-1] of the recorded [h]; on a legal problem the
    gradient call makes one [Iterate] call per time step, from the last
    step down to step 0, and with at least one time step its last call,
    the one for step 0, reads [N * H] zeros. *)
Theorem initial_hidden_state_is_zero :
  (forall training prob ctx m p,
     match st_calls (snd (HasteGruOp_Compute zero FI alloc_ok training prob ctx
                            (start m p))) with
     | [] => True
     | (c, mc) :: _ =>
         exists e a, c = FwIterate e a /\
           reads_zero zero mc (fa_h a) (fp_batch_size e * fp_hidden_size e)
     end) /\
  (forall ctx m p Tn k c mc,
     bw_frame BI ->
     dim_size (HasteGruGrad.x_t ctx) 0 = Done Tn ->
     nth_error (st_calls (snd (HasteGruGradOp_Compute zero BI alloc_ok ctx
                                 (start m p)))) k = Some (c, mc) ->
     exists e a, c = BwIterate e a /\
       0 <= Tn - 1 - Z.of_nat k < Tn /\
       (Tn - 1 - Z.of_nat k = 0 ->
          reads_zero zero mc (ba_h a) (bp_batch_size e * bp_hidden_size e)) /\
       (Tn - 1 - Z.of_nat k <> 0 ->
          ba_h a = slice_ptr (HasteGruGrad.h_t ctx) (Tn - 1 - Z.of_nat k - 1) /\
          exists hs,
            SubSlice (HasteGruGrad.h_t ctx) (Tn - 1 - Z.of_nat k - 1) = Done hs)) /\
  (forall ctx m p Tn N C H,
     legal_size Tn N C H ->
     backward_shapes ctx Tn N C H ->
     (forall b s, alloc_ok b s = true) ->
     Cuda.wf p ->
     fst (HasteGruGradOp_Compute zero BI alloc_ok ctx (start m p)) = Done tt /\
     length (st_calls (snd (HasteGruGradOp_Compute zero BI alloc_ok ctx
                              (start m p)))) = Z.to_nat Tn) /\
  (forall training prob ctx m p Tn N C H,
     legal_size Tn N C H ->
     forward_shapes ctx Tn N C H ->
     (forall b s, alloc_ok b s = true) ->
     Cuda.wf p ->
     0 < Tn ->
     fst (HasteGruOp_Compute zero FI alloc_ok training prob ctx (start m p))
       = Done tt /\
     length (st_calls (snd (HasteGruOp_Compute zero FI alloc_ok training prob ctx
                              (start m p)))) = Z.to_nat Tn /\
     exists e a mc rest,
       st_calls (snd (HasteGruOp_Compute zero FI alloc_ok training prob ctx
                        (start m p))) = (FwIterate e a, mc) :: rest /\
       fp_batch_size e = N /\ fp_hidden_size e = H /\
       reads_zero zero mc (fa_h a) (N * H)) /\
  (forall ctx m p Tn N C H,
     bw_frame BI ->
     legal_size Tn N C H ->
     backward_shapes ctx Tn N C H ->
     (forall b s, alloc_ok b s = true) ->
     Cuda.wf p ->
     0 < Tn ->
     fst (HasteGruGradOp_Compute zero BI alloc_ok ctx (start m p)) = Done tt /\
     exists e a mc,
       nth_error (st_calls (snd (HasteGruGradOp_Compute zero BI alloc_ok ctx
                                   (start m p)))) (Z.to_nat Tn - 1)
         = Some (BwIterate e a, mc) /\
       bp_batch_size e = N /\ bp_hidden_size e = H /\
       reads_zero zero mc (ba_h a) (N * H)).
Proof.
  split; [exact forward_first_call|]. split; [exact backward_calls_hidden|].
  split; [|split; [exact legal_forward_first_call|exact legal_backward_last_call]].
  intros ctx m p Tn N C H L S Ha Hw.
  destruct (legal_backward_ready L S Ha Hw) as (handle & p' & Hr).
  destruct (legal_backward_plan handle L S) as [Hd Hl].
  rewrite (backward_compute_ready m Hr).
  cbn [fst snd after_calls st_calls bw_loop_start app].
  split; [exact Hd|now rewrite trace_length].
Qed.

Lemma slice_ptr_fresh b d rest i :
  0 <= i <= d ->
  slice_ptr (fresh_tensor b (d :: rest)) i =
  if (0 <? d) && (0 <? d * num_elements rest)
  then Some (b, num_elements rest * i) else None.
Proof.
  intros Hi. unfold slice_ptr, SubSlice, fresh_tensor, data, NumElements.
  cbn [shape buf_ num_elements].
  replace (0 <=? i) with true by (symmetry; apply Z.leb_le; lia).
  replace (i <=? d) with true by (symmetry; apply Z.leb_le; lia).
  cbn [andb buf_].
  destruct (0 <? d) eqn:Ed; [|reflexivity].
  destruct (0 <? d * num_elements rest); [|reflexivity].
  cbn [andb]. apply Z.ltb_lt in Ed.
  rewrite (Z.mul_comm d), Z.div_mul by lia. reflexivity.
Qed.

Lemma memset_tensor_other t (m : Mem T) b j :
  points_into b (data t) = false -> memset_tensor zero t m b j = m b j.
Proof.
  unfold memset_tensor, points_into, zero_buffer.
  destruct (data t) as [[b' base]|]; [|reflexivity].
  intros E. destruct (buffer_eqb b' b) eqn:E'; [|reflexivity].
  apply buffer_eqb_eq in E'. subst. now rewrite buffer_eqb_refl in E.
Qed.

(** The six [cudaMemset] calls leave [dx] as it was allocated. *)
Lemma bw_memsets_spare_dx N C H (m : Mem T) j :
  bw_memsets zero N C H m (OutputBuf 0) j = m (OutputBuf 0) j.
Proof.
  unfold bw_memsets, bw_zero_vector, bw_dh, bw_dbr, bw_dbx, bw_dR, bw_dW.
  rewrite !memset_tensor_other by (apply fresh_tensor_into; discriminate).
  reflexivity.
Qed.

(** An accumulating engine, run over calls that all accumulate into
    [b], leaves in each element the running total of the contributions. *)
Lemma final_mem_accumulates add delta b j (cs : list IterateCall) :
  bw_accumulates BI add delta ->
  (forall c, In c cs -> exists e a,
      c = BwIterate e a /\ existsb (points_into b) (bw_accumulators a) = true) ->
  forall m : Mem T,
  final_mem FI BI cs m b j =
  fold_left
    (fun acc e =>
       match fst e with
       | BwIterate engine args => add acc (delta engine args (snd e) b j)
       | FwIterate _ _ => acc
       end)
    (trace FI BI cs m) (m b j).
Proof.
  intros [_ Hacc]. induction cs as [|c cs IH]; intros Hc m; [reflexivity|].
  rewrite final_mem_cons. cbn [fold_left trace].
  rewrite IH by (intros c' Hin; apply Hc; now right).
  destruct (Hc c (or_introl eq_refl)) as (e & a & -> & Hw).
  cbn [run_iterate fst snd]. now rewrite Hacc.
Qed.

Lemma legal_backward_run ctx m p Tn N C H :
  legal_size Tn N C H ->
  backward_shapes ctx Tn N C H ->
  (forall b s, alloc_ok b s = true) ->
  Cuda.wf p ->
  fst (HasteGruGradOp_Compute zero BI alloc_ok ctx (start m p)) = Done tt /\
  length (st_calls (snd (HasteGruGradOp_Compute zero BI alloc_ok ctx
                           (start m p)))) = Z.to_nat Tn.
Proof.
  intros L S Ha Hw.
  destruct (legal_backward_ready L S Ha Hw) as (handle & p' & Hr).
  destruct (legal_backward_plan handle L S) as [Hd Hl].
  rewrite (backward_compute_ready m Hr).
  cbn [fst snd after_calls st_calls bw_loop_start app].
  split; [exact Hd|now rewrite trace_length].
Qed.

(** Every call of the reverse loop, by its position. *)
Lemma bw_plan_nth ctx Tn N C H handle k c :
  nth_error (fst (bw_plan ctx Tn N C H handle)) k = Some c ->
  exists a,
    c = BwIterate (mkBackwardPass N C H handle) a /\
    0 <= Tn - 1 - Z.of_nat k < Tn /\
    backward_args ctx (bw_has_zoneout (HasteGruGrad.zoneout_mask ctx))
      (bw_dx Tn N C) (bw_dW C H) (bw_dR H) (bw_dbx H) (bw_dbr H)
      (bw_dh N H) (bw_dp Tn N H) (bw_dq Tn N H) (bw_zero_vector N H)
      (Tn - 1 - Z.of_nat k) = Done a.
Proof.
  unfold bw_plan. intros Hk.
  destruct (backward_plan_prefix ctx (bw_has_zoneout (HasteGruGrad.zoneout_mask ctx))
              (mkBackwardPass N C H handle) (bw_dx Tn N C) (bw_dW C H) (bw_dR H)
              (bw_dbx H) (bw_dbr H) (bw_dh N H) (bw_dp Tn N H) (bw_dq Tn N H)
              (bw_zero_vector N H) (rev (range Tn))) as (pre & suf & Epre & F & _).
  destruct (Forall2_nth_error_r F _ Hk) as (i & Hi & a & Ha & ->).
  apply (nth_error_prefix pre suf) in Hi. rewrite <- Epre in Hi.
  apply nth_error_rev_range in Hi as [Ei Hrange]. subst i.
  exists a. now repeat split.
Qed.

Lemma dx_slices_disjoint Tn N C t t' :
  0 <= N -> 0 <= C -> 0 <= t <= Tn -> 0 <= t' <= Tn -> t <> t' ->
  disjoint_regions (slice_ptr (bw_dx Tn N C) t) (slice_ptr (bw_dx Tn N C) t') (N * C).
Proof.
  intros HN HC Ht Ht' Hne. unfold bw_dx.
  rewrite !slice_ptr_fresh by lia. cbn [num_elements].
  destruct ((0 <? Tn) && (0 <? Tn * (N * (C * 1)))); [|exact I].
  cbn. intros _. nia.
Qed.

(** C5. In every gradient call the [Iterate] calls run one after the
    other from a memory in which [dW], [dR], [dbx], [dbr] and the carried
    [dh] are zero, with nothing written in between: each call starts in
    the memory the previous one left, and the kernel ends in the memory
    the last one left. On a legal problem the call ends normally and
    there is one [Iterate] call per time step. Every call is handed, as
    its four accumulators, the kernel's outputs 1 to 4, the same [dh], and
    its own slice of output 0, [dx], which the kernel never initialises
    and which overlaps the slice of no other call. With an engine that
    adds to each accumulator element a contribution that does not depend
    on what the accumulators hold, every accumulator element ends as the
    running total, from zero, of the contributions of all the calls. *)
Theorem gradient_accumulators ctx m p :
  let g := HasteGruGradOp_Compute zero BI alloc_ok ctx (start m p) in
  exists cs m0,
    st_calls (snd g) = trace FI BI cs m0 /\
    st_mem (snd g) = final_mem FI BI cs m0 /\
    (forall Tn N C H,
       legal_size Tn N C H ->
       backward_shapes ctx Tn N C H ->
       (forall b s, alloc_ok b s = true) ->
       Cuda.wf p ->
       fst g = Done tt /\ length cs = Z.to_nat Tn) /\
    (forall k c, nth_error cs k = Some c ->
       exists e a, c = BwIterate e a /\
         (exists dx dW dR dbx dbr t,
            st_outputs (snd g) =
              [(0%nat, dx); (1%nat, dW); (2%nat, dR); (3%nat, dbx); (4%nat, dbr)] /\
            bw_accumulators a = [data dW; data dR; data dbx; data dbr] /\
            ba_dx a = slice_ptr dx t) /\
         zero_behind zero m0 (ba_dW a) /\
         zero_behind zero m0 (ba_dR a) /\
         zero_behind zero m0 (ba_dbx a) /\
         zero_behind zero m0 (ba_dbr a) /\
         zero_behind zero m0 (ba_dh a) /\
         (forall b base j, ba_dx a = Some (b, base) -> m0 b j = m b j) /\
         (forall k' e' a', nth_error cs k' = Some (BwIterate e' a') ->
            bw_accumulators a' = bw_accumulators a /\
            ba_dh a' = ba_dh a /\
            (k' <> k ->
             disjoint_regions (ba_dx a') (ba_dx a)
                              (bp_batch_size e * bp_input_size e)))) /\
    (forall add delta,
       bw_accumulates BI add delta ->
       forall e a b j,
         nth_error cs 0 = Some (BwIterate e a) ->
         existsb (points_into b) (bw_accumulators a) = true ->
         st_mem (snd g) b j =
         accumulated zero add delta (st_calls (snd g)) b j).
Proof.
  intros g.
  assert (Hlegal : forall Tn N C H,
            legal_size Tn N C H ->
            backward_shapes ctx Tn N C H ->
            (forall b s, alloc_ok b s = true) ->
            Cuda.wf p ->
            fst g = Done tt /\ length (st_calls (snd g)) = Z.to_nat Tn)
    by (intros Tn N C H L S Ha Hw; exact (legal_backward_run m L S Ha Hw)).
  destruct (backward_compute_cases ctx m p)
    as [(Tn & N & C & H & handle & p' & Hr)|[Hnil Hbad]].
  - subst g. rewrite (backward_compute_ready m Hr) in Hlegal |- *.
    cbn [fst snd after_calls st_calls st_mem st_outputs bw_loop_start app]
      in Hlegal |- *.
    exists (fst (bw_plan ctx Tn N C H handle)), (bw_memsets zero N C H m).
    split; [reflexivity|]. split; [reflexivity|].
    split.
    { intros Tn' N' C' H' L S Ha Hw.
      destruct (Hlegal Tn' N' C' H' L S Ha Hw) as [Hd Hl].
      rewrite trace_length in Hl. now split. }
    destruct (bw_memsets_zero N C H m) as (Z1 & Z2 & Z3 & Z4 & Z5 & _).
    assert (Hdims : 0 <= Tn /\ 0 <= N /\ 0 <= C).
    { destruct Hr as (_ & _ & _ & _ & Hsh & _).
      cbn [add_dims] in Hsh. rewrite !andb_true_iff, !Z.leb_le in Hsh. lia. }
    assert (Hacc : forall k c,
               nth_error (fst (bw_plan ctx Tn N C H handle)) k = Some c ->
               exists a, c = BwIterate (mkBackwardPass N C H handle) a /\
                 0 <= Tn - 1 - Z.of_nat k < Tn /\
                 ba_dx a = slice_ptr (bw_dx Tn N C) (Tn - 1 - Z.of_nat k) /\
                 bw_accumulators a =
                   [data (bw_dW C H); data (bw_dR H); data (bw_dbx H); data (bw_dbr H)] /\
                 ba_dh a = data (bw_dh N H)).
    { intros k c Hk. apply bw_plan_nth in Hk as (a & -> & Hrange & Ha).
      apply backward_args_inv in Ha
        as (_ & _ & _ & _ & Hdx & HdW & HdR & Hdbx & Hdbr & Hdh & _).
      exists a. unfold bw_accumulators. rewrite HdW, HdR, Hdbx, Hdbr.
      now repeat split. }
    split.
    + intros k c Hk. destruct (Hacc k c Hk) as (a & -> & Hrange & Hdx & Ha & Hdh).
      exists (mkBackwardPass N C H handle), a. split; [reflexivity|].
      split.
      { exists (bw_dx Tn N C), (bw_dW C H), (bw_dR H), (bw_dbx H), (bw_dbr H),
          (Tn - 1 - Z.of_nat k).
        split; [reflexivity|]. split; [exact Ha|exact Hdx]. }
      unfold bw_accumulators in Ha. inversion Ha as [[HdW HdR Hdbx Hdbr]].
      rewrite HdW, HdR, Hdbx, Hdbr, Hdh.
      repeat (split; [assumption|]).
      split.
      * intros b base j Eb. rewrite Hdx in Eb.
        assert (b = OutputBuf 0).
        { unfold bw_dx in Eb. rewrite slice_ptr_fresh in Eb by lia.
          destruct ((0 <? Tn) && (0 <? Tn * num_elements [N; C])); [|discriminate].
          now inversion Eb. }
        subst b. apply bw_memsets_spare_dx.
      * intros k' e' a' Hk'.
        destruct (Hacc k' _ Hk') as (a2 & E2 & Hrange' & Hdx' & Ha' & Hdh').
        inversion E2; subst e' a2. unfold bw_accumulators in Ha'.
        inversion Ha' as [[HdW' HdR' Hdbx' Hdbr']].
        unfold bw_accumulators.
        rewrite ?HdW', ?HdR', ?Hdbx', ?Hdbr', ?Hdh', ?HdW, ?HdR, ?Hdbx, ?Hdbr, ?Hdh.
        split; [reflexivity|]. split; [reflexivity|].
        intros Hne. rewrite Hdx, Hdx'. cbn [bp_batch_size bp_input_size].
        apply dx_slices_disjoint; lia.
    + intros add delta Hadd e a b j H0 Hb.
      destruct (Hacc 0%nat _ H0) as (a0 & E0 & _ & _ & Ha0 & _).
      inversion E0; subst e a0.
      rewrite (@final_mem_accumulates add delta b j (fst (bw_plan ctx Tn N C H handle)) Hadd).
      * unfold accumulated. f_equal.
        rewrite Ha0 in Hb. cbn [existsb] in Hb.
        unfold points_into in Hb.
        destruct (data (bw_dW C H)) as [[b1 o1]|] eqn:E1;
          [destruct (buffer_eqb b b1) eqn:B1;
           [apply buffer_eqb_eq in B1; subst b1; apply Z1|]|].
        all: destruct (data (bw_dR H)) as [[b2 o2]|] eqn:E2;
          [destruct (buffer_eqb b b2) eqn:B2;
           [apply buffer_eqb_eq in B2; subst b2; apply Z2|]|].
        all: destruct (data (bw_dbx H)) as [[b3 o3]|] eqn:E3;
          [destruct (buffer_eqb b b3) eqn:B3;
           [apply buffer_eqb_eq in B3; subst b3; apply Z3|]|].
        all: destruct (data (bw_dbr H)) as [[b4 o4]|] eqn:E4;
          [destruct (buffer_eqb b b4) eqn:B4;
           [apply buffer_eqb_eq in B4; subst b4; apply Z4|]|].
        all: cbn in Hb; discriminate.
      * intros c Hin. apply In_nth_error in Hin as [k Hk].
        destruct (Hacc k c Hk) as (a1 & -> & _ & _ & Ha1 & _).
        exists (mkBackwardPass N C H handle), a1. split; [reflexivity|].
        now rewrite Ha1, <- Ha0.
  - exists [], (st_mem (snd g)). cbn [trace final_mem fold_left].
    split; [exact Hnil|]. split; [reflexivity|]. split; [|split].
    + intros Tn N C H L S Ha Hw.
      destruct (Hlegal Tn N C H L S Ha Hw) as [Hd _]. now elim Hbad.
    + intros k c Hk. destruct k; discriminate.
    + intros add delta _ e a b j H0. discriminate.
Qed.

Lemma mask_args_trace (cs : list IterateCall) (m : Mem T) :
  mask_args (trace FI BI cs m) = map call_mask cs.
Proof.
  unfold mask_args. rewrite <- (map_fst_trace cs m) at 2. now rewrite map_map.
Qed.

Lemma has_zoneout_agree prob mask :
  float_to_bool prob = true \/ NumElements mask = 0 ->
  fw_has_zoneout prob mask = bw_has_zoneout mask.
Proof.
  unfold fw_has_zoneout, bw_has_zoneout. intros [-> | ->].
  - cbn [andb]. now rewrite negb_involutive.
  - cbn. now rewrite andb_false_r.
Qed.

(** The masks handed out by a forward call that ends normally. *)
Lemma forward_masks training prob ctx m p Tn :
  dim_size (HasteGru.x ctx) 0 = Done Tn ->
  fst (HasteGruOp_Compute zero FI alloc_ok training prob ctx (start m p)) = Done tt ->
  mask_args (st_calls (snd (HasteGruOp_Compute zero FI alloc_ok training prob ctx
                              (start m p)))) =
  map (mask_at (fw_has_zoneout prob (HasteGru.zoneout_mask ctx))
               (HasteGru.zoneout_mask ctx)) (range Tn).
Proof.
  intros HT Hd.
  destruct (forward_compute_cases training prob ctx m p)
    as [(Tn' & N & C & H & handle & p' & Hr)|[_ Hbad]]; [|contradiction].
  assert (Tn' = Tn) by (destruct Hr as (E & _); congruence). subst Tn'.
  rewrite (forward_compute_ready prob m Hr) in Hd |- *.
  cbn [fst snd after_calls st_calls fw_loop_start app] in Hd |- *.
  rewrite mask_args_trace. unfold fw_plan in Hd |- *.
  match type of Hd with
  | snd (forward_plan ?a1 ?a2 ?a3 ?a4 ?a5 ?a6 ?a7 ?a8 ?a9 ?a10 ?a11) = _ =>
      destruct (forward_plan_prefix a1 a2 a3 a4 a5 a6 a7 a8 a9 a10 a11)
        as (pre & suf & Epre & F & D)
  end.
  rewrite (D Hd), app_nil_r in Epre. subst pre.
  eapply Forall2_map_eq; [exact F|]. intros i c (h' & a & nh & Ha & ->).
  apply forward_args_inv in Ha as (_ & _ & _ & _ & _ & _ & Hm).
  exact Hm.
Qed.

(** The masks handed out by a gradient call that ends normally. *)
Lemma backward_masks ctx m p Tn :
  dim_size (HasteGruGrad.x_t ctx) 0 = Done Tn ->
  fst (HasteGruGradOp_Compute zero BI alloc_ok ctx (start m p)) = Done tt ->
  mask_args (st_calls (snd (HasteGruGradOp_Compute zero BI alloc_ok ctx
                              (start m p)))) =
  map (mask_at (bw_has_zoneout (HasteGruGrad.zoneout_mask ctx))
               (HasteGruGrad.zoneout_mask ctx)) (rev (range Tn)).
Proof.
  intros HT Hd.
  destruct (backward_compute_cases ctx m p)
    as [(Tn' & N & C & H & handle & p' & Hr)|[_ Hbad]]; [|contradiction].
  assert (Tn' = Tn) by (destruct Hr as (E & _); congruence). subst Tn'.
  rewrite (backward_compute_ready m Hr) in Hd |- *.
  cbn [fst snd after_calls st_calls bw_loop_start app] in Hd |- *.
  rewrite mask_args_trace. unfold bw_plan in Hd |- *.
  match type of Hd with
  | snd (backward_plan ?a1 ?a2 ?a3 ?a4 ?a5 ?a6 ?a7 ?a8 ?a9 ?a10 ?a11 ?a12 ?a13) = _ =>
      destruct (backward_plan_prefix a1 a2 a3 a4 a5 a6 a7 a8 a9 a10 a11 a12 a13)
        as (pre & suf & Epre & F & D)
  end.
  rewrite (D Hd), app_nil_r in Epre. subst pre.
  eapply Forall2_map_eq; [exact F|]. intros i c (a & Ha & ->).
  apply backward_args_inv in Ha
    as (_ & _ & _ & _ & _ & _ & _ & _ & _ & _ & _ & _ & Hm & _).
  exact Hm.
Qed.

(** C1, as the code has it. For a forward call and a gradient call over
    the same number of time steps that are given the same zoneout mask,
    where the forward zoneout probability is not zero or the mask is
    empty: at every time step the two [Iterate] calls are handed the same
    mask, the slice of that step when the mask has elements and null when
    it has none. The forward calls come in the order of the time steps,
    the gradient calls in the reverse order. *)
Theorem zoneout_mask_same_in_both_passes
        training prob fctx bctx m1 p1 m2 p2 Tn :
  HasteGru.zoneout_mask fctx = HasteGruGrad.zoneout_mask bctx ->
  dim_size (HasteGru.x fctx) 0 = Done Tn ->
  dim_size (HasteGruGrad.x_t bctx) 0 = Done Tn ->
  float_to_bool prob = true \/ NumElements (HasteGru.zoneout_mask fctx) = 0 ->
  let f := HasteGruOp_Compute zero FI alloc_ok training prob fctx (start m1 p1) in
  let g := HasteGruGradOp_Compute zero BI alloc_ok bctx (start m2 p2) in
  fst f = Done tt ->
  fst g = Done tt ->
  let on := bw_has_zoneout (HasteGru.zoneout_mask fctx) in
  mask_args (st_calls (snd f)) =
    map (mask_at on (HasteGru.zoneout_mask fctx)) (range Tn) /\
  mask_args (st_calls (snd g)) =
    map (mask_at on (HasteGru.zoneout_mask fctx)) (rev (range Tn)) /\
  mask_args (st_calls (snd f)) = rev (mask_args (st_calls (snd g))).
Proof.
  intros Em Hf Hg Hp f g Df Dg on.
  assert (E1 : mask_args (st_calls (snd f)) =
               map (mask_at on (HasteGru.zoneout_mask fctx)) (range Tn)).
  { subst f on. rewrite (forward_masks _ _ _ _ _ Hf Df).
    now rewrite (has_zoneout_agree _ _ Hp). }
  assert (E2 : mask_args (st_calls (snd g)) =
               map (mask_at on (HasteGru.zoneout_mask fctx)) (rev (range Tn))).
  { subst g on. rewrite (backward_masks _ _ _ Hg Dg). now rewrite Em. }
  split; [exact E1|]. split; [exact E2|].
  now rewrite E1, E2, map_rev, rev_involutive.
Qed.

(* ---------------------------------------------------------------------- *)
(** ** Further facts about the two kernels *)
(* ---------------------------------------------------------------------- *)

(** All the arguments of a forward turn, read off the call. *)
Lemma forward_args_all training prob ctx hz output v_out tmp_Wx tmp_Rh h i a nh :
  forward_args training prob ctx hz output v_out tmp_Wx tmp_Rh h i = Done (a, nh) ->
  fa_W a = data (HasteGru.kernel ctx) /\
  fa_R a = data (HasteGru.recurrent_kernel ctx) /\
  fa_bx a = data (HasteGru.bias ctx) /\
  fa_br a = data (HasteGru.recurrent_bias ctx) /\
  fa_x a = slice_ptr (HasteGru.x ctx) i /\
  fa_h a = data h /\
  fa_h_out a = slice_ptr output i /\
  data nh = slice_ptr output i /\
  fa_v a = (if training then slice_ptr v_out i else nullptr) /\
  fa_tmp_Wx a = slice_ptr tmp_Wx i /\
  fa_tmp_Rh a = data tmp_Rh /\
  fa_zoneout_prob a = (if hz then prob else float_zero) /\
  fa_zoneout_mask a = mask_at hz (HasteGru.zoneout_mask ctx) i.
Proof.
  unfold forward_args, obind, slice_ptr, mask_at, slice_ptr.
  destruct (SubSlice (HasteGru.x ctx) i); try discriminate.
  destruct (SubSlice output i); try discriminate.
  destruct (SubSlice v_out i); try discriminate.
  destruct (SubSlice tmp_Wx i); try discriminate.
  destruct hz; [destruct (SubSlice (HasteGru.zoneout_mask ctx) i); try discriminate|].
  all: intros E; inversion E; subst; cbn; repeat split; reflexivity.
Qed.

(** The rest of the arguments of a reverse turn. *)
Lemma backward_args_consts ctx hz dx dW dR dbx dbr dh dp dq zv i a :
  backward_args ctx hz dx dW dR dbx dbr dh dp dq zv i = Done a ->
  ba_W_t a = data (HasteGruGrad.kernel_t ctx) /\
  ba_R_t a = data (HasteGruGrad.recurrent_kernel_t ctx) /\
  ba_bx a = data (HasteGruGrad.bias ctx) /\
  ba_br a = data (HasteGruGrad.recurrent_bias ctx).
Proof.
  unfold backward_args, obind.
  destruct (SubSlice (HasteGruGrad.x_t ctx) i); try discriminate.
  destruct (if negb (i =? 0) then _ else _); try discriminate.
  destruct (SubSlice (HasteGruGrad.v ctx) i); try discriminate.
  destruct (SubSlice (HasteGruGrad.dh_new ctx) i); try discriminate.
  destruct (SubSlice dx i); try discriminate.
  destruct (SubSlice dp i); try discriminate.
  destruct (SubSlice dq i); try discriminate.
  destruct hz; [destruct (SubSlice (HasteGruGrad.zoneout_mask ctx) i); try discriminate|].
  all: intros E; inversion E; subst; cbn; repeat split; reflexivity.
Qed.

Lemma nth_error_range n k i :
  nth_error (range n) k = Some i -> i = Z.of_nat k /\ 0 <= i < n.
Proof.
  unfold range. intros E. rewrite nth_error_map in E.
  destruct (nth_error (seq 0 (Z.to_nat n)) k) as [j|] eqn:Ej; [|discriminate].
  inversion E; subst i.
  pose proof (nth_error_Some (seq 0 (Z.to_nat n)) k) as Hlt.
  rewrite Ej, length_seq in Hlt.
  assert (Hk : (k < Z.to_nat n)%nat) by (apply Hlt; discriminate).
  rewrite nth_error_seq_0 in Ej by exact Hk. inversion Ej; subst j. lia.
Qed.

(** Every call of the forward loop, by its position. *)
Lemma fw_plan_nth training prob ctx Tn N C H handle k c :
  nth_error (fst (fw_plan training prob ctx Tn N C H handle)) k = Some c ->
  exists h' a nh,
    c = FwIterate (mkForwardPass training N C H handle) a /\
    0 <= Z.of_nat k < Tn /\
    forward_args training prob ctx
      (fw_has_zoneout prob (HasteGru.zoneout_mask ctx))
      (fw_output Tn N H) (fw_v_out training Tn N H)
      (fw_tmp_Wx Tn N H) (fw_tmp_Rh N H) h' (Z.of_nat k) = Done (a, nh).
Proof.
  unfold fw_plan. intros Hk.
  match type of Hk with
  | nth_error (fst (forward_plan ?a1 ?a2 ?a3 ?a4 ?a5 ?a6 ?a7 ?a8 ?a9 ?a10 ?a11)) _ = _ =>
      destruct (forward_plan_prefix a1 a2 a3 a4 a5 a6 a7 a8 a9 a10 a11)
        as (pre & suf & Epre & F & _)
  end.
  destruct (Forall2_nth_error_r F _ Hk) as (i & Hi & h' & a & nh & Ha & ->).
  apply (nth_error_prefix pre suf) in Hi. rewrite <- Epre in Hi.
  apply nth_error_range in Hi as [Ei Hrange]. subst i.
  exists h', a, nh. now repeat split.
Qed.

(** The hidden state is threaded through the calls of the loop. *)
Lemma forward_plan_chain training prob ctx hz fwd output v_out tmp_Wx tmp_Rh idxs :
  forall h,
  (forall c,
     nth_error (fst (forward_plan training prob ctx hz fwd output v_out tmp_Wx
                       tmp_Rh idxs h)) 0 = Some c ->
     call_h c = data h) /\
  (forall k c1 c2,
     nth_error (fst (forward_plan training prob ctx hz fwd output v_out tmp_Wx
                       tmp_Rh idxs h)) k = Some c1 ->
     nth_error (fst (forward_plan training prob ctx hz fwd output v_out tmp_Wx
                       tmp_Rh idxs h)) (S k) = Some c2 ->
     call_h c2 = call_h_out c1).
Proof.
  induction idxs as [|i rest IH]; intros h.
  - split; [intros c E|intros k c1 c2 E]; try destruct k; discriminate E.
  - cbn [forward_plan].
    destruct (forward_args training prob ctx hz output v_out tmp_Wx tmp_Rh h i)
      as [[a nh]| |] eqn:Ea;
      try (split; [intros c E|intros k c1 c2 E]; try destruct k; discriminate E).
    specialize (IH nh).
    destruct (forward_plan training prob ctx hz fwd output v_out tmp_Wx tmp_Rh rest nh)
      as [cs o].
    cbn [fst] in *. destruct IH as [IH0 IHS].
    apply forward_args_inv in Ea as (_ & _ & Hh & Hout & _).
    split.
    + intros c E. inversion E; subst c. exact Hh.
    + intros [|k] c1 c2 E1 E2; cbn [nth_error] in E1, E2.
      * inversion E1; subst c1. cbn [call_h_out]. rewrite Hout. now apply IH0.
      * now apply (IHS k).
Qed.

(** X10. [h = new_h]: within one forward call every [Iterate] call after
    the first reads, as its previous hidden state, exactly what the call
    before it wrote as its new hidden state; the first call reads and
    writes the same slice, slice 0 of the output. This holds for every
    call of the kernel, whatever its inputs. *)
Theorem hidden_state_is_chained training prob ctx m p :
  let cs := map fst (st_calls (snd (HasteGruOp_Compute zero FI alloc_ok training
                                      prob ctx (start m p)))) in
  (forall c, nth_error cs 0 = Some c -> call_h c = call_h_out c) /\
  (forall k c1 c2,
     nth_error cs k = Some c1 -> nth_error cs (S k) = Some c2 ->
     call_h c2 = call_h_out c1).
Proof.
  cbv zeta.
  destruct (forward_compute_cases training prob ctx m p)
    as [(Tn & N & C & H & handle & p' & Hr)|[Hnil _]].
  2:{ rewrite Hnil. split; [intros c E|intros k c1 c2 E]; try destruct k; discriminate E. }
  rewrite (forward_compute_ready prob m Hr).
  cbn [snd after_calls st_calls st_mem fw_loop_start app].
  rewrite map_fst_trace. split.
  - intros c E.
    pose proof (fw_plan_nth _ _ _ _ _ _ _ _ _ E) as (h' & a & nh & -> & Hk & Ha).
    unfold fw_plan in E.
    match type of E with
    | nth_error (fst (forward_plan ?a1 ?a2 ?a3 ?a4 ?a5 ?a6 ?a7 ?a8 ?a9 ?a10 ?a11)) _ = _ =>
        pose proof (proj1 (forward_plan_chain a1 a2 a3 a4 a5 a6 a7 a8 a9 a10 a11) _ E)
          as Hh
    end.
    cbn [call_h call_h_out] in *. rewrite Hh. cbn [data buf_].
    apply forward_args_all in Ha as (_ & _ & _ & _ & _ & _ & Hout & _).
    rewrite Hout. cbn [Z.of_nat].
    unfold slice_ptr, fw_output.
    destruct Hr as (_ & _ & _ & _ & _ & Hs & _).
    rewrite (SubSlice_fresh_0 _ _ (add_dims_head _ _ _ Hs)). reflexivity.
  - unfold fw_plan. apply forward_plan_chain.
Qed.


(** X11. What the forward kernel hands to the engine at each step. The
    [k]-th [Iterate] call of a forward call is made on an engine built
    from [training_] and from the batch, input and hidden sizes read off
    [x] and [recurrent_kernel]; it is handed the whole of [kernel],
    [recurrent_kernel], [bias] and [recurrent_bias] and the shared scratch
    [tmp_Rh], and slice [k] of [x], of the output [h], of [v] (null when
    not training) and of the scratch [tmp_Wx]. *)
Theorem forward_step_arguments training prob ctx m p k c mc :
  let r := HasteGruOp_Compute zero FI alloc_ok training prob ctx (start m p) in
  nth_error (st_calls (snd r)) k = Some (c, mc) ->
  exists e a Tn,
    c = FwIterate e a /\
    dim_size (HasteGru.x ctx) 0 = Done Tn /\
    0 <= Z.of_nat k < Tn /\
    fp_training e = training /\
    dim_size (HasteGru.x ctx) 1 = Done (fp_batch_size e) /\
    dim_size (HasteGru.x ctx) 2 = Done (fp_input_size e) /\
    dim_size (HasteGru.recurrent_kernel ctx) 0 = Done (fp_hidden_size e) /\
    st_outputs (snd r) =
      [(0%nat, fw_output Tn (fp_batch_size e) (fp_hidden_size e));
       (1%nat, fw_v_out training Tn (fp_batch_size e) (fp_hidden_size e))] /\
    fa_W a = data (HasteGru.kernel ctx) /\
    fa_R a = data (HasteGru.recurrent_kernel ctx) /\
    fa_bx a = data (HasteGru.bias ctx) /\
    fa_br a = data (HasteGru.recurrent_bias ctx) /\
    fa_x a = slice_ptr (HasteGru.x ctx) (Z.of_nat k) /\
    fa_h_out a =
      slice_ptr (fw_output Tn (fp_batch_size e) (fp_hidden_size e)) (Z.of_nat k) /\
    fa_v a =
      (if training
       then slice_ptr (fw_v_out training Tn (fp_batch_size e) (fp_hidden_size e))
                      (Z.of_nat k)
       else nullptr) /\
    fa_tmp_Wx a =
      slice_ptr (fw_tmp_Wx Tn (fp_batch_size e) (fp_hidden_size e)) (Z.of_nat k) /\
    fa_tmp_Rh a = data (fw_tmp_Rh (fp_batch_size e) (fp_hidden_size e)).
Proof.
  cbv zeta. intros Hk.
  destruct (forward_compute_cases training prob ctx m p)
    as [(Tn & N & C & H & handle & p' & Hr)|[Hnil _]];
    [|rewrite Hnil in Hk; destruct k; discriminate Hk].
  rewrite (forward_compute_ready prob m Hr) in Hk |- *.
  cbn [snd after_calls st_calls st_mem st_outputs fw_loop_start app] in Hk |- *.
  apply nth_error_trace in Hk as [Hk _].
  apply fw_plan_nth in Hk as (h' & a & nh & -> & Hrange & Ha).
  apply forward_args_all in Ha
    as (HW & HR & Hbx & Hbr & Hx & _ & Hout & _ & Hv & HWx & HRh & _).
  destruct Hr as (Ht & Hn & Hc & Hh & _).
  exists (mkForwardPass training N C H handle), a, Tn.
  cbn [fp_training fp_batch_size fp_input_size fp_hidden_size].
  repeat split; try assumption; lia.
Qed.


(** X13. What the gradient kernel hands to the engine at each step. The
    [k]-th [Iterate] call of a gradient call over [Tn] time steps works on
    time step [t = Tn - 1 - k]: the engine is built from the batch, input
    and hidden sizes read off dimensions 2 and 1 of [x_t] and dimension 1
    of [recurrent_kernel_t]; it is handed the whole of [kernel_t],
    [recurrent_kernel_t], [bias], [recurrent_bias], [dW], [dR], [dbx],
    [dbr] and [dh], and slice [t] of [x_t], [v], [dh_new], [dx], [dp] and
    [dq]. *)
Theorem backward_step_arguments ctx m p k c mc :
  let r := HasteGruGradOp_Compute zero BI alloc_ok ctx (start m p) in
  nth_error (st_calls (snd r)) k = Some (c, mc) ->
  exists e a Tn,
    c = BwIterate e a /\
    dim_size (HasteGruGrad.x_t ctx) 0 = Done Tn /\
    0 <= Tn - 1 - Z.of_nat k < Tn /\
    dim_size (HasteGruGrad.x_t ctx) 2 = Done (bp_batch_size e) /\
    dim_size (HasteGruGrad.x_t ctx) 1 = Done (bp_input_size e) /\
    dim_size (HasteGruGrad.recurrent_kernel_t ctx) 1 = Done (bp_hidden_size e) /\
    st_outputs (snd r) =
      [(0%nat, bw_dx Tn (bp_batch_size e) (bp_input_size e));
       (1%nat, bw_dW (bp_input_size e) (bp_hidden_size e));
       (2%nat, bw_dR (bp_hidden_size e));
       (3%nat, bw_dbx (bp_hidden_size e));
       (4%nat, bw_dbr (bp_hidden_size e))] /\
    ba_W_t a = data (HasteGruGrad.kernel_t ctx) /\
    ba_R_t a = data (HasteGruGrad.recurrent_kernel_t ctx) /\
    ba_bx a = data (HasteGruGrad.bias ctx) /\
    ba_br a = data (HasteGruGrad.recurrent_bias ctx) /\
    ba_x_t a = slice_ptr (HasteGruGrad.x_t ctx) (Tn - 1 - Z.of_nat k) /\
    ba_v a = slice_ptr (HasteGruGrad.v ctx) (Tn - 1 - Z.of_nat k) /\
    ba_dh_new a = slice_ptr (HasteGruGrad.dh_new ctx) (Tn - 1 - Z.of_nat k) /\
    ba_dx a = slice_ptr (bw_dx Tn (bp_batch_size e) (bp_input_size e))
                        (Tn - 1 - Z.of_nat k) /\
    ba_dW a = data (bw_dW (bp_input_size e) (bp_hidden_size e)) /\
    ba_dR a = data (bw_dR (bp_hidden_size e)) /\
    ba_dbx a = data (bw_dbx (bp_hidden_size e)) /\
    ba_dbr a = data (bw_dbr (bp_hidden_size e)) /\
    ba_dh a = data (bw_dh (bp_batch_size e) (bp_hidden_size e)) /\
    ba_dp a = slice_ptr (bw_dp Tn (bp_batch_size e) (bp_hidden_size e))
                        (Tn - 1 - Z.of_nat k) /\
    ba_dq a = slice_ptr (bw_dq Tn (bp_batch_size e) (bp_hidden_size e))
                        (Tn - 1 - Z.of_nat k).
Proof.
  cbv zeta. intros Hk.
  destruct (backward_compute_cases ctx m p)
    as [(Tn & N & C & H & handle & p' & Hr)|[Hnil _]];
    [|rewrite Hnil in Hk; destruct k; discriminate Hk].
  rewrite (backward_compute_ready m Hr) in Hk |- *.
  cbn [snd after_calls st_calls st_mem st_outputs bw_loop_start app] in Hk |- *.
  apply nth_error_trace in Hk as [Hk _].
  apply bw_plan_nth in Hk as (a & -> & Hrange & Ha).
  pose proof (backward_args_consts _ _ _ _ _ _ _ _ _ _ _ _ Ha) as (HW & HR & Hbx & Hbr).
  apply backward_args_inv in Ha
    as (Hx & _ & Hv & Hdhn & Hdx & HdW & HdR & Hdbx & Hdbr & Hdh & Hdp & Hdq & _).
  destruct Hr as (Ht & Hc & Hn & Hh & _).
  exists (mkBackwardPass N C H handle), a, Tn.
  cbn [bp_batch_size bp_input_size bp_hidden_size].
  repeat split; try assumption; lia.
Qed.

(** X14. On every legal problem size, with inputs of the registered
    shapes, the gradient kernel ends normally with its five outputs in
    the registered order: [dx] of shape [T,N,C], [dw] of shape [C,3H],
    [dr] of shape [H,3H], [dbx] and [dbr] of shape [3H]; these are the
    shapes that the registered shape function announces. *)
Theorem backward_output_shapes ctx m p Tn N C H :
  legal_size Tn N C H ->
  backward_shapes ctx Tn N C H ->
  (forall b s, alloc_ok b s = true) ->
  Cuda.wf p ->
  let r := HasteGruGradOp_Compute zero BI alloc_ok ctx (start m p) in
  fst r = Done tt /\
  map fst (st_outputs (snd r)) = [0; 1; 2; 3; 4]%nat /\
  map (fun o => shape (snd o)) (st_outputs (snd r)) =
    [[Tn; N; C]; [C; 3 * H]; [H; 3 * H]; [3 * H]; [3 * H]] /\
  HasteGruGrad_ShapeFn ctx =
    Done (map (fun o => shape (snd o)) (st_outputs (snd r))).
Proof.
  intros L S Ha Hw. cbv zeta.
  destruct (legal_backward_ready L S Ha Hw) as (handle & p' & Hr).
  destruct (legal_backward_plan handle L S) as [Hd _].
  rewrite (backward_compute_ready m Hr).
  cbn [fst snd after_calls st_calls st_outputs bw_loop_start app map].
  unfold bw_dx, bw_dW, bw_dR, bw_dbx, bw_dbr, fresh_tensor. cbn [shape].
  assert (E3 : mul64 H 3 = 3 * H)
    by (unfold legal_size in L; rewrite mul64_small; lia).
  rewrite E3.
  split; [exact Hd|]. split; [reflexivity|]. split; [reflexivity|].
  destruct S as (Sx & Sk & Sr & Sb & Sbr & Sh & Sv & Sdh & Sm).
  unfold HasteGruGrad_ShapeFn, WithRank.
  rewrite Sx, Sk, Sr, Sb, Sbr, Sh, Sv, Sdh.
  assert (Hm : length (shape (HasteGruGrad.zoneout_mask ctx)) = 3%nat)
    by (destruct Sm as [-> |[Hl _]]; [reflexivity|exact Hl]).
  rewrite Hm. cbn [length Nat.eqb obind Dim nth]. now rewrite E3.
Qed.

(** A forward call that does not reach its time loop has touched, at
    most, its own output and the handle cache. *)
Lemma forward_compute_early training prob ctx m p :
  (exists Tn N C H handle p',
      forward_ready alloc_ok training ctx p Tn N C H handle p') \/
  (st_calls (snd (HasteGruOp_Compute zero FI alloc_ok training prob ctx (start m p))) = [] /\
   (forall b j, b <> OutputBuf 0 ->
      st_mem (snd (HasteGruOp_Compute zero FI alloc_ok training prob ctx (start m p))) b j
      = m b j) /\
   (st_cuda (snd (HasteGruOp_Compute zero FI alloc_ok training prob ctx (start m p))) = p \/
    st_cuda (snd (HasteGruOp_Compute zero FI alloc_ok training prob ctx (start m p))) =
      snd (Cuda.GetCublasHandle p))).
Proof.
  unfold HasteGruOp_Compute, bind, lift, OP_REQUIRES, allocate_output, allocate_temp,
    cudaMemset_zero, GetCublasHandle, make_shape, start.
  cbv zeta. cbn [st_mem st_cuda st_outputs st_calls].
  destruct (dim_size (HasteGru.x ctx) 0) as [Tn| |] eqn:Ht; try (right; cbn; now auto).
  destruct (dim_size (HasteGru.x ctx) 1) as [N| |] eqn:Hn; try (right; cbn; now auto).
  destruct (dim_size (HasteGru.x ctx) 2) as [C| |] eqn:Hc; try (right; cbn; now auto).
  destruct (dim_size (HasteGru.recurrent_kernel ctx) 0) as [H| |] eqn:Hh; try (right; cbn; now auto).
  destruct (dim_size (HasteGru.kernel ctx) 0) as [C'| |] eqn:Hk; try (right; cbn; now auto).
  destruct (C =? C')%Z eqn:Hcc; try (right; cbn; now auto).
  apply Z.eqb_eq in Hcc; subst C'.
  destruct (add_dims 1 [Tn; N; H]) eqn:Hs1; try (right; cbn; now auto).
  destruct (add_dims 1 [Tn; N; if training then mul64 H 4 else 0%Z]) eqn:Hs2;
    try (right; cbn; now auto).
  destruct (alloc_ok (OutputBuf 0) [Tn; N; H]) eqn:Ha1; try (right; cbn; now auto).
  cbn [st_mem st_cuda st_outputs st_calls app].
  destruct (alloc_ok (OutputBuf 1) [Tn; N; if training then mul64 H 4 else 0%Z]) eqn:Ha2;
    try (right; cbn; now auto).
  destruct (add_dims 1 [Tn; N; mul64 H 3]) eqn:Hs3; try (right; cbn; now auto).
  destruct (alloc_ok (TempBuf 0) [Tn; N; mul64 H 3]) eqn:Ha3; try (right; cbn; now auto).
  destruct (add_dims 1 [N; mul64 H 3]) eqn:Hs4; try (right; cbn; now auto).
  destruct (alloc_ok (TempBuf 1) [N; mul64 H 3]) eqn:Ha4; try (right; cbn; now auto).
  cbn [st_mem st_cuda st_outputs st_calls app].
  destruct (Cuda.GetCublasHandle p) as [[handle|] p'] eqn:Hg.
  - left. exists Tn, N, C, H, handle, p'. unfold forward_ready. tauto.
  - right. cbn [fst snd st_mem st_cuda st_calls]. split; [reflexivity|].
    split; [|now right].
    intros b j Hb. apply memset_tensor_other. apply fresh_tensor_into. congruence.
Qed.

(** The six [cudaMemset] calls leave every allocation of the caller as
    it was. *)
Lemma bw_memsets_spare_inputs N C H (m : Mem T) k j :
  bw_memsets zero N C H m (InputBuf k) j = m (InputBuf k) j.
Proof.
  unfold bw_memsets, bw_dW, bw_dR, bw_dbx, bw_dbr, bw_dh, bw_zero_vector.
  rewrite !memset_tensor_other by (apply fresh_tensor_into; discriminate).
  reflexivity.
Qed.

(** A gradient call that does not reach its time loop has touched, at
    most, its own outputs and temporaries and the handle cache. *)
Lemma backward_compute_early ctx m p :
  (exists Tn N C H handle p',
      backward_ready alloc_ok ctx p Tn N C H handle p') \/
  (st_calls (snd (HasteGruGradOp_Compute zero BI alloc_ok ctx (start m p))) = [] /\
   (forall k j,
      st_mem (snd (HasteGruGradOp_Compute zero BI alloc_ok ctx (start m p))) (InputBuf k) j
      = m (InputBuf k) j) /\
   (st_cuda (snd (HasteGruGradOp_Compute zero BI alloc_ok ctx (start m p))) = p \/
    st_cuda (snd (HasteGruGradOp_Compute zero BI alloc_ok ctx (start m p))) =
      snd (Cuda.GetCublasHandle p))).
Proof.
  unfold HasteGruGradOp_Compute, bind, lift, allocate_output, allocate_temp,
    cudaMemset_zero, GetCublasHandle, make_shape, start.
  cbv zeta. cbn [st_mem st_cuda st_outputs st_calls].
  destruct (dim_size (HasteGruGrad.x_t ctx) 0) as [Tn| |] eqn:Ht; try (right; cbn; now auto).
  destruct (dim_size (HasteGruGrad.x_t ctx) 1) as [C| |] eqn:Hc; try (right; cbn; now auto).
  destruct (dim_size (HasteGruGrad.x_t ctx) 2) as [N| |] eqn:Hn; try (right; cbn; now auto).
  destruct (dim_size (HasteGruGrad.recurrent_kernel_t ctx) 1) as [H| |] eqn:Hh; try (right; cbn; now auto).
  destruct (add_dims 1 [Tn; N; C]) eqn:Hs1; try (right; cbn; now auto).
  destruct (alloc_ok (OutputBuf 0) [Tn; N; C]) eqn:Ha1; try (right; cbn; now auto).
  cbn [st_mem st_cuda st_outputs st_calls app].
  destruct (add_dims 1 [C; mul64 H 3]) eqn:Hs2; try (right; cbn; now auto).
  destruct (alloc_ok (OutputBuf 1) [C; mul64 H 3]) eqn:Ha2; try (right; cbn; now auto).
  cbn [st_mem st_cuda st_outputs st_calls app].
  destruct (add_dims 1 [H; mul64 H 3]) eqn:Hs3; try (right; cbn; now auto).
  destruct (alloc_ok (OutputBuf 2) [H; mul64 H 3]) eqn:Ha3; try (right; cbn; now auto).
  cbn [st_mem st_cuda st_outputs st_calls app].
  destruct (add_dims 1 [mul64 H 3]) eqn:Hs4; try (right; cbn; now auto).
  destruct (alloc_ok (OutputBuf 3) [mul64 H 3]) eqn:Ha4; try (right; cbn; now auto).
  cbn [st_mem st_cuda st_outputs st_calls app].
  destruct (alloc_ok (OutputBuf 4) [mul64 H 3]) eqn:Ha5; try (right; cbn; now auto).
  cbn [st_mem st_cuda st_outputs st_calls app].
  destruct (add_dims 1 [N; H]) eqn:Hs6; try (right; cbn; now auto).
  destruct (alloc_ok (TempBuf 0) [N; H]) eqn:Ha6; try (right; cbn; now auto).
  destruct (add_dims 1 [Tn; N; mul64 H 3]) eqn:Hs7; try (right; cbn; now auto).
  destruct (alloc_ok (TempBuf 1) [Tn; N; mul64 H 3]) eqn:Ha7; try (right; cbn; now auto).
  destruct (alloc_ok (TempBuf 2) [Tn; N; mul64 H 3]) eqn:Ha8; try (right; cbn; now auto).
  destruct (alloc_ok (TempBuf 3) [N; H]) eqn:Ha9; try (right; cbn; now auto).
  cbn [st_mem st_cuda st_outputs st_calls app].
  destruct (Cuda.GetCublasHandle p) as [[handle|] p'] eqn:Hg.
  - left. exists Tn, N, C, H, handle, p'. unfold backward_ready. tauto.
  - right. cbn [fst snd st_mem st_cuda st_calls]. split; [reflexivity|].
    split; [|now right].
    intros k j. apply (bw_memsets_spare_inputs N C H m k j).
Qed.

Lemma final_mem_fw_frame (b : buffer) (cs : list IterateCall) :
  fw_frame FI ->
  (forall c, In c cs -> exists e a,
      c = FwIterate e a /\ existsb (points_into b) (fw_writable a) = false) ->
  forall (m : Mem T) j, final_mem FI BI cs m b j = m b j.
Proof.
  intros Hf. induction cs as [|c cs IH]; intros Hc m j; [reflexivity|].
  rewrite final_mem_cons.
  rewrite IH by (intros c' Hin; apply Hc; now right).
  destruct (Hc c (or_introl eq_refl)) as (e & a & -> & Hw).
  cbn [run_iterate]. now apply Hf.
Qed.

(** Everything a forward [Iterate] call may write through lies in an
    allocation the kernel made. *)
Lemma fw_plan_spares_inputs training prob ctx Tn N C H handle k c :
  In c (fst (fw_plan training prob ctx Tn N C H handle)) ->
  exists e a, c = FwIterate e a /\
              existsb (points_into (InputBuf k)) (fw_writable a) = false.
Proof.
  unfold fw_plan. intros Hin.
  apply forward_plan_In in Hin as (i & h' & a & nh & _ & Ha & ->).
  exists (mkForwardPass training N C H handle), a. split; [reflexivity|].
  apply forward_args_all in Ha
    as (_ & _ & _ & _ & _ & _ & Hout & _ & Hv & HWx & HRh & _).
  unfold fw_writable. rewrite Hout, Hv, HWx, HRh.
  unfold fw_output, fw_v_out, fw_tmp_Wx, fw_tmp_Rh. cbn [existsb].
  rewrite !slice_ptr_into, !fresh_tensor_into by discriminate.
  destruct training; [rewrite slice_ptr_into by discriminate|]; reflexivity.
Qed.

(** Everything a reverse [Iterate] call may write through lies in an
    allocation the kernel made. *)
Lemma bw_plan_spares_inputs ctx Tn N C H handle k c :
  In c (fst (bw_plan ctx Tn N C H handle)) ->
  exists e a, c = BwIterate e a /\
              existsb (points_into (InputBuf k)) (bw_writable a) = false.
Proof.
  intros Hin. apply In_nth_error in Hin as [n Hn].
  apply bw_plan_nth in Hn as (a & -> & _ & Ha).
  exists (mkBackwardPass N C H handle), a. split; [reflexivity|].
  apply backward_args_inv in Ha
    as (_ & _ & _ & _ & Hdx & HdW & HdR & Hdbx & Hdbr & Hdh & Hdp & Hdq & _).
  unfold bw_writable. rewrite Hdx, HdW, HdR, Hdbx, Hdbr, Hdh, Hdp, Hdq.
  unfold bw_dx, bw_dW, bw_dR, bw_dbx, bw_dbr, bw_dh, bw_dp, bw_dq.
  cbn [existsb].
  rewrite !slice_ptr_into, !fresh_tensor_into by discriminate. reflexivity.
Qed.

(** X15. The forward kernel never writes to its inputs. With an engine
    that writes only through the pointers it is handed for writing
    ([h_out], [v], the two scratch buffers), every allocation of the caller
    holds at the end of a forward call, and at the start of each of its
    [Iterate] calls, what it held when the call began; this is so however
    the call ends. *)
Theorem forward_leaves_inputs_alone training prob ctx m p :
  fw_frame FI ->
  let r := HasteGruOp_Compute zero FI alloc_ok training prob ctx (start m p) in
  forall k j,
    st_mem (snd r) (InputBuf k) j = m (InputBuf k) j /\
    (forall c mc, In (c, mc) (st_calls (snd r)) ->
       mc (InputBuf k) j = m (InputBuf k) j).
Proof.
  intros Hf. cbv zeta. intros k j.
  destruct (forward_compute_early training prob ctx m p)
    as [(Tn & N & C & H & handle & p' & Hr)|(Hnil & Hm & _)].
  2:{ rewrite Hnil. split; [apply Hm; discriminate|]. intros c mc []. }
  rewrite (forward_compute_ready prob m Hr).
  cbn [snd after_calls st_calls st_mem fw_loop_start app].
  assert (H0 : memset_tensor zero (fw_output Tn N H) m (InputBuf k) j = m (InputBuf k) j)
    by (apply memset_tensor_other, fresh_tensor_into; discriminate).
  split.
  - rewrite final_mem_fw_frame; [exact H0|exact Hf|].
    intros c Hin. eapply fw_plan_spares_inputs; exact Hin.
  - intros c mc Hin. apply In_nth_error in Hin as [n Hn].
    apply nth_error_trace in Hn as [_ ->].
    rewrite final_mem_fw_frame; [exact H0|exact Hf|].
    intros c' Hin. apply In_firstn_In in Hin. eapply fw_plan_spares_inputs; exact Hin.
Qed.

(** X16. The gradient kernel never writes to its inputs. With an engine
    that writes only through the pointers it is handed for writing ([dx],
    the four accumulators, [dh], [dp], [dq]), every allocation of the
    caller holds at the end of a gradient call, and at the start of each of
    its [Iterate] calls, what it held when the call began; this is so
    however the call ends. *)
Theorem backward_leaves_inputs_alone ctx m p :
  bw_frame BI ->
  let r := HasteGruGradOp_Compute zero BI alloc_ok ctx (start m p) in
  forall k j,
    st_mem (snd r) (InputBuf k) j = m (InputBuf k) j /\
    (forall c mc, In (c, mc) (st_calls (snd r)) ->
       mc (InputBuf k) j = m (InputBuf k) j).
Proof.
  intros Hf. cbv zeta. intros k j.
  destruct (backward_compute_early ctx m p)
    as [(Tn & N & C & H & handle & p' & Hr)|(Hnil & Hm & _)].
  2:{ rewrite Hnil. split; [apply Hm|]. intros c mc []. }
  rewrite (backward_compute_ready m Hr).
  cbn [snd after_calls st_calls st_mem bw_loop_start app].
  split.
  - rewrite (final_mem_frame (InputBuf k)); [apply bw_memsets_spare_inputs|exact Hf|].
    intros c Hin. eapply bw_plan_spares_inputs; exact Hin.
  - intros c mc Hin. apply In_nth_error in Hin as [n Hn].
    apply nth_error_trace in Hn as [_ ->].
    rewrite (final_mem_frame (InputBuf k)); [apply bw_memsets_spare_inputs|exact Hf|].
    intros c' Hin. apply In_firstn_In in Hin. eapply bw_plan_spares_inputs; exact Hin.
Qed.

(** The handle cache after a lookup in a reachable state. *)
Lemma cached_lookup count p :
  Cuda.cached count p ->
  let d := Cuda.rt_current_device (Cuda.runtime p) in
  exists p',
    Cuda.GetCublasHandle p = (Some (Z.to_nat d), p') /\
    Cuda.cached count p' /\
    Cuda.rt_current_device (Cuda.runtime p') = d /\
    Cuda.handles_on d (Cuda.runtime p') = [Z.to_nat d].
Proof.
  intros Hp d.
  destruct (GetCublasHandle_cached Hp) as (p' & Eg & Hp' & Ha & Hd & _).
  exists p'. split; [exact Eg|]. split; [exact Hp'|]. split; [exact Hd|].
  destruct Hp' as (_ & Hrange & _ & Hh). rewrite Ha in Hh. destruct Hh as [_ Hl].
  unfold Cuda.handles_on. rewrite Hl, handles_on_combine.
  rewrite Hd in Hrange. fold d in Hrange.
  replace (0 <=? d) with true by (symmetry; apply Z.leb_le; lia).
  replace (d <? count) with true by (symmetry; apply Z.ltb_lt; lia).
  reflexivity.
Qed.

(** X17. Both kernels run the engine on the handle of the device that is
    selected when they are called. In a process that has only looked up
    handles and selected devices so far, every [Iterate] call of a forward
    or gradient call is made on an engine holding the one handle bound to
    the selected device; the kernel leaves the device selection as it found
    it and the handle cache in a state of the same kind. *)
Theorem kernels_use_handle_of_selected_device
        count p training prob fctx bctx m :
  Cuda.cached count p ->
  let d := Cuda.rt_current_device (Cuda.runtime p) in
  let f := HasteGruOp_Compute zero FI alloc_ok training prob fctx (start m p) in
  let g := HasteGruGradOp_Compute zero BI alloc_ok bctx (start m p) in
  (forall c mc, In (c, mc) (st_calls (snd f)) ->
     Cuda.handles_on d (Cuda.runtime (st_cuda (snd f))) = [call_handle c]) /\
  Cuda.cached count (st_cuda (snd f)) /\
  Cuda.rt_current_device (Cuda.runtime (st_cuda (snd f))) = d /\
  (forall c mc, In (c, mc) (st_calls (snd g)) ->
     Cuda.handles_on d (Cuda.runtime (st_cuda (snd g))) = [call_handle c]) /\
  Cuda.cached count (st_cuda (snd g)) /\
  Cuda.rt_current_device (Cuda.runtime (st_cuda (snd g))) = d.
Proof.
  intros Hp d. cbv zeta.
  destruct (cached_lookup Hp) as (q & Eg & Hq & Hd & Hon). fold d in Eg, Hd, Hon.
  assert (Hearly : forall s : Cuda.Process,
            s = p \/ s = snd (Cuda.GetCublasHandle p) ->
            Cuda.cached count s /\ Cuda.rt_current_device (Cuda.runtime s) = d).
  { intros s [-> | ->]; [now split|]. rewrite Eg. now split. }
  split; [|split; [|split; [|split; [|split]]]].
  1-3: destruct (forward_compute_early training prob fctx m p)
         as [(Tn & N & C & H & handle & p' & Hr)|(Hnil & _ & Hc)].
  7-9: destruct (backward_compute_early bctx m p)
         as [(Tn & N & C & H & handle & p' & Hr)|(Hnil & _ & Hc)].
  all: try (rewrite Hnil; intros c mc []).
  all: try (now apply Hearly).
  all: try (assert (E : (Some handle, p') = (Some (Z.to_nat d), q))
              by (rewrite <- Eg; symmetry;
                  first [exact (proj2 (proj2 (proj2 (proj2 (proj2 (proj2 (proj2
                           (proj2 (proj2 (proj2 (proj2 (proj2 (proj2 Hr)))))))))))))
                        |apply Hr]);
            inversion E; subst handle p'; clear E).
  - rewrite (forward_compute_ready prob m Hr).
    cbn [snd after_calls st_calls st_cuda fw_loop_start app].
    intros c mc Hin. apply In_trace in Hin. unfold fw_plan in Hin.
    apply forward_plan_In in Hin as (i & h' & a & nh & _ & _ & ->).
    exact Hon.
  - rewrite (forward_compute_ready prob m Hr). exact Hq.
  - rewrite (forward_compute_ready prob m Hr). exact Hd.
  - rewrite (backward_compute_ready m Hr).
    cbn [snd after_calls st_calls st_cuda bw_loop_start app].
    intros c mc Hin. apply In_trace in Hin. apply In_nth_error in Hin as [n Hn].
    apply bw_plan_nth in Hn as (a & -> & _). exact Hon.
  - rewrite (backward_compute_ready m Hr). exact Hq.
  - rewrite (backward_compute_ready m Hr). exact Hd.
Qed.

(** X18. A forward call whose allocations are not all served ends with
    [ResourceExhausted] at the first one that is refused: no [Iterate] call
    is made, no memory is written, the handle cache is not consulted, and
    the outputs set so far are those allocated before the refusal. *)
Theorem forward_allocation_failure (training : bool) prob ctx m p Tn N C H :
  dim_size (HasteGru.x ctx) 0 = Done Tn ->
  dim_size (HasteGru.x ctx) 1 = Done N ->
  dim_size (HasteGru.x ctx) 2 = Done C ->
  dim_size (HasteGru.recurrent_kernel ctx) 0 = Done H ->
  dim_size (HasteGru.kernel ctx) 0 = Done C ->
  add_dims 1 [Tn; N; H] = true ->
  add_dims 1 [Tn; N; if training then mul64 H 4 else 0] = true ->
  add_dims 1 [Tn; N; mul64 H 3] = true ->
  add_dims 1 [N; mul64 H 3] = true ->
  alloc_ok (OutputBuf 0) [Tn; N; H] &&
  alloc_ok (OutputBuf 1) [Tn; N; if training then mul64 H 4 else 0] &&
  alloc_ok (TempBuf 0) [Tn; N; mul64 H 3] &&
  alloc_ok (TempBuf 1) [N; mul64 H 3] = false ->
  let r := HasteGruOp_Compute zero FI alloc_ok training prob ctx (start m p) in
  fst r = Failed ResourceExhausted /\
  st_calls (snd r) = [] /\
  st_mem (snd r) = m /\
  st_cuda (snd r) = p /\
  st_outputs (snd r) =
    (if alloc_ok (OutputBuf 0) [Tn; N; H]
     then (0%nat, fw_output Tn N H) ::
          (if alloc_ok (OutputBuf 1) [Tn; N; if training then mul64 H 4 else 0]
           then [(1%nat, fw_v_out training Tn N H)] else [])
     else []).
Proof.
  intros Ht Hn Hc Hh Hk Hs1 Hs2 Hs3 Hs4 Ha.
  unfold HasteGruOp_Compute, bind, lift, OP_REQUIRES, allocate_output, allocate_temp,
    cudaMemset_zero, GetCublasHandle, make_shape, start.
  cbv zeta. rewrite Ht, Hn, Hc, Hh, Hk. cbn [st_mem st_cuda st_outputs st_calls].
  rewrite Z.eqb_refl, Hs1, Hs2.
  destruct (alloc_ok (OutputBuf 0) [Tn; N; H]); [|now repeat split].
  cbn [st_mem st_cuda st_outputs st_calls app].
  destruct (alloc_ok (OutputBuf 1) [Tn; N; if training then mul64 H 4 else 0]);
    [|now repeat split].
  cbn [st_mem st_cuda st_outputs st_calls app]. rewrite Hs3.
  destruct (alloc_ok (TempBuf 0) [Tn; N; mul64 H 3]); [|now repeat split].
  rewrite Hs4.
  destruct (alloc_ok (TempBuf 1) [N; mul64 H 3]); [discriminate Ha|now repeat split].
Qed.

(** X19. A gradient call whose allocations are not all served ends with
    [ResourceExhausted]: no [Iterate] call is made, no memory is written
    (none of the six [cudaMemset] calls has run) and the handle cache is
    not consulted. *)
Theorem backward_allocation_failure ctx m p Tn N C H :
  dim_size (HasteGruGrad.x_t ctx) 0 = Done Tn ->
  dim_size (HasteGruGrad.x_t ctx) 1 = Done C ->
  dim_size (HasteGruGrad.x_t ctx) 2 = Done N ->
  dim_size (HasteGruGrad.recurrent_kernel_t ctx) 1 = Done H ->
  add_dims 1 [Tn; N; C] = true ->
  add_dims 1 [C; mul64 H 3] = true ->
  add_dims 1 [H; mul64 H 3] = true ->
  add_dims 1 [mul64 H 3] = true ->
  add_dims 1 [N; H] = true ->
  add_dims 1 [Tn; N; mul64 H 3] = true ->
  alloc_ok (OutputBuf 0) [Tn; N; C] &&
  alloc_ok (OutputBuf 1) [C; mul64 H 3] &&
  alloc_ok (OutputBuf 2) [H; mul64 H 3] &&
  alloc_ok (OutputBuf 3) [mul64 H 3] &&
  alloc_ok (OutputBuf 4) [mul64 H 3] &&
  alloc_ok (TempBuf 0) [N; H] &&
  alloc_ok (TempBuf 1) [Tn; N; mul64 H 3] &&
  alloc_ok (TempBuf 2) [Tn; N; mul64 H 3] &&
  alloc_ok (TempBuf 3) [N; H] = false ->
  let r := HasteGruGradOp_Compute zero BI alloc_ok ctx (start m p) in
  fst r = Failed ResourceExhausted /\
  st_calls (snd r) = [] /\
  st_mem (snd r) = m /\
  st_cuda (snd r) = p /\
  exists n,
    st_outputs (snd r) =
    firstn n [(0%nat, bw_dx Tn N C); (1%nat, bw_dW C H); (2%nat, bw_dR H);
              (3%nat, bw_dbx H); (4%nat, bw_dbr H)].
Proof.
  intros Ht Hc Hn Hh Hs1 Hs2 Hs3 Hs4 Hs6 Hs7 Ha.
  unfold HasteGruGradOp_Compute, bind, lift, allocate_output, allocate_temp,
    cudaMemset_zero, GetCublasHandle, make_shape, start.
  cbv zeta. rewrite Ht, Hc, Hn, Hh. cbn [st_mem st_cuda st_outputs st_calls].
  rewrite Hs1.
  destruct (alloc_ok (OutputBuf 0) [Tn; N; C]); [|now repeat split; try (exists 0%nat)].
  cbn [st_mem st_cuda st_outputs st_calls app]. rewrite Hs2.
  destruct (alloc_ok (OutputBuf 1) [C; mul64 H 3]); [|now repeat split; try (exists 1%nat)].
  cbn [st_mem st_cuda st_outputs st_calls app]. rewrite Hs3.
  destruct (alloc_ok (OutputBuf 2) [H; mul64 H 3]); [|now repeat split; try (exists 2%nat)].
  cbn [st_mem st_cuda st_outputs st_calls app]. rewrite Hs4.
  destruct (alloc_ok (OutputBuf 3) [mul64 H 3]); [|now repeat split; try (exists 3%nat)].
  cbn [st_mem st_cuda st_outputs st_calls app].
  destruct (alloc_ok (OutputBuf 4) [mul64 H 3]); [|now repeat split; try (exists 4%nat)].
  cbn [st_mem st_cuda st_outputs st_calls app]. rewrite Hs6.
  destruct (alloc_ok (TempBuf 0) [N; H]); [|now repeat split; try (exists 5%nat)].
  rewrite Hs7.
  destruct (alloc_ok (TempBuf 1) [Tn; N; mul64 H 3]); [|now repeat split; try (exists 5%nat)].
  destruct (alloc_ok (TempBuf 2) [Tn; N; mul64 H 3]); [|now repeat split; try (exists 5%nat)].
  destruct (alloc_ok (TempBuf 3) [N; H]); [discriminate Ha|].
  now repeat split; try (exists 5%nat).
Qed.

(** Two continuations that agree give the same sequenced computation. *)
Lemma bind_ext (X Y : Type) (c : M T X) (k k' : X -> M T Y) st :
  (forall v st', k v st' = k' v st') -> bind c k st = bind c k' st.
Proof.
  intros E. unfold bind. destruct (c st) as [[v| |] st']; [apply E|reflexivity..].
Qed.

Lemma forward_loop_view training prob ctx ctx' hz fwd
      output v_out tmp_Wx tmp_Rh idxs :
  forward_view_eq ctx ctx' ->
  forall h st,
  forward_loop FI training prob ctx hz fwd output v_out tmp_Wx tmp_Rh idxs h st =
  forward_loop FI training prob ctx' hz fwd output v_out tmp_Wx tmp_Rh idxs h st.
Proof.
  intros (Ex & Em & [_ Ek] & [_ Er] & Eb & Erb).
  induction idxs as [|i rest IH]; intros h st; [reflexivity|].
  cbn [forward_loop]. unfold bind.
  assert (E : forward_body FI training prob ctx hz fwd output v_out tmp_Wx tmp_Rh h i st =
              forward_body FI training prob ctx' hz fwd output v_out tmp_Wx tmp_Rh h i st).
  { unfold forward_body, data. cbv zeta. now rewrite Ex, Em, Ek, Er, Eb, Erb. }
  rewrite E.
  destruct (forward_body FI training prob ctx' hz fwd output v_out tmp_Wx
              tmp_Rh h i st) as [[nh| |] st']; auto.
Qed.

(** X20. What the forward kernel does not look at. Two forward calls whose
    inputs agree on [x], on the zoneout mask, on the first dimension and
    the buffer of [kernel] and of [recurrent_kernel] and on the buffers of
    the two biases behave identically, whatever the remaining dimensions
    of the kernels and the shapes of the biases are: in particular the
    kernel never compares the hidden size against [kernel], [bias] or
    [recurrent_bias]. *)
Theorem forward_ignores_unread_shapes training prob ctx ctx' st :
  forward_view_eq ctx ctx' ->
  HasteGruOp_Compute zero FI alloc_ok training prob ctx st =
  HasteGruOp_Compute zero FI alloc_ok training prob ctx' st.
Proof.
  intros V. pose proof V as (Ex & Em & [Ek _] & [Er _] & _).
  unfold HasteGruOp_Compute, dim_size. cbv zeta. rewrite <- Ex, <- Em, <- Ek, <- Er.
  repeat (apply bind_ext; intros).
  now apply forward_loop_view.
Qed.

Lemma backward_loop_view ctx ctx' hz bwd dx dW dR dbx dbr dh dp dq zv idxs :
  backward_view_eq ctx ctx' ->
  forall st,
  backward_loop BI ctx hz bwd dx dW dR dbx dbr dh dp dq zv idxs st =
  backward_loop BI ctx' hz bwd dx dW dR dbx dbr dh dp dq zv idxs st.
Proof.
  intros (Ex & Eh & Ev & Ed & Em & [_ Er] & Ek & Eb & Erb).
  induction idxs as [|i rest IH]; intros st; [reflexivity|].
  cbn [backward_loop]. unfold bind.
  assert (E : backward_body BI ctx hz bwd dx dW dR dbx dbr dh dp dq zv i st =
              backward_body BI ctx' hz bwd dx dW dR dbx dbr dh dp dq zv i st).
  { unfold backward_body, data. cbv zeta.
    now rewrite Ex, Eh, Ev, Ed, Em, Er, Ek, Eb, Erb. }
  rewrite E.
  destruct (backward_body BI ctx' hz bwd dx dW dR dbx dbr dh dp dq zv i st)
    as [[[]| |] st']; auto.
Qed.

(** X21. What the gradient kernel does not look at. Two gradient calls
    whose inputs agree on [x_t], [h_t], [v], [dh_new] and the zoneout mask,
    on the second dimension and the buffer of [recurrent_kernel_t] and on
    the buffers of [kernel_t] and of the two biases behave identically:
    the shape of [kernel_t] and of the biases, and the first dimension of
    [recurrent_kernel_t], are never read, so no mismatch among them is
    ever reported. *)
Theorem backward_ignores_unread_shapes ctx ctx' st :
  backward_view_eq ctx ctx' ->
  HasteGruGradOp_Compute zero BI alloc_ok ctx st =
  HasteGruGradOp_Compute zero BI alloc_ok ctx' st.
Proof.
  intros V. pose proof V as (Ex & _ & _ & _ & Em & [Er _] & _).
  unfold HasteGruGradOp_Compute, dim_size. cbv zeta. rewrite <- Ex, <- Em, <- Er.
  repeat (apply bind_ext; intros).
  now apply backward_loop_view.
Qed.

(** X22. The registered shape function does not know about [training]. On
    every legal problem size, with inputs of the registered shapes, it
    announces [T,N,H] for [h] and [T,N,4H] for [v]; the [v] the kernel
    allocates has the announced shape exactly when the op is training or
    the hidden size is zero. *)
Theorem inferred_v_shape_ignores_training training prob ctx m p Tn N C H :
  legal_size Tn N C H ->
  forward_shapes ctx Tn N C H ->
  (forall b s, alloc_ok b s = true) ->
  Cuda.wf p ->
  let r := HasteGruOp_Compute zero FI alloc_ok training prob ctx (start m p) in
  exists h v,
    st_outputs (snd r) = [(0%nat, h); (1%nat, v)] /\
    HasteGru_ShapeFn ctx = Done (shape h, [Tn; N; 4 * H]) /\
    (shape v = [Tn; N; 4 * H] <-> training = true \/ H = 0).
Proof.
  intros L S Ha Hw. cbv zeta.
  destruct (legal_forward_ready training L S Ha Hw) as (handle & p' & Hr).
  rewrite (forward_compute_ready prob m Hr).
  cbn [fst snd after_calls st_calls st_outputs fw_loop_start app].
  exists (fw_output Tn N H), (fw_v_out training Tn N H).
  split; [reflexivity|]. split; [exact (legal_shape_fn L S)|].
  unfold fw_v_out, fresh_tensor. cbn [shape].
  assert (E4 : mul64 H 4 = 4 * H)
    by (unfold legal_size in L; rewrite mul64_small; lia).
  destruct training.
  - rewrite E4. split; [now left|reflexivity].
  - split.
    + intros E. right. assert (E' : nth 2 [Tn; N; 0] 0 = nth 2 [Tn; N; 4 * H] 0) by now rewrite E.
      cbn [nth] in E'. lia.
    + intros [F| ->]; [discriminate F|reflexivity].
Qed.
End KernelFacts.

(* ====================================================================== *)
(** * The theorems at work on the concrete instance *)
(* ====================================================================== *)

Section Samples.
Import TF Gru.
Local Open Scope Z_scope.

Lemma sample_alloc_serves : forall b s, sample_alloc b s = true.
Proof. reflexivity. Qed.

Lemma sample_process_wf : Cuda.wf sample_process.
Proof. split; [cbn; lia|exact I]. Qed.

Lemma sample_legal : legal_size 2 1 1 1.
Proof. unfold legal_size, int64_max. lia. Qed.

Lemma empty_legal : legal_size 0 1 1 1.
Proof. unfold legal_size, int64_max. lia. Qed.

Lemma sample_forward_shapes : forward_shapes sample_inputs 2 1 1 1.
Proof. repeat split; try reflexivity. now left. Qed.

Lemma sample_backward_shapes : backward_shapes sample_grad_inputs 2 1 1 1.
Proof. repeat split; try reflexivity. now left. Qed.

Lemma empty_forward_shapes : forward_shapes empty_inputs 0 1 1 1.
Proof. repeat split; try reflexivity. now left. Qed.

Lemma empty_backward_shapes : backward_shapes empty_grad_inputs 0 1 1 1.
Proof. repeat split; try reflexivity. now left. Qed.

Lemma sample_backward_run_eq c :
  sample_backward_run c =
  HasteGruGradOp_Compute 0 sample_backward sample_alloc c
                         (start sample_mem sample_process).
Proof. reflexivity. Qed.

Lemma sample_forward_run_eq training prob c :
  sample_forward_run training prob c =
  HasteGruOp_Compute 0 sample_forward sample_alloc training prob c
                     (start sample_mem sample_process).
Proof. reflexivity. Qed.

(** The sample reverse engine writes only [dx] and the accumulators. *)
Lemma sample_backward_frame : bw_frame sample_backward.
Proof.
  intros e a m b j H. unfold bw_writable in H. cbn [existsb] in H.
  apply orb_false_elim in H as [Hdx H].
  apply orb_false_elim in H as [HdW H].
  apply orb_false_elim in H as [HdR H].
  apply orb_false_elim in H as [Hdbx H].
  apply orb_false_elim in H as [Hdbr _].
  unfold sample_backward, bw_accumulators. cbn [existsb].
  rewrite HdW, HdR, Hdbx, Hdbr. cbn [orb].
  destruct (ba_dx a) as [[bx base]|]; [|reflexivity].
  cbn [points_into] in Hdx. now rewrite Hdx.
Qed.

(** The sample reverse engine adds one to every accumulator element. *)
Lemma sample_backward_accumulates :
  bw_accumulates sample_backward Z.add (fun _ _ _ _ _ => 1).
Proof.
  split; [intros e a m m' b j _; reflexivity|].
  intros e a m b j H. unfold sample_backward. now rewrite H.
Qed.

(** The contract tells accumulation from overwriting: whatever the
    contribution is taken to be, the engine that overwrites the
    accumulators does not meet it. *)
Lemma overwriting_engine_does_not_accumulate delta :
  ~ bw_accumulates overwriting_backward Z.add delta.
Proof.
  intros [Hind Hadd].
  pose (e := mkBackwardPass 1 1 1 0%nat).
  pose (m1 := (fun _ _ => 0) : Mem Z).
  pose (m2 := (fun b _ => if buffer_eqb b (OutputBuf 1) then 1 else 0) : Mem Z).
  pose proof (Hadd e only_dW m1 (OutputBuf 1) 0 eq_refl) as E1.
  pose proof (Hadd e only_dW m2 (OutputBuf 1) 0 eq_refl) as E2.
  assert (Ed : delta e only_dW m1 (OutputBuf 1) 0 = delta e only_dW m2 (OutputBuf 1) 0).
  { apply Hind. intros b' j' Hb. unfold m1, m2.
    cbn in Hb. rewrite orb_false_r in Hb.
    now rewrite Hb. }
  set (d1 := delta e only_dW m1 (OutputBuf 1) 0) in *.
  set (d2 := delta e only_dW m2 (OutputBuf 1) 0) in *.
  change (7 = 0 + d1) in E1. change (7 = 1 + d2) in E2. lia.
Qed.

Lemma zoneout_mask_same_in_both_passes_witness :
  mask_args (st_calls (snd (sample_forward_run true float_half sample_inputs))) =
  rev (mask_args (st_calls (snd (sample_backward_run sample_grad_inputs)))).
Proof.
  apply (zoneout_mask_same_in_both_passes 0 sample_forward sample_backward
           sample_alloc true float_half sample_inputs sample_grad_inputs
           sample_mem sample_process sample_mem sample_process (Tn:=2)).
  - reflexivity.
  - reflexivity.
  - reflexivity.
  - left; reflexivity.
  - vm_compute; reflexivity.
  - vm_compute; reflexivity.
Defined.

(** C1, as stated, fails: with probability zero and a mask that has
    elements, the forward calls get a null mask and the gradient calls
    get the slices of the mask. *)
Lemma zoneout_mask_differs_when_probability_zero :
  HasteGru.zoneout_mask sample_inputs = HasteGruGrad.zoneout_mask sample_grad_inputs /\
  fst (sample_forward_run true float_zero sample_inputs) = Done tt /\
  fst (sample_backward_run sample_grad_inputs) = Done tt /\
  mask_args (st_calls (snd (sample_forward_run true float_zero sample_inputs))) =
    [nullptr; nullptr] /\
  mask_args (st_calls (snd (sample_backward_run sample_grad_inputs))) =
    [Some (InputBuf 5, 1); Some (InputBuf 5, 0)].
Proof. repeat split; vm_compute; reflexivity. Qed.

Lemma forward_output_shapes_witness :
  legal_size 2 1 1 1 /\
  forward_shapes sample_inputs 2 1 1 1 /\
  fst (sample_forward_run false float_half sample_inputs) = Done tt /\
  map (fun o => (fst o, shape (snd o)))
      (st_outputs (snd (sample_forward_run false float_half sample_inputs))) =
    [(0%nat, [2; 1; 1]); (1%nat, [2; 1; 0])].
Proof.
  split; [exact sample_legal|]. split; [exact sample_forward_shapes|].
  destruct (forward_output_shapes 0 sample_forward sample_backward sample_alloc
              false float_half sample_mem
              sample_legal sample_forward_shapes sample_alloc_serves
              sample_process_wf) as (A & B & _).
  split; [exact A|exact B].
Defined.

Lemma forward_rejects_feature_mismatch_witness :
  2 <> 5 /\
  sample_forward_run true float_half mismatched_inputs =
  (Failed InvalidArgument, start sample_mem sample_process).
Proof.
  split; [discriminate|].
  apply (forward_rejects_feature_mismatch 0 sample_forward sample_alloc
           true float_half mismatched_inputs sample_mem sample_process
           (Tn:=1) (N:=1) (C:=2) (C':=5) (H:=1)); try reflexivity.
  discriminate.
Defined.

(** C3, as stated, fails: a gradient call whose input has two features
    while [kernel_t] is laid out for five is not rejected; it ends
    normally after an [Iterate] call. *)
Lemma backward_runs_on_feature_mismatch :
  dim_size (HasteGruGrad.x_t mismatched_grad_inputs) 1 = Done 2 /\
  dim_size (HasteGruGrad.kernel_t mismatched_grad_inputs) 1 = Done 5 /\
  fst (sample_backward_run mismatched_grad_inputs) = Done tt /\
  length (st_calls (snd (sample_backward_run mismatched_grad_inputs))) = 1%nat.
Proof. repeat split; vm_compute; reflexivity. Qed.

Lemma zoneout_off_is_no_zoneout_witness :
  sample_forward_run true float_zero sample_inputs =
  sample_forward_run true float_zero (without_mask sample_inputs).
Proof.
  apply (zoneout_off_is_no_zoneout 0 sample_forward sample_backward sample_alloc
           true float_zero sample_inputs sample_mem sample_process).
  left; reflexivity.
Defined.

Lemma zero_length_sequence_witness :
  legal_size 0 1 1 1 /\
  fst (sample_forward_run true float_half empty_inputs) = Done tt /\
  st_calls (snd (sample_forward_run true float_half empty_inputs)) = [] /\
  fst (sample_backward_run empty_grad_inputs) = Done tt /\
  st_calls (snd (sample_backward_run empty_grad_inputs)) = [].
Proof.
  split; [exact empty_legal|].
  destruct (zero_length_sequence 0 sample_forward sample_backward sample_alloc
              true float_half sample_mem
              empty_legal empty_forward_shapes empty_backward_shapes
              sample_alloc_serves sample_process_wf)
    as ((A & B & _) & (C & D & _)).
  repeat split; assumption.
Defined.

Lemma initial_hidden_state_is_zero_witness :
  bw_frame sample_backward /\
  (exists e a mc rest,
     st_calls (snd (sample_forward_run true float_half sample_inputs)) =
       (FwIterate e a, mc) :: rest /\
     reads_zero 0 mc (fa_h a) (1 * 1)) /\
  (exists e a mc,
     nth_error (st_calls (snd (sample_backward_run sample_grad_inputs))) 1
       = Some (BwIterate e a, mc) /\
     reads_zero 0 mc (ba_h a) (1 * 1)).
Proof.
  split; [exact sample_backward_frame|].
  destruct (initial_hidden_state_is_zero 0 sample_forward sample_backward
              sample_alloc) as (_ & _ & _ & Hfw & Hbw).
  split.
  - destruct (Hfw true float_half sample_inputs sample_mem sample_process
                2 1 1 1 sample_legal sample_forward_shapes sample_alloc_serves
                sample_process_wf eq_refl)
      as (_ & _ & e & a & mc & rest & E & _ & _ & Hz).
    rewrite sample_forward_run_eq. exists e, a, mc, rest. now split.
  - destruct (Hbw sample_grad_inputs sample_mem sample_process 2 1 1 1
                sample_backward_frame sample_legal sample_backward_shapes
                sample_alloc_serves sample_process_wf eq_refl)
      as (_ & e & a & mc & E & _ & _ & Hz).
    rewrite sample_backward_run_eq. exists e, a, mc. now split.
Defined.

Lemma gradient_accumulators_witness :
  bw_accumulates sample_backward Z.add (fun _ _ _ _ _ => 1) /\
  legal_size 2 1 1 1 /\
  length (st_calls (snd (sample_backward_run sample_grad_inputs))) = 2%nat /\
  st_mem (snd (sample_backward_run sample_grad_inputs)) (OutputBuf 1) 0 =
    accumulated 0 Z.add (fun _ _ _ _ _ => 1)
                (st_calls (snd (sample_backward_run sample_grad_inputs)))
                (OutputBuf 1) 0 /\
  accumulated 0 Z.add (fun _ _ _ _ _ => 1)
              (st_calls (snd (sample_backward_run sample_grad_inputs)))
              (OutputBuf 1) 0 = 2.
Proof.
  split; [exact sample_backward_accumulates|]. split; [exact sample_legal|].
  rewrite sample_backward_run_eq.
  destruct (gradient_accumulators 0 sample_forward sample_backward sample_alloc
              sample_grad_inputs sample_mem sample_process)
    as (cs & m0 & Ec & Em & Hlegal & Hc & Hsum).
  destruct (Hlegal 2 1 1 1 sample_legal sample_backward_shapes sample_alloc_serves
                   sample_process_wf) as [_ Hl].
  change (Z.to_nat 2) with 2%nat in Hl.
  split; [rewrite Ec, (trace_length sample_forward sample_backward); exact Hl|].
  split.
  - destruct cs as [|c cs]; [discriminate Hl|].
    destruct (Hc 0%nat c eq_refl) as (e & a & -> & _).
    apply (Hsum Z.add (fun _ _ _ _ _ => 1) sample_backward_accumulates e a);
      [reflexivity|].
    cbn [trace] in Ec.
    assert (Ea : map fst (st_calls (snd (sample_backward_run sample_grad_inputs)))
                 = BwIterate e a :: map fst (trace sample_forward sample_backward cs
                       (run_iterate sample_forward sample_backward (BwIterate e a) m0)))
      by (rewrite sample_backward_run_eq, Ec; reflexivity).
    vm_compute in Ea. inversion Ea. reflexivity.
  - rewrite <- sample_backward_run_eq. vm_compute. reflexivity.
Defined.

Lemma cublas_handle_cache_witness :
  0 <= 0 < 2 /\
  fst (Cuda.run [Cuda.Lookup; Cuda.SelectDevice 1; Cuda.Lookup]
                (Cuda.fresh_process 2 0)) =
    [(0, Some 0%nat); (1, Some 1%nat)] /\
  forall d,
    (length (Cuda.handles_on d
               (Cuda.runtime
                  (snd (Cuda.run [Cuda.Lookup; Cuda.SelectDevice 1; Cuda.Lookup]
                                 (Cuda.fresh_process 2 0))))) <= 1)%nat.
Proof.
  split; [lia|]. split; [reflexivity|].
  exact (proj1 (cublas_handle_cache
                  [Cuda.Lookup; Cuda.SelectDevice 1; Cuda.Lookup]
                  (conj (Z.le_refl 0) (eq_refl : (0 ?= 2) = Lt)))).
Defined.

Lemma handle_creation_restores_device_witness :
  Cuda.rt_current_device
    (Cuda.runtime (snd (Cuda.GetCublasHandle (Cuda.fresh_process 4 2)))) = 2.
Proof.
  apply (handle_creation_restores_device (Cuda.fresh_process 4 2)).
  cbn. lia.
Defined.
End Samples.

(* ====================================================================== *)
(** * The further facts at work on the concrete instance *)
(* ====================================================================== *)

Section MoreSamples.
Import TF Gru.
Local Open Scope Z_scope.

Lemma buffer_eqb_sym a b : buffer_eqb a b = buffer_eqb b a.
Proof. destruct a, b; cbn; try reflexivity; apply Nat.eqb_sym. Qed.

(** The sample forward engine writes only to the slice it is handed as
    [h_out]. *)
Lemma sample_forward_frame : fw_frame sample_forward.
Proof.
  intros e a m b j H. unfold fw_writable in H. cbn [existsb] in H.
  apply orb_false_elim in H as [Hout _].
  unfold sample_forward.
  destruct (fa_h_out a) as [[bo base]|]; [|reflexivity].
  cbn [points_into] in Hout. rewrite buffer_eqb_sym in Hout. now rewrite Hout.
Qed.

Lemma sample_process_cached : Cuda.cached 1 sample_process.
Proof. apply cached_fresh. lia. Qed.

Lemma hidden_state_is_chained_witness :
  exists c1 c2,
    nth_error (map fst (st_calls (snd (sample_forward_run true float_half
                                         sample_inputs)))) 0 = Some c1 /\
    nth_error (map fst (st_calls (snd (sample_forward_run true float_half
                                         sample_inputs)))) 1 = Some c2 /\
    call_h c2 = call_h_out c1.
Proof.
  destruct (nth_error (map fst (st_calls (snd (sample_forward_run true float_half
                                                 sample_inputs)))) 0)
    as [c1|] eqn:E0.
  2:{ apply (f_equal (fun o => match o with Some _ => true | None => false end)) in E0.
      vm_compute in E0. discriminate E0. }
  destruct (nth_error (map fst (st_calls (snd (sample_forward_run true float_half
                                                 sample_inputs)))) 1)
    as [c2|] eqn:E1.
  2:{ apply (f_equal (fun o => match o with Some _ => true | None => false end)) in E1.
      vm_compute in E1. discriminate E1. }
  exists c1, c2. split; [reflexivity|]. split; [reflexivity|].
  rewrite sample_forward_run_eq in E0, E1.
  exact (proj2 (@hidden_state_is_chained Z 0 sample_forward sample_backward
                  sample_alloc true float_half sample_inputs sample_mem
                  sample_process) 0%nat c1 c2 E0 E1).
Defined.

Lemma forward_step_arguments_witness :
  exists c mc,
    nth_error (st_calls (snd (sample_forward_run true float_half sample_inputs))) 1
      = Some (c, mc) /\
    exists e a, c = FwIterate e a /\
      fa_x a = Some (InputBuf 0, 1) /\ fa_W a = Some (InputBuf 1, 0).
Proof.
  destruct (nth_error (st_calls (snd (sample_forward_run true float_half
                                        sample_inputs))) 1)
    as [[c mc]|] eqn:E.
  - exists c, mc. split; [reflexivity|].
    rewrite sample_forward_run_eq in E.
    destruct (@forward_step_arguments Z 0 sample_forward sample_backward
                sample_alloc true float_half sample_inputs sample_mem
                sample_process 1%nat c mc E)
      as (e & a & Tn & Ec & _ & _ & _ & _ & _ & _ & _ & HW & _ & _ & _ & Hx & _).
    exists e, a. split; [exact Ec|]. split; [rewrite Hx|rewrite HW]; reflexivity.
  - apply (f_equal (fun o => match o with Some _ => true | None => false end)) in E.
    vm_compute in E. discriminate E.
Defined.


Lemma backward_step_arguments_witness :
  exists c mc,
    nth_error (st_calls (snd (sample_backward_run sample_grad_inputs))) 0
      = Some (c, mc) /\
    exists e a, c = BwIterate e a /\
      ba_x_t a = Some (InputBuf 6, 1) /\ ba_dh_new a = Some (InputBuf 11, 1).
Proof.
  destruct (nth_error (st_calls (snd (sample_backward_run sample_grad_inputs))) 0)
    as [[c mc]|] eqn:E.
  - exists c, mc. split; [reflexivity|].
    rewrite sample_backward_run_eq in E.
    destruct (@backward_step_arguments Z 0 sample_forward sample_backward
                sample_alloc sample_grad_inputs sample_mem
                sample_process 0%nat c mc E)
      as (e & a & Tn & Ec & HT & _ & _ & _ & _ & _ & _ & _ & _ & _ & Hx & _ & Hd & _).
    exists e, a. split; [exact Ec|].
    assert (ET : Tn = 2) by (cbv in HT; congruence). subst Tn.
    split; [rewrite Hx|rewrite Hd]; reflexivity.
  - apply (f_equal (fun o => match o with Some _ => true | None => false end)) in E.
    vm_compute in E. discriminate E.
Defined.

Lemma backward_output_shapes_witness :
  legal_size 2 1 1 1 /\
  backward_shapes sample_grad_inputs 2 1 1 1 /\
  map (fun o => shape (snd o))
      (st_outputs (snd (sample_backward_run sample_grad_inputs))) =
    [[2; 1; 1]; [1; 3]; [1; 3]; [3]; [3]].
Proof.
  split; [exact sample_legal|]. split; [exact sample_backward_shapes|].
  destruct (backward_output_shapes 0 sample_forward sample_backward sample_alloc
              sample_mem
              sample_legal sample_backward_shapes sample_alloc_serves
              sample_process_wf) as (_ & _ & B & _).
  exact B.
Defined.

Lemma forward_leaves_inputs_alone_witness :
  fw_frame sample_forward /\
  st_mem (snd (sample_forward_run true float_half sample_inputs)) (InputBuf 0) 1 =
  sample_mem (InputBuf 0) 1.
Proof.
  split; [exact sample_forward_frame|].
  rewrite sample_forward_run_eq.
  exact (proj1 (@forward_leaves_inputs_alone Z 0 sample_forward sample_backward
                  sample_alloc true float_half sample_inputs sample_mem
                  sample_process sample_forward_frame 0%nat 1)).
Defined.

Lemma backward_leaves_inputs_alone_witness :
  bw_frame sample_backward /\
  st_mem (snd (sample_backward_run sample_grad_inputs)) (InputBuf 6) 0 =
  sample_mem (InputBuf 6) 0.
Proof.
  split; [exact sample_backward_frame|].
  rewrite sample_backward_run_eq.
  exact (proj1 (@backward_leaves_inputs_alone Z 0 sample_forward sample_backward
                  sample_alloc sample_grad_inputs sample_mem
                  sample_process sample_backward_frame 6%nat 0)).
Defined.

Lemma kernels_use_handle_of_selected_device_witness :
  Cuda.cached 1 sample_process /\
  Cuda.rt_current_device
    (Cuda.runtime (st_cuda (snd (sample_forward_run true float_half sample_inputs))))
  = 0 /\
  Cuda.rt_current_device
    (Cuda.runtime (st_cuda (snd (sample_backward_run sample_grad_inputs))))
  = 0.
Proof.
  split; [exact sample_process_cached|].
  rewrite sample_forward_run_eq, sample_backward_run_eq.
  destruct (@kernels_use_handle_of_selected_device Z 0 sample_forward
              sample_backward sample_alloc 1 sample_process true float_half
              sample_inputs sample_grad_inputs sample_mem sample_process_cached)
    as (_ & _ & A & _ & _ & B).
  split; [exact A|exact B].
Defined.

Lemma forward_allocation_failure_witness :
  fst (HasteGruOp_Compute 0 sample_forward short_alloc true float_half
         sample_inputs (start sample_mem sample_process))
  = Failed ResourceExhausted /\
  st_outputs (snd (HasteGruOp_Compute 0 sample_forward short_alloc true float_half
                     sample_inputs (start sample_mem sample_process)))
  = [(0%nat, fw_output 2 1 1)].
Proof.
  destruct (@forward_allocation_failure Z 0 sample_forward short_alloc true
              float_half sample_inputs sample_mem sample_process 2 1 1 1
              eq_refl eq_refl eq_refl eq_refl eq_refl
              eq_refl eq_refl eq_refl eq_refl eq_refl)
    as (A & _ & _ & _ & B).
  split; [exact A|exact B].
Defined.

Lemma backward_allocation_failure_witness :
  fst (HasteGruGradOp_Compute 0 sample_backward short_alloc sample_grad_inputs
         (start sample_mem sample_process))
  = Failed ResourceExhausted /\
  st_calls (snd (HasteGruGradOp_Compute 0 sample_backward short_alloc
                   sample_grad_inputs (start sample_mem sample_process)))
  = [].
Proof.
  destruct (@backward_allocation_failure Z 0 sample_backward short_alloc
              sample_grad_inputs sample_mem sample_process 2 1 1 1
              eq_refl eq_refl eq_refl eq_refl
              eq_refl eq_refl eq_refl eq_refl eq_refl eq_refl eq_refl)
    as (A & B & _).
  split; [exact A|exact B].
Defined.

Lemma forward_ignores_unread_shapes_witness :
  forward_view_eq sample_inputs reshaped_inputs /\
  sample_forward_run true float_half sample_inputs =
  sample_forward_run true float_half reshaped_inputs.
Proof.
  assert (V : forward_view_eq sample_inputs reshaped_inputs)
    by (repeat split; reflexivity).
  split; [exact V|].
  exact (@forward_ignores_unread_shapes Z 0 sample_forward sample_alloc true
           float_half sample_inputs reshaped_inputs
           (start sample_mem sample_process) V).
Defined.

Lemma backward_ignores_unread_shapes_witness :
  backward_view_eq sample_grad_inputs reshaped_grad_inputs /\
  sample_backward_run sample_grad_inputs =
  sample_backward_run reshaped_grad_inputs.
Proof.
  assert (V : backward_view_eq sample_grad_inputs reshaped_grad_inputs)
    by (repeat split; reflexivity).
  split; [exact V|].
  exact (@backward_ignores_unread_shapes Z 0 sample_backward sample_alloc
           sample_grad_inputs reshaped_grad_inputs
           (start sample_mem sample_process) V).
Defined.

Lemma inferred_v_shape_ignores_training_witness :
  exists h v,
    st_outputs (snd (sample_forward_run false float_half sample_inputs)) =
      [(0%nat, h); (1%nat, v)] /\
    HasteGru_ShapeFn sample_inputs = Done (shape h, [2; 1; 4]) /\
    shape v <> [2; 1; 4].
Proof.
  destruct (inferred_v_shape_ignores_training 0 sample_forward sample_backward
              sample_alloc false float_half sample_mem
              sample_legal sample_forward_shapes sample_alloc_serves
              sample_process_wf) as (h & v & Eo & Es & Hiff).
  exists h, v. split; [exact Eo|]. split; [exact Es|].
  intros E. apply Hiff in E. destruct E as [F|F]; discriminate F.
Defined.
End MoreSamples.
